(** * Personal-Assistant-MCP-Agent: intent classification and response routing

    A shallow embedding of the message pipeline of the WhatsApp agent
    (the main script and [phone-integration.js]) and the proofs of the
    properties its specification states.

    Modelling conventions.
    - A JavaScript string is a [string] of 8-bit characters.  The model is
      exact on ASCII text: [toUpperCase]/[toLowerCase] map the ASCII letters,
      and [trim] strips the ASCII part of the ECMAScript WhiteSpace and
      LineTerminator classes (TAB, LF, VT, FF, CR, SP).  [length] counts
      characters, as [.length] counts code units.
    - [undefined]/[null] string-valued expressions are [option string].
    - The script runs in a monad [M] over a [World]: the mutable module-level
      variables ([userPersona], [ALLOWED_GROUP_IDS]) and the trace of external
      calls.  A computation yields [Ok v] or [Throw e]; the world survives a
      throw, as mutations made before a JavaScript exception do.
    - The collaborators outside the repository (the language model, HTTP,
      the file system, the chat transport, the clock) are fields of [Env];
      their outcome may depend on the whole history of external calls, so a
      stateful or flaky service is an instance. *)

From Stdlib Require Import String Ascii List ZArith Lia Bool Arith DecimalString.
From Stdlib Require DecimalNat.
Import ListNotations.
Set Warnings "-register-all".
Open Scope string_scope.
Open Scope nat_scope.

(* ================================================================== *)
(** ** JavaScript string primitives used by the script *)

Module JsString.

(** The double quote and the line feed, for template literals. *)
Definition dq : string := String (ascii_of_nat 34) EmptyString.
Definition nl : string := String (ascii_of_nat 10) EmptyString.

Definition toUpperChar (c : ascii) : ascii :=
  let n := nat_of_ascii c in
  if (97 <=? n) && (n <=? 122) then ascii_of_nat (n - 32) else c.

Definition toLowerChar (c : ascii) : ascii :=
  let n := nat_of_ascii c in
  if (65 <=? n) && (n <=? 90) then ascii_of_nat (n + 32) else c.

(** [s.toUpperCase()] *)
Fixpoint toUpperCase (s : string) : string :=
  match s with
  | EmptyString => EmptyString
  | String c r => String (toUpperChar c) (toUpperCase r)
  end.

(** [s.toLowerCase()] *)
Fixpoint toLowerCase (s : string) : string :=
  match s with
  | EmptyString => EmptyString
  | String c r => String (toLowerChar c) (toLowerCase r)
  end.

(** [s.startsWith(p)] *)
Definition startsWith (s p : string) : bool := String.prefix p s.

(** [s.substring(n)]: the characters from index [n] on. *)
Fixpoint substring (n : nat) (s : string) : string :=
  match n, s with
  | O, _ => s
  | S n', EmptyString => EmptyString
  | S n', String _ r => substring n' r
  end.

(** TAB, LF, VT, FF, CR and SP. *)
Definition isWhiteSpace (c : ascii) : bool :=
  let n := nat_of_ascii c in
  ((9 <=? n) && (n <=? 13)) || (n =? 32).

Fixpoint trimStart (s : string) : string :=
  match s with
  | EmptyString => EmptyString
  | String c r => if isWhiteSpace c then trimStart r else s
  end.

Fixpoint trimEnd (s : string) : string :=
  match s with
  | EmptyString => EmptyString
  | String c r =>
      match trimEnd r with
      | EmptyString => if isWhiteSpace c then EmptyString else String c EmptyString
      | r' => String c r'
      end
  end.

(** [s.trim()] *)
Definition trim (s : string) : string := trimEnd (trimStart s).

(** [s.split(sep)] for a one-character separator: never the empty array,
    [''.split(':')] is [['']]. *)
Fixpoint split (sep : ascii) (s : string) : list string :=
  match s with
  | EmptyString => [EmptyString]
  | String c r =>
      if Ascii.eqb c sep then EmptyString :: split sep r
      else match split sep r with
           | h :: t => String c h :: t
           | [] => [String c EmptyString]
           end
  end.

(** [parts.join(sep)] *)
Definition join (sep : string) (parts : list string) : string :=
  String.concat sep parts.

(** [`${n}`] for a non-negative integer. *)
Definition ofNat (n : nat) : string := NilEmpty.string_of_uint (Nat.to_uint n).

(** String coercion of a possibly-[undefined] string. *)
Definition ofUndefined (o : option string) : string :=
  match o with Some s => s | None => "undefined" end.

Definition hexDigit (n : nat) : ascii :=
  if n <? 10 then ascii_of_nat (48 + n) else ascii_of_nat (55 + n).

(** Characters [encodeURIComponent] leaves alone:
    [A-Z a-z 0-9 - _ . ! ~ * ' ( )]. *)
Definition isUnreserved (c : ascii) : bool :=
  let n := nat_of_ascii c in
  ((65 <=? n) && (n <=? 90)) || ((97 <=? n) && (n <=? 122)) ||
  ((48 <=? n) && (n <=? 57)) ||
  existsb (Nat.eqb n) [45; 95; 46; 33; 126; 42; 39; 40; 41].

(** [encodeURIComponent(s)] on ASCII text. *)
Fixpoint encodeURIComponent (s : string) : string :=
  match s with
  | EmptyString => EmptyString
  | String c r =>
      if isUnreserved c then String c (encodeURIComponent r)
      else
        let n := nat_of_ascii c in
        String "%" (String (hexDigit (n / 16)) (String (hexDigit (n mod 16))
          (encodeURIComponent r)))
  end.

(** The text before the first [sep] (all of [s] when there is none) and
    the text after it (empty when there is none). *)
Fixpoint beforeFirst (sep : ascii) (s : string) : string :=
  match s with
  | EmptyString => EmptyString
  | String c r => if Ascii.eqb c sep then EmptyString else String c (beforeFirst sep r)
  end.

Fixpoint afterFirst (sep : ascii) (s : string) : string :=
  match s with
  | EmptyString => EmptyString
  | String c r => if Ascii.eqb c sep then r else afterFirst sep r
  end.

Fixpoint contains (sep : ascii) (s : string) : bool :=
  match s with
  | EmptyString => false
  | String c r => Ascii.eqb c sep || contains sep r
  end.

Fixpoint allWhiteSpace (s : string) : bool :=
  match s with
  | EmptyString => true
  | String c r => isWhiteSpace c && allWhiteSpace r
  end.

(** First and last character, when there is one. *)
Definition first (s : string) : option ascii :=
  match s with EmptyString => None | String c _ => Some c end.

Fixpoint last (s : string) : option ascii :=
  match s with
  | EmptyString => None
  | String c EmptyString => Some c
  | String _ r => last r
  end.

End JsString.
Import JsString.

(* ================================================================== *)
(** ** Data model *)

(** One record of [userPersona.messageHistory]. *)
Record HistoryEntry := {
  role : string;
  content : string;
  timestamp : Z
}.

(** [userPersona]: both arrays grow at the end ([push]) and are evicted at
    the front ([shift]). *)
Record Persona := {
  messageHistory : list HistoryEntry;
  styleSamples : list string
}.

(** The values the device capabilities return and [JSON.stringify] reads.
    Numbers are the integers. *)
Inductive JsValue :=
| JsUndefined
| JsNull
| JsBool (b : bool)
| JsNumber (z : Z)
| JsStr (s : string)
| JsArray (items : list JsValue)
| JsObject (fields : list (string * JsValue)).

(** A thrown [Error]; only [error.message] is ever read. *)
Record JsError := { message : string }.

(** The object [analyzeWithAI] returns.  A field the object literal leaves
    out is [None] ([undefined]); [response: null] is [None] as well. *)
Record Analysis := {
  needsSearch : bool;
  needsPhoneAccess : bool;
  searchQuery : option string;
  phoneAccessType : option string;
  phoneAccessQuery : option string;
  response : option string
}.

(** One entry of the array [googleSearch] returns. *)
Record SearchResult := {
  title : string;
  link : option string;
  snippet : string
}.

(** What cheerio finds in one [.g] element of a result page. *)
Record GElement := {
  h3_length : nat;
  h3_text : string;
  a_length : nat;
  a_href : option string;
  snippet_text : string
}.

(** The chat of a message, as [message.getChat()] resolves it. *)
Record Chat := {
  id_serialized : string;
  isGroup : bool
}.

(** An inbound message of the transport. *)
Record Message := {
  from : string;
  body : string;
  fromMe : bool
}.

(** The flags read from the process environment at start-up.
    [MAX_SEARCH_RESULTS] is the result of [parseInt]; [NaN] acts as [0] in
    [slice] and is represented by it. *)
Record Config := {
  MAX_SEARCH_RESULTS : Z;
  SEARCH_ENABLED : bool;
  AI_MODEL : string;
  PHONE_INTEGRATION_ENABLED : bool;
  USER_PERSONA_ENABLED : bool;
  USER_PERSONA_LEARNING_MODE : bool;
  GROUP_RESTRICTION_ENABLED : bool;
  DEBUG_MODE : bool
}.

(* ================================================================== *)
(** ** The world and the monad of the script *)

(** Calls that leave the process, most recent first. *)
Inductive Event :=
| EvGenerateContent (model prompt : string)
| EvAxiosGet (url : string)
| EvMkdir (path : string)
| EvWriteFile (path data : string)
| EvGetChat (msg : Message)
| EvReply (msg : Message) (text : option string)
| EvConsoleLog (line : string)
| EvConsoleError (label : string) (error : JsError).

Definition Trace := list Event.

Record World := {
  userPersona : Persona;
  ALLOWED_GROUP_IDS : list string;
  trace : Trace
}.

Inductive Outcome (A : Type) :=
| Ok (a : A)
| Throw (e : JsError).
Arguments Ok {A} a.
Arguments Throw {A} e.

Definition M (A : Type) : Type := World -> Outcome A * World.

Definition ret {A} (a : A) : M A := fun w => (Ok a, w).

Definition bind {A B} (c : M A) (k : A -> M B) : M B :=
  fun w =>
    match c w with
    | (Ok a, w') => k a w'
    | (Throw e, w') => (Throw e, w')
    end.

(** [try { body } catch (error) { handler }] *)
Definition try_catch {A} (body : M A) (handler : JsError -> M A) : M A :=
  fun w =>
    match body w with
    | (Ok a, w') => (Ok a, w')
    | (Throw e, w') => handler e w'
    end.

Definition throw {A} (e : JsError) : M A := fun w => (Throw e, w).

Definition liftOutcome {A} (o : Outcome A) : M A := fun w => (o, w).

Declare Scope js_scope.
Delimit Scope js_scope with js.
Notation "x <- c ;; k" := (bind c (fun x => k))
  (at level 61, c at next level, right associativity) : js_scope.
Notation "c ;; k" := (bind c (fun _ => k))
  (at level 61, right associativity) : js_scope.
Open Scope js_scope.

Definition set_trace (t : Trace) (w : World) : World :=
  {| userPersona := userPersona w;
     ALLOWED_GROUP_IDS := ALLOWED_GROUP_IDS w;
     trace := t |}.

Definition set_userPersona (p : Persona) (w : World) : World :=
  {| userPersona := p;
     ALLOWED_GROUP_IDS := ALLOWED_GROUP_IDS w;
     trace := trace w |}.

(** Reading and assigning the module-level variables. *)
Definition get_userPersona : M Persona := fun w => (Ok (userPersona w), w).
Definition get_ALLOWED_GROUP_IDS : M (list string) :=
  fun w => (Ok (ALLOWED_GROUP_IDS w), w).
Definition modify_userPersona (f : Persona -> Persona) : M unit :=
  fun w => (Ok tt, set_userPersona (f (userPersona w)) w).

(** A call that leaves the process: its outcome is the collaborator's
    answer to the history so far, and the call joins the history. *)
Definition external {A} (answer : Trace -> Outcome A) (ev : Event) : M A :=
  fun w => (answer (trace w), set_trace (ev :: trace w) w).

(** [console.log] and [console.error] never fail. *)
Definition console_log (line : string) : M unit :=
  external (fun _ => Ok tt) (EvConsoleLog line).
Definition console_error (label : string) (error : JsError) : M unit :=
  external (fun _ => Ok tt) (EvConsoleError label error).

(** The class exported by [phone-integration.js], as an interface: any
    implementation is code running in the process. *)
Record PhoneModule := {
  getContacts : M JsValue;
  searchFiles : option string -> M JsValue;
  readFile : option string -> M JsValue;
  getLocation : M JsValue;
  getCalendarEvents : M JsValue
}.

(** The collaborators of the script. *)
Record Env := {
  config : Config;
  dirname : string;
  (** [genAI.getGenerativeModel({model}).generateContent(prompt)] followed
      by [result.response.text()] *)
  generateContent : Trace -> string -> string -> Outcome string;
  (** [axios.get(url, ...)], the [data] of the reply *)
  axios_get : Trace -> string -> Outcome string;
  (** [cheerio.load(data)('.g')] *)
  cheerio_g : string -> list GElement;
  fs_mkdir : Trace -> string -> Outcome unit;
  fs_writeFile : Trace -> string -> string -> Outcome unit;
  (** [JSON.stringify(value, null, indent)]; [None] is [undefined] *)
  JSON_stringify : JsValue -> nat -> option string;
  Date_now : Trace -> Z;
  message_getChat : Trace -> Message -> Outcome Chat;
  message_reply : Trace -> Message -> option string -> Outcome unit;
  PhoneIntegration : PhoneModule
}.

(* ================================================================== *)
(** ** JavaScript value helpers *)

(** [v[key]]: reading a property of [undefined] or [null] throws. *)
Definition getProp (v : JsValue) (key : string) : Outcome JsValue :=
  match v with
  | JsUndefined | JsNull =>
      Throw {| message := "Cannot read properties of undefined (reading '" ++ key ++ "')" |}
  | JsObject fields =>
      match find (fun kv => String.eqb (fst kv) key) fields with
      | Some kv => Ok (snd kv)
      | None => Ok JsUndefined
      end
  | _ => Ok JsUndefined
  end.

(** Truthiness, as [if (v)] tests it. *)
Definition truthy (v : JsValue) : bool :=
  match v with
  | JsUndefined | JsNull => false
  | JsBool b => b
  | JsNumber z => negb (Z.eqb z 0)
  | JsStr s => negb (String.eqb s "")
  | JsArray _ | JsObject _ => true
  end.

Definition isArray (v : JsValue) : option (list JsValue) :=
  match v with JsArray items => Some items | _ => None end.

(** [`${v}`] *)
Fixpoint toTemplate (v : JsValue) : string :=
  match v with
  | JsUndefined => "undefined"
  | JsNull => "null"
  | JsBool true => "true"
  | JsBool false => "false"
  | JsNumber z => NilEmpty.string_of_int (Z.to_int z)
  | JsStr s => s
  | JsArray items =>
      join ","
        ((fix each (l : list JsValue) : list string :=
            match l with
            | [] => []
            | (JsUndefined | JsNull) :: r => EmptyString :: each r
            | x :: r => toTemplate x :: each r
            end) items)
  | JsObject _ => "[object Object]"
  end.

(** [array.slice(0, end)] *)
Definition slice0 {A} (e : Z) (l : list A) : list A :=
  if (e <? 0)%Z then firstn (length l - Z.to_nat (- e)) l
  else firstn (Z.to_nat e) l.

(** The text a [forEach((item, index) => ...)] loop appends. *)
Fixpoint forEachIndexed {A} (f : A -> nat -> string) (l : list A) (index : nat) : string :=
  match l with
  | [] => EmptyString
  | x :: r => f x index ++ forEachIndexed f r (S index)
  end.

(** [array.includes(x)] on strings *)
Definition includes (l : list string) (x : string) : bool :=
  existsb (String.eqb x) l.

(** [v === 'literal'], the test of a [switch] case *)
Definition strictEq (v : option string) (literal : string) : bool :=
  match v with Some s => String.eqb s literal | None => false end.

(** [path.join(a, b)] for two plain segments *)
Definition path_join (a b : string) : string := a ++ "/" ++ b.

Definition personaToJs (p : Persona) : JsValue :=
  JsObject
    [ ("messageHistory",
       JsArray (map (fun h => JsObject [ ("role", JsStr (role h));
                                         ("content", JsStr (content h));
                                         ("timestamp", JsNumber (timestamp h)) ])
                    (messageHistory p)));
      ("styleSamples", JsArray (map JsStr (styleSamples p))) ].

(* ================================================================== *)
(** ** phone-integration.js: the placeholder capabilities *)

Module PhoneIntegrationStub.

Definition getContacts : M JsValue :=
  console_log "PhoneIntegration: Accessing contacts would require platform-specific code" ;;
  ret (JsArray []).

Definition searchFiles (query : option string) : M JsValue :=
  console_log ("PhoneIntegration: Searching for files matching " ++ dq ++ ofUndefined query ++ dq) ;;
  ret (JsArray []).

Definition readFile (path : option string) : M JsValue :=
  console_log ("PhoneIntegration: Reading file at " ++ dq ++ ofUndefined path ++ dq) ;;
  ret (JsStr "").

Definition getLocation : M JsValue :=
  console_log "PhoneIntegration: Accessing location would require platform-specific code" ;;
  ret (JsObject [ ("latitude", JsNumber 0); ("longitude", JsNumber 0) ]).

Definition getCalendarEvents : M JsValue :=
  console_log "PhoneIntegration: Accessing calendar would require platform-specific code" ;;
  ret (JsArray []).

Definition impl : PhoneModule :=
  Build_PhoneModule getContacts searchFiles readFile getLocation getCalendarEvents.

End PhoneIntegrationStub.

(* ================================================================== *)
(** ** The main script *)

Section Script.

Variable env : Env.

Definition PERSONA_DIR : string := path_join (dirname env) "data".
Definition PERSONA_FILE : string := path_join PERSONA_DIR "user_persona.json".

(** [model.generateContent(prompt)] then [result.response.text()], with
    [model = genAI.getGenerativeModel({ model: AI_MODEL })]. *)
Definition model_generateContent (prompt : string) : M string :=
  external (fun t => generateContent env t (AI_MODEL (config env)) prompt)
           (EvGenerateContent (AI_MODEL (config env)) prompt).

Definition mkdir (path : string) : M unit :=
  external (fun t => fs_mkdir env t path) (EvMkdir path).

Definition writeFile (path data : string) : M unit :=
  external (fun t => fs_writeFile env t path data) (EvWriteFile path data).

Definition getChat (msg : Message) : M Chat :=
  external (fun t => message_getChat env t msg) (EvGetChat msg).

Definition reply (msg : Message) (text : option string) : M unit :=
  external (fun t => message_reply env t msg text) (EvReply msg text).

Definition now : M Z := fun w => (Ok (Date_now env (trace w)), w).

(** [saveUserPersona].  [fs.writeFile] rejects data that is not a string
    before it touches the file. *)
Definition saveUserPersona : M unit :=
  try_catch
    (mkdir PERSONA_DIR ;;
     userPersona <- get_userPersona ;;
     match JSON_stringify env (personaToJs userPersona) 2 with
     | Some data => writeFile PERSONA_FILE data
     | None =>
         throw {| message := "The " ++ dq ++ "data" ++ dq ++
                             " argument must be of type string. Received undefined" |}
     end)
    (fun error => console_error "Error saving user persona:" error).

(** [learnFromUserMessage] *)
Definition learnFromUserMessage (messageText : string) : M unit :=
  if String.length messageText <? 10 then ret tt
  else
    (if 30 <? String.length messageText then
       modify_userPersona (fun p =>
         {| messageHistory := messageHistory p;
            styleSamples := (styleSamples p ++ [messageText])%list |}) ;;
       userPersona <- get_userPersona ;;
       if 50 <? List.length (styleSamples userPersona) then
         modify_userPersona (fun p =>
           {| messageHistory := messageHistory p;
              styleSamples := tl (styleSamples p) |})
       else ret tt
     else ret tt) ;;
    timestamp <- now ;;
    modify_userPersona (fun p =>
      {| messageHistory :=
           (messageHistory p ++
              [ {| role := "user"; content := messageText; timestamp := timestamp |} ])%list;
         styleSamples := styleSamples p |}) ;;
    userPersona <- get_userPersona ;;
    (if 100 <? List.length (messageHistory userPersona) then
       modify_userPersona (fun p =>
         {| messageHistory := tl (messageHistory p);
            styleSamples := styleSamples p |})
     else ret tt) ;;
    saveUserPersona.

Definition pad17 : string := "                 ".
Definition pad15 : string := "               ".

Definition analysisPrompt (text : string) : string :=
  "You are a helpful WhatsApp assistant that understands user messages and determines what action to take."
  ++ nl ++ pad17 ++
  "You can either provide a direct response, indicate a need to search for information online,"
  ++ nl ++ pad17 ++
  "or indicate a need to access phone data (contacts, files, calendar, or location)."
  ++ nl ++ pad17
  ++ nl ++ pad17 ++
  "Analyze this message and decide what action to take: " ++ dq ++ text ++ dq ++ "."
  ++ nl ++ pad17 ++
  "If web search is needed, respond with " ++ dq ++ "SEARCH: <search query>" ++ dq ++ "."
  ++ nl ++ pad17 ++
  "If phone data access is needed, respond with " ++ dq ++ "PHONE: <type>:<query>" ++ dq
  ++ " where type is contacts, files, calendar, or location."
  ++ nl ++ pad17 ++
  "If neither is needed, provide a direct helpful response.".

Definition analysisFallback : string :=
  "I'm having trouble understanding your message right now. Could you please try again?".

(** [analyzeWithAI] *)
Definition analyzeWithAI (text : string) : M Analysis :=
  try_catch
    (let prompt := analysisPrompt text in
     response <- model_generateContent prompt ;;
     if startsWith (toUpperCase response) "SEARCH:" then
       let searchQuery := trim (substring (String.length "SEARCH:") response) in
       ret {| needsSearch := true;
              needsPhoneAccess := false;
              searchQuery := Some searchQuery;
              phoneAccessType := None;
              phoneAccessQuery := None;
              response := None |}
     else if startsWith (toUpperCase response) "PHONE:" then
       let phoneCommand := trim (substring (String.length "PHONE:") response) in
       let parts := split ":" phoneCommand in
       let phoneAccessType := hd_error parts in
       let queryParts := tl parts in
       let phoneAccessQuery := trim (join ":" queryParts) in
       match phoneAccessType with
       | Some phoneAccessType =>
           ret {| needsSearch := false;
                  needsPhoneAccess := true;
                  searchQuery := None;
                  phoneAccessType := Some (toLowerCase phoneAccessType);
                  phoneAccessQuery := Some phoneAccessQuery;
                  response := None |}
       | None =>
           throw {| message := "Cannot read properties of undefined (reading 'toLowerCase')" |}
       end
     else
       ret {| needsSearch := false;
              needsPhoneAccess := false;
              searchQuery := None;
              phoneAccessType := None;
              phoneAccessQuery := None;
              response := Some response |})
    (fun error =>
       console_error "Error analyzing with Gemini AI:" error ;;
       ret {| needsSearch := false;
              needsPhoneAccess := false;
              searchQuery := None;
              phoneAccessType := None;
              phoneAccessQuery := None;
              response := Some analysisFallback |}).

Definition personaFallback : string :=
  "I'm having trouble responding in your style right now. I'll get back to normal mode.".

(** [generatePersonaResponse] *)
Definition generatePersonaResponse (messageText : string) : M string :=
  try_catch
    (userPersona <- get_userPersona ;;
     let prompt :=
       "You need to respond to this message in a way that mimics the user's writing style."
       ++ nl ++ pad17 ++ "Here are examples of how the user writes:"
       ++ nl ++ pad17
       ++ nl ++ pad17 in
     let sampleCount := Nat.min (List.length (styleSamples userPersona)) 5 in
     let prompt := prompt ++
       forEachIndexed
         (fun sample i => "Example " ++ ofNat (i + 1) ++ ": " ++ dq ++ sample ++ dq ++ nl ++ nl)
         (firstn sampleCount (styleSamples userPersona)) 0 in
     let prompt := prompt ++ "Message to respond to: " ++ dq ++ messageText ++ dq ++ nl ++ nl in
     let prompt := prompt ++
       "Write a response that sounds exactly like it was written by the same person who wrote the example messages."
       ++ nl ++ pad15 ++
       "Match their tone, formality level, sentence structure, vocabulary, and any distinctive patterns." in
     model_generateContent prompt)
    (fun error =>
       console_error "Error generating persona response:" error ;;
       ret personaFallback).

(** [googleSearch] *)
Definition googleSearch (query : option string) : M (list SearchResult) :=
  try_catch
    (let searchUrl :=
       "https://www.google.com/search?q=" ++ encodeURIComponent (ofUndefined query) in
     data <- external (fun t => axios_get env t searchUrl) (EvAxiosGet searchUrl) ;;
     let results :=
       flat_map
         (fun element =>
            if negb (h3_length element =? 0) && negb (a_length element =? 0) then
              [ {| title := h3_text element;
                   link := a_href element;
                   snippet := snippet_text element |} ]
            else [])
         (cheerio_g env data) in
     ret (slice0 (MAX_SEARCH_RESULTS (config env)) results))
    (fun error =>
       console_error "Error performing Google search:" error ;;
       ret []).

(** [getPhoneData] *)
Definition getPhoneData (type query : option string) : M JsValue :=
  try_catch
    (if strictEq type "contacts" then getContacts (PhoneIntegration env)
     else if strictEq type "files" then searchFiles (PhoneIntegration env) query
     else if strictEq type "calendar" then getCalendarEvents (PhoneIntegration env)
     else if strictEq type "location" then getLocation (PhoneIntegration env)
     else ret (JsObject [ ("error", JsStr ("Unknown phone data type: " ++ ofUndefined type)) ]))
    (fun error =>
       console_error ("Error accessing phone data (" ++ ofUndefined type ++ "):") error ;;
       ret (JsObject [ ("error", JsStr ("Failed to access " ++ ofUndefined type ++ " data: "
                                          ++ message error)) ])).

Definition searchContextFallback : string :=
  "I found some information online, but I'm having trouble processing it. Could you try asking in a different way?".

(** [generateResponseWithContext] *)
Definition generateResponseWithContext (originalMessage : string)
    (searchResults : list SearchResult) : M string :=
  try_catch
    (let context := "Search results:" ++ nl in
     let context := context ++
       forEachIndexed
         (fun result index =>
            ofNat (index + 1) ++ ". " ++ title result ++ ": " ++ snippet result ++ nl)
         searchResults 0 in
     let prompt :=
       "Original message: " ++ dq ++ originalMessage ++ dq ++ nl ++ nl ++ context ++ nl ++ nl
       ++ "Provide a helpful response based on these search results." in
     model_generateContent prompt)
    (fun error =>
       console_error "Error generating response with search context:" error ;;
       ret searchContextFallback).

Definition phoneDataFallback : string :=
  "I found some information on your phone, but I'm having trouble processing it. Could you try asking in a different way?".

(** [generateResponseWithPhoneData] *)
Definition generateResponseWithPhoneData (originalMessage : string)
    (phoneData : JsValue) : M string :=
  try_catch
    (let context := "Phone data:" ++ nl in
     phoneData_error <- liftOutcome (getProp phoneData "error") ;;
     let context :=
       if truthy phoneData_error then
         context ++ "Error: " ++ toTemplate phoneData_error ++ nl
       else
         match isArray phoneData with
         | Some items =>
             context ++
             forEachIndexed
               (fun item index =>
                  ofNat (index + 1) ++ ". " ++ ofUndefined (JSON_stringify env item 0) ++ nl)
               items 0
         | None => context ++ ofUndefined (JSON_stringify env phoneData 2)
         end in
     let prompt :=
       "Original message: " ++ dq ++ originalMessage ++ dq ++ nl ++ nl ++ context ++ nl ++ nl
       ++ "Provide a helpful response based on this phone data." in
     model_generateContent prompt)
    (fun error =>
       console_error "Error generating response with phone data:" error ;;
       ret phoneDataFallback).

(** [processMessage]: the reply, [None] when it is [null]. *)
Definition processMessage (messageText : string) : M (option string) :=
  aiAnalysis <- analyzeWithAI messageText ;;
  if needsSearch aiAnalysis && SEARCH_ENABLED (config env) then
    searchResults <- googleSearch (searchQuery aiAnalysis) ;;
    text <- generateResponseWithContext messageText searchResults ;;
    ret (Some text)
  else if needsPhoneAccess aiAnalysis && PHONE_INTEGRATION_ENABLED (config env) then
    phoneData <- getPhoneData (phoneAccessType aiAnalysis) (phoneAccessQuery aiAnalysis) ;;
    text <- generateResponseWithPhoneData messageText phoneData ;;
    ret (Some text)
  else
    userPersona <- get_userPersona ;;
    if USER_PERSONA_ENABLED (config env) && (5 <=? List.length (styleSamples userPersona)) then
      text <- generatePersonaResponse messageText ;;
      ret (Some text)
    else
      ret (response aiAnalysis).

Definition genericApology : string :=
  "Sorry, I encountered an error while processing your message.".

(** [client.on('message', ...)] *)
Definition onMessage (msg : Message) : M unit :=
  try_catch
    (chat <- getChat msg ;;
     let chatId := id_serialized chat in
     (if DEBUG_MODE (config env) then
        console_log "Message received:" ;;
        console_log ("- From: " ++ from msg) ;;
        console_log ("- Chat ID: " ++ chatId) ;;
        console_log ("- Is Group: " ++ (if isGroup chat then "true" else "false")) ;;
        console_log ("- Content: " ++ body msg)
      else ret tt) ;;
     if fromMe msg then
       if USER_PERSONA_LEARNING_MODE (config env) then learnFromUserMessage (body msg)
       else ret tt
     else
       let proceed :=
         console_log ("Processing message: " ++ body msg) ;;
         response <- processMessage (body msg) ;;
         reply msg response in
       if GROUP_RESTRICTION_ENABLED (config env) then
         allowed <- get_ALLOWED_GROUP_IDS ;;
         if negb (isGroup chat) || negb (includes allowed chatId) then
           if DEBUG_MODE (config env) then
             console_log ("Ignoring message from non-allowed chat: " ++ chatId)
           else ret tt
         else proceed
       else proceed)
    (fun error =>
       console_error "Error processing message:" error ;;
       if negb (GROUP_RESTRICTION_ENABLED (config env)) then
         reply msg (Some genericApology)
       else ret tt).

End Script.

(* ================================================================== *)
(** ** Vocabulary of the specification *)

(** [q] is [s] without its leading and trailing white space. *)
Definition Trimmed (s q : string) : Prop :=
  (exists l r, allWhiteSpace l = true /\ allWhiteSpace r = true /\ s = l ++ q ++ r) /\
  (forall c, first q = Some c -> isWhiteSpace c = false) /\
  (forall c, last q = Some c -> isWhiteSpace c = false).

(** [d] is the lower-case form of the character [c]: the letters A to Z
    move 32 places up to a to z, every other character stays. *)
Definition lowerCounterpart (c d : ascii) : Prop :=
  (65 <= nat_of_ascii c <= 90 /\ nat_of_ascii d = nat_of_ascii c + 32) \/
  (~ (65 <= nat_of_ascii c <= 90) /\ d = c).

(** [t] is [s] lower-cased, character by character. *)
Inductive LowerCaseOf : string -> string -> Prop :=
| LowerCaseOf_empty : LowerCaseOf EmptyString EmptyString
| LowerCaseOf_char (c d : ascii) (s t : string) :
    lowerCounterpart c d -> LowerCaseOf s t -> LowerCaseOf (String c s) (String d t).

(** The last [n] elements of [l], in order. *)
Definition lastn {A} (n : nat) (l : list A) : list A :=
  skipn (List.length l - n) l.

(** A text qualifies as a style sample when it is longer than 30
    characters; it is recorded in the history from 10 characters on. *)
Definition qualifies (text : string) : bool := 30 <? String.length text.
Definition recorded (text : string) : bool := negb (String.length text <? 10).

(** [observe] as the specification words it: a text under 10 characters is
    ignored; otherwise it joins the history, and the style samples when it
    qualifies, each log dropping its oldest entry beyond its cap. *)
Definition evict {A} (cap : nat) (l : list A) : list A :=
  if cap <? List.length l then tl l else l.

Definition observe (text : string) (time : Z) (p : Persona) : Persona :=
  if String.length text <? 10 then p
  else
    {| messageHistory :=
         evict 100 (messageHistory p ++
                    [ {| role := "user"; content := text; timestamp := time |} ])%list;
       styleSamples :=
         if qualifies text then evict 50 (styleSamples p ++ [text])%list
         else styleSamples p |}.

(** A run of [learnFromUserMessage], one call per text, oldest first. *)
Fixpoint observeAll (env : Env) (texts : list string) : M unit :=
  match texts with
  | [] => ret tt
  | text :: rest => learnFromUserMessage env text ;; observeAll env rest
  end.

(** The error marker of a device query. *)
Definition errorMarker (text : string) : JsValue :=
  JsObject [ ("error", JsStr text) ].

(** The replies sent, among the calls of a trace. *)
Definition replies (t : Trace) : list (option string) :=
  flat_map (fun ev => match ev with EvReply _ text => [text] | _ => [] end) t.

(** The four fulfilment paths of the router, and the precedence the
    specification fixes among them: search, then device, then persona,
    then the direct answer. *)
Inductive Path := SearchPath | DevicePath | PersonaPath | DirectPath.

Definition spec_path (searchIntent deviceIntent personaEligible : bool) : Path :=
  if searchIntent then SearchPath
  else if deviceIntent then DevicePath
  else if personaEligible then PersonaPath
  else DirectPath.

(** What each path runs, with the functions of the script. *)
Definition runPath (env : Env) (p : Path) (messageText : string)
    (aiAnalysis : Analysis) : M (option string) :=
  match p with
  | SearchPath =>
      searchResults <- googleSearch env (searchQuery aiAnalysis) ;;
      text <- generateResponseWithContext env messageText searchResults ;;
      ret (Some text)
  | DevicePath =>
      phoneData <- getPhoneData env (phoneAccessType aiAnalysis) (phoneAccessQuery aiAnalysis) ;;
      text <- generateResponseWithPhoneData env messageText phoneData ;;
      ret (Some text)
  | PersonaPath =>
      text <- generatePersonaResponse env messageText ;;
      ret (Some text)
  | DirectPath => ret (response aiAnalysis)
  end.

(** The calls that tell the paths apart in a trace: the search path alone
    fetches a page, the persona path alone sends a prompt that opens with
    the persona instruction. *)
Definition personaPromptHead : string :=
  "You need to respond to this message in a way that mimics the user's writing style.".

Definition isPersonaCall (ev : Event) : bool :=
  match ev with
  | EvGenerateContent _ prompt => startsWith prompt personaPromptHead
  | _ => false
  end.

Definition isSearchCall (ev : Event) : bool :=
  match ev with EvAxiosGet _ => true | _ => false end.

Definition personaCalls (t : Trace) : nat := List.length (filter isPersonaCall t).
Definition searchCalls (t : Trace) : nat := List.length (filter isSearchCall t).

(** The classifier's question to the language model, its answer, and the
    world once it has been asked. *)
Definition oracleAnswer (env : Env) (text : string) (w : World) : Outcome string :=
  generateContent env (trace w) (AI_MODEL (config env)) (analysisPrompt text).

Definition asked (env : Env) (text : string) (w : World) : World :=
  set_trace (EvGenerateContent (AI_MODEL (config env)) (analysisPrompt text) :: trace w) w.

(** The three shapes of the classifier's result. *)
Definition Search (query : string) : Analysis :=
  {| needsSearch := true; needsPhoneAccess := false;
     searchQuery := Some query;
     phoneAccessType := None; phoneAccessQuery := None;
     response := None |}.

Definition DeviceQuery (resourceKind queryText : string) : Analysis :=
  {| needsSearch := false; needsPhoneAccess := true;
     searchQuery := None;
     phoneAccessType := Some resourceKind; phoneAccessQuery := Some queryText;
     response := None |}.

Definition Direct (responseText : string) : Analysis :=
  {| needsSearch := false; needsPhoneAccess := false;
     searchQuery := None;
     phoneAccessType := None; phoneAccessQuery := None;
     response := Some responseText |}.

(* ================================================================== *)
(** ** Concrete scenarios *)

Module Scenario.

(** The configuration of a process started with no flag set. *)
Definition defaultConfig : Config :=
  {| MAX_SEARCH_RESULTS := 3;
     SEARCH_ENABLED := true;
     AI_MODEL := "gemini-1.0-pro";
     PHONE_INTEGRATION_ENABLED := false;
     USER_PERSONA_ENABLED := false;
     USER_PERSONA_LEARNING_MODE := false;
     GROUP_RESTRICTION_ENABLED := false;
     DEBUG_MODE := false |}.

(** The state of the script after its top-level statements. *)
Definition world0 : World :=
  {| userPersona := {| messageHistory := []; styleSamples := [] |};
     ALLOWED_GROUP_IDS := [];
     trace := [] |}.

Definition groupChat : Chat := {| id_serialized := "1203630@g.us"; isGroup := true |}.

(** Collaborators that all succeed, around a given language model. *)
Definition envWith (cfg : Config) (oracle : Trace -> string -> Outcome string) : Env :=
  {| config := cfg;
     dirname := "/app";
     generateContent := fun t _ prompt => oracle t prompt;
     axios_get := fun _ _ => Ok "<html></html>";
     cheerio_g := fun _ => [];
     fs_mkdir := fun _ _ => Ok tt;
     fs_writeFile := fun _ _ _ => Ok tt;
     JSON_stringify := fun _ _ => Some "{}";
     Date_now := fun t => Z.of_nat (List.length t);
     message_getChat := fun _ _ => Ok groupChat;
     message_reply := fun _ _ _ => Ok tt;
     PhoneIntegration := PhoneIntegrationStub.impl |}.

(** A language model that answers every prompt with the same text, and one
    that is out of reach. *)
Definition answering (text : string) : Trace -> string -> Outcome string :=
  fun _ _ => Ok text.
Definition unreachable : Trace -> string -> Outcome string :=
  fun _ _ => Throw {| message := "fetch failed" |}.

Definition restrictedConfig : Config :=
  {| MAX_SEARCH_RESULTS := 3;
     SEARCH_ENABLED := true;
     AI_MODEL := "gemini-1.0-pro";
     PHONE_INTEGRATION_ENABLED := false;
     USER_PERSONA_ENABLED := false;
     USER_PERSONA_LEARNING_MODE := false;
     GROUP_RESTRICTION_ENABLED := true;
     DEBUG_MODE := true |}.

Definition personaConfig : Config :=
  {| MAX_SEARCH_RESULTS := 3;
     SEARCH_ENABLED := true;
     AI_MODEL := "gemini-1.0-pro";
     PHONE_INTEGRATION_ENABLED := true;
     USER_PERSONA_ENABLED := true;
     USER_PERSONA_LEARNING_MODE := true;
     GROUP_RESTRICTION_ENABLED := false;
     DEBUG_MODE := false |}.

(** [n] distinct texts of 35 characters or more. *)
Definition sampleText (i : nat) : string :=
  "this is my outgoing message number " ++ ofNat i.
Definition sampleTexts (n : nat) : list string := map sampleText (seq 1 n).

(** Device capabilities that fail: the location service throws, the file
    search succeeds and echoes its query. *)
Definition brokenPhone : PhoneModule :=
  {| getContacts := PhoneIntegrationStub.getContacts;
     searchFiles := fun query => ret (JsArray [ JsStr (ofUndefined query) ]);
     readFile := PhoneIntegrationStub.readFile;
     getLocation := throw {| message := "location service is off" |};
     getCalendarEvents := PhoneIntegrationStub.getCalendarEvents |}.

Definition envWithPhone (phone : PhoneModule) : Env :=
  {| config := personaConfig;
     dirname := "/app";
     generateContent := fun _ _ _ => Ok "ok";
     axios_get := fun _ _ => Ok "<html></html>";
     cheerio_g := fun _ => [];
     fs_mkdir := fun _ _ => Ok tt;
     fs_writeFile := fun _ _ _ => Ok tt;
     JSON_stringify := fun _ _ => Some "{}";
     Date_now := fun t => Z.of_nat (List.length t);
     message_getChat := fun _ _ => Ok groupChat;
     message_reply := fun _ _ _ => Ok tt;
     PhoneIntegration := phone |}.

(** A language model that classifies every message as [classification],
    answers from search results with a forecast, and otherwise (device and
    persona prompts) with a short line. *)
Definition scripted (classification : string) : Trace -> string -> Outcome string :=
  fun _ prompt =>
    if startsWith prompt "You are a helpful WhatsApp assistant" then Ok classification
    else if startsWith prompt "Original message: " then Ok "It is sunny in Lagos."
    else Ok "sunny, as always".

(** Search switched off, everything else as in a fresh process. *)
Definition searchOffConfig : Config :=
  {| MAX_SEARCH_RESULTS := 3;
     SEARCH_ENABLED := false;
     AI_MODEL := "gemini-1.0-pro";
     PHONE_INTEGRATION_ENABLED := false;
     USER_PERSONA_ENABLED := false;
     USER_PERSONA_LEARNING_MODE := false;
     GROUP_RESTRICTION_ENABLED := false;
     DEBUG_MODE := false |}.

Definition lagosEnv : Env := envWith personaConfig (scripted "SEARCH: weather in Lagos").

(** The world after five style samples have been learnt. *)
Definition personaWorld : World :=
  snd (observeAll (envWith personaConfig (answering "ok")) (sampleTexts 5) world0).

(** A world whose allow-list holds one other group. *)
Definition restrictedWorld : World :=
  {| userPersona := {| messageHistory := []; styleSamples := [] |};
     ALLOWED_GROUP_IDS := ["9990001@g.us"];
     trace := [] |}.

(** A transport that cannot resolve the chat of a message. *)
Definition envNoChat (cfg : Config) : Env :=
  {| config := cfg;
     dirname := "/app";
     generateContent := fun _ _ _ => Ok "ok";
     axios_get := fun _ _ => Ok "<html></html>";
     cheerio_g := fun _ => [];
     fs_mkdir := fun _ _ => Ok tt;
     fs_writeFile := fun _ _ _ => Ok tt;
     JSON_stringify := fun _ _ => Some "{}";
     Date_now := fun t => Z.of_nat (List.length t);
     message_getChat := fun _ _ => Throw {| message := "Evaluation failed" |};
     message_reply := fun _ _ _ => Ok tt;
     PhoneIntegration := PhoneIntegrationStub.impl |}.

Definition inbound (text : string) : Message :=
  {| from := "4915100000@c.us"; body := text; fromMe := false |}.

End Scenario.

(* ================================================================== *)
(** ** The rest of the script: start-up, the owner's commands, the style analyzer *)

Module JsText.

(** The first occurrence of [sub] in [s]: the text before it and the text
    after it. *)
Fixpoint findSub (sub s : string) : option (string * string) :=
  if startsWith s sub then Some (EmptyString, substring (String.length sub) s)
  else
    match s with
    | EmptyString => None
    | String c r =>
        match findSub sub r with
        | Some (before, after) => Some (String c before, after)
        | None => None
        end
    end.

(** [s.includes(sub)] *)
Definition includesSub (s sub : string) : bool :=
  match findSub sub s with Some _ => true | None => false end.

(** LF and CR, the line terminators [.] does not match. *)
Definition isLineTerminator (c : ascii) : bool :=
  let n := nat_of_ascii c in (n =? 10) || (n =? 13).

(** What [.*] matches at the start of [s], and what it leaves. *)
Fixpoint takeLine (s : string) : string :=
  match s with
  | EmptyString => EmptyString
  | String c r => if isLineTerminator c then EmptyString else String c (takeLine r)
  end.

Fixpoint dropLine (s : string) : string :=
  match s with
  | EmptyString => EmptyString
  | String c r => if isLineTerminator c then s else dropLine r
  end.

(** The replacement text of [String.prototype.replace] for a pattern with
    no capture group: [$$], [$&], [$`] and [$'] are substituted, any other
    [$] stands for itself. *)
Fixpoint expandReplacement (replacement matched before after : string) : string :=
  match replacement with
  | EmptyString => EmptyString
  | String "$" (String "$" r) => String "$" (expandReplacement r matched before after)
  | String "$" (String "&" r) => matched ++ expandReplacement r matched before after
  | String "$" (String "`" r) => before ++ expandReplacement r matched before after
  | String "$" (String "'" r) => after ++ expandReplacement r matched before after
  | String c r => String c (expandReplacement r matched before after)
  end.

(** [s.replace(/KEY.*/, replacement)] for a literal [KEY]: the first
    occurrence of the key and the rest of its line are replaced. *)
Definition replaceKeyLine (key replacement s : string) : string :=
  match findSub key s with
  | None => s
  | Some (before, rest) =>
      let matched := key ++ takeLine rest in
      let after := dropLine rest in
      before ++ expandReplacement replacement matched before after ++ after
  end.

(** The value of a digit in a radix, when it is one. *)
Definition digitValue (radix : nat) (c : ascii) : option nat :=
  let n := nat_of_ascii c in
  let v :=
    if (48 <=? n) && (n <=? 57) then Some (n - 48)
    else if (97 <=? n) && (n <=? 122) then Some (n - 87)
    else if (65 <=? n) && (n <=? 90) then Some (n - 55)
    else None in
  match v with
  | Some d => if d <? radix then Some d else None
  | None => None
  end.

(** The value of the longest run of digits at the start of [s]; [None]
    when there is no digit. *)
Fixpoint digitsValue (radix : nat) (s : string) (acc : Z) (seen : bool) : option Z :=
  match s with
  | EmptyString => if seen then Some acc else None
  | String c r =>
      match digitValue radix c with
      | Some d => digitsValue radix r (acc * Z.of_nat radix + Z.of_nat d)%Z true
      | None => if seen then Some acc else None
      end
  end.

(** [parseInt(s)]; [None] is [NaN].  The integer is exact. *)
Definition parseInt (s : string) : option Z :=
  let s := trimStart s in
  let '(sign, s) :=
    match s with
    | String "-" r => ((-1)%Z, r)
    | String "+" r => (1%Z, r)
    | _ => (1%Z, s)
    end in
  let '(radix, s) :=
    match s with
    | String "0" (String "x" r) => (16, r)
    | String "0" (String "X" r) => (16, r)
    | _ => (10, s)
    end in
  option_map (Z.mul sign) (digitsValue radix s 0%Z false).

(** [v || fallback] on a possibly-[undefined] string: the empty string is
    falsy. *)
Definition orElse (v : option string) (fallback : string) : string :=
  match v with
  | Some EmptyString | None => fallback
  | Some s => s
  end.

End JsText.
Import JsText.

(** The top-level statements of the script: the flags read from
    [process.env], and the world they leave. *)
Section StartUp.

Variable process_env : string -> option string.

Definition loadConfig : Config :=
  {| MAX_SEARCH_RESULTS :=
       match parseInt (orElse (process_env "MAX_SEARCH_RESULTS") "3") with
       | Some z => z
       | None => 0%Z
       end;
     SEARCH_ENABLED := negb (strictEq (process_env "SEARCH_ENABLED") "false");
     AI_MODEL := orElse (process_env "AI_MODEL") "gemini-1.0-pro";
     PHONE_INTEGRATION_ENABLED := strictEq (process_env "PHONE_INTEGRATION_ENABLED") "true";
     USER_PERSONA_ENABLED := strictEq (process_env "USER_PERSONA_ENABLED") "true";
     USER_PERSONA_LEARNING_MODE := strictEq (process_env "USER_PERSONA_LEARNING_MODE") "true";
     GROUP_RESTRICTION_ENABLED := strictEq (process_env "GROUP_RESTRICTION_ENABLED") "true";
     DEBUG_MODE := strictEq (process_env "DEBUG_MODE") "true" |}.

Definition startWorld : World :=
  let emptyPersona := {| messageHistory := []; styleSamples := [] |} in
  match process_env "ALLOWED_GROUP_IDS" with
  | Some (String c r) =>
      if GROUP_RESTRICTION_ENABLED loadConfig then
        let ids := map (fun id => trim id) (split "," (String c r)) in
        {| userPersona := emptyPersona;
           ALLOWED_GROUP_IDS := ids;
           trace := [ EvConsoleLog ("Group restriction enabled. Will only respond to "
                                     ++ ofNat (List.length ids) ++ " groups.") ] |}
      else {| userPersona := emptyPersona; ALLOWED_GROUP_IDS := []; trace := [] |}
  | _ => {| userPersona := emptyPersona; ALLOWED_GROUP_IDS := []; trace := [] |}
  end.

End StartUp.

Definition set_ALLOWED_GROUP_IDS (ids : list string) (w : World) : World :=
  {| userPersona := userPersona w;
     ALLOWED_GROUP_IDS := ids;
     trace := trace w |}.

Definition modify_ALLOWED_GROUP_IDS (f : list string -> list string) : M unit :=
  fun w => (Ok tt, set_ALLOWED_GROUP_IDS (f (ALLOWED_GROUP_IDS w)) w).

(** The collaborators only the owner's commands use.  Both are reads of the
    outside: they answer the history so far and leave no call of their own
    in it. *)
Record ShellEnv := {
  core : Env;
  (** [fs.readFile(path, 'utf8')] *)
  fs_readFile : Trace -> string -> Outcome string;
  (** [client.getChatById(id)], the [name] of the chat *)
  client_getChatById : Trace -> string -> Outcome (option string)
}.

Section Commands.

Variable shell : ShellEnv.

Definition readFileUtf8 (path : string) : M string :=
  fun w => (fs_readFile shell (trace w) path, w).

Definition getChatById (id : string) : M (option string) :=
  fun w => (client_getChatById shell (trace w) id, w).

Definition checkMark : string := "✅".

(** The body of the [for (const id of ALLOWED_GROUP_IDS)] loop of the
    [groups] command, over the ids left. *)
Fixpoint listGroups (ids : list string) (allowedGroups : list string) : M (list string) :=
  match ids with
  | [] => ret allowedGroups
  | id :: rest =>
      line <- try_catch
                (name <- getChatById id ;;
                 ret ("- " ++ ofUndefined name ++ " (" ++ id ++ ")"))
                (fun err => ret ("- Unknown group (" ++ id ++ ")")) ;;
      listGroups rest (allowedGroups ++ [line])%list
  end.

(** [client.on('message_create', ...)] *)
Definition onMessageCreate (msg : Message) : M unit :=
  if negb (fromMe msg) then ret tt
  else
    let commandPrefix := "!agent" in
    if startsWith (body msg) (commandPrefix ++ " allow") then
      try_catch
        (chat <- getChat (core shell) msg ;;
         let chatId := id_serialized chat in
         if negb (isGroup chat) then
           reply (core shell) msg (Some "This command only works in group chats.")
         else
           allowed <- get_ALLOWED_GROUP_IDS ;;
           if negb (includes allowed chatId) then
             modify_ALLOWED_GROUP_IDS (fun ids => (ids ++ [chatId])%list) ;;
             try_catch
               (let envPath := path_join (dirname (core shell)) ".env" in
                envContent <- try_catch (readFileUtf8 envPath) (fun _ => ret EmptyString) ;;
                allowed <- get_ALLOWED_GROUP_IDS ;;
                let groupIdsString := join "," allowed in
                let envContent :=
                  if includesSub envContent "ALLOWED_GROUP_IDS=" then
                    replaceKeyLine "ALLOWED_GROUP_IDS="
                      ("ALLOWED_GROUP_IDS=" ++ groupIdsString) envContent
                  else envContent ++ nl ++ "ALLOWED_GROUP_IDS=" ++ groupIdsString in
                let envContent :=
                  if negb (includesSub envContent "GROUP_RESTRICTION_ENABLED=") then
                    envContent ++ nl ++ "GROUP_RESTRICTION_ENABLED=true"
                  else if negb (GROUP_RESTRICTION_ENABLED (config (core shell))) then
                    replaceKeyLine "GROUP_RESTRICTION_ENABLED="
                      "GROUP_RESTRICTION_ENABLED=true" envContent
                  else envContent in
                writeFile (core shell) envPath envContent ;;
                console_log ("Added group " ++ chatId ++ " to allowed list and updated .env file") ;;
                reply (core shell) msg
                  (Some (checkMark ++ " This group has been added to my allowed groups list. I will now respond to messages here.")))
               (fun err =>
                  console_error "Error updating .env file:" err ;;
                  reply (core shell) msg
                    (Some (checkMark ++ " Group added to allowed list for this session, but couldn't update .env file. You'll need to manually add this group ID: " ++ chatId)))
           else
             reply (core shell) msg (Some "This group is already in my allowed list."))
        (fun error =>
           console_error "Error processing allow command:" error ;;
           reply (core shell) msg (Some "Error processing command."))
    else if String.eqb (body msg) (commandPrefix ++ " groups") then
      ids <- get_ALLOWED_GROUP_IDS ;;
      allowedGroups <- listGroups ids [] ;;
      if List.length allowedGroups =? 0 then
        reply (core shell) msg (Some "No groups are currently allowed.")
      else
        reply (core shell) msg
          (Some ("Currently allowed groups:" ++ nl ++ join nl allowedGroups))
    else ret tt.

End Commands.

(** The style analyzer tool: [analyzeWritingStyle]. *)
Definition styleAnalysisFallback : string :=
  "Error analyzing writing style. Please check your API key and internet connection.".

Definition analyzeWritingStyle (env : Env) (samples : list string) : M string :=
  try_catch
    (let sampleText := join (nl ++ nl) (slice0 10 samples) in
     let prompt :=
       "Analyze the following writing samples from the same person and describe their writing style in detail:"
       ++ nl ++ nl ++ sampleText ++ nl ++ nl ++
       "Provide a detailed analysis of:" ++ nl ++
       "1. Formality level" ++ nl ++
       "2. Typical sentence length and structure" ++ nl ++
       "3. Common phrases or expressions" ++ nl ++
       "4. Punctuation patterns" ++ nl ++
       "5. Vocabulary choices" ++ nl ++
       "6. Any other distinctive elements" in
     model_generateContent env prompt)
    (fun error =>
       console_error "Error in style analysis:" error ;;
       ret styleAnalysisFallback).

(* ================================================================== *)
(** ** Vocabulary for what a computation leaves alone *)

(** The replies sent, the persona and the allow-list are the same in [w']
    as in [w]. *)
Definition sameState (w w' : World) : Prop :=
  replies (trace w') = replies (trace w) /\
  userPersona w' = userPersona w /\
  ALLOWED_GROUP_IDS w' = ALLOWED_GROUP_IDS w.

(** A calm computation sends no reply and assigns neither module-level
    variable, whether it returns or throws; a quiet one also never throws. *)
Definition Calm {A} (c : M A) : Prop :=
  forall w, sameState w (snd (c w)).

Definition NoThrow {A} (c : M A) : Prop :=
  forall w, exists a, fst (c w) = Ok a.

Definition Quiet {A} (c : M A) : Prop := Calm c /\ NoThrow c.

(** A computation that assigns neither module-level variable. *)
Definition Keeps {A} (c : M A) : Prop :=
  forall w, userPersona (snd (c w)) = userPersona w /\
            ALLOWED_GROUP_IDS (snd (c w)) = ALLOWED_GROUP_IDS w.

(** The allow-list after a [message_create] event: the chat id is appended
    when the owner sends a text that starts with "!agent allow" in a group
    that is not on the list; in every other case the list stays as it is. *)
Definition allowListAfter (shell : ShellEnv) (msg : Message) (w : World) : list string :=
  if fromMe msg && startsWith (body msg) "!agent allow" then
    match message_getChat (core shell) (trace w) msg with
    | Ok chat =>
        if isGroup chat && negb (includes (ALLOWED_GROUP_IDS w) (id_serialized chat))
        then (ALLOWED_GROUP_IDS w ++ [id_serialized chat])%list
        else ALLOWED_GROUP_IDS w
    | Throw _ => ALLOWED_GROUP_IDS w
    end
  else ALLOWED_GROUP_IDS w.

(** The line of the [groups] command for one id. *)
Definition groupLine (shell : ShellEnv) (t : Trace) (id : string) : string :=
  match client_getChatById shell t id with
  | Ok name => "- " ++ ofUndefined name ++ " (" ++ id ++ ")"
  | Throw _ => "- Unknown group (" ++ id ++ ")"
  end.

(** Device capabilities that keep to their own business. *)
Definition CalmPhone (p : PhoneModule) : Prop :=
  Calm (getContacts p) /\
  (forall query, Calm (searchFiles p query)) /\
  Calm (getCalendarEvents p) /\
  Calm (getLocation p).

(** Every character of [s] satisfies [ok]. *)
Fixpoint allChars (ok : ascii -> bool) (s : string) : bool :=
  match s with
  | EmptyString => true
  | String c r => ok c && allChars ok r
  end.

(** The characters of an encoded URI component. *)
Definition isUriSafe (c : ascii) : bool :=
  isUnreserved c || Ascii.eqb c "%".

(** The last prompt sent to the language model, when there is one. *)
Fixpoint lastPrompt (t : Trace) : option string :=
  match t with
  | [] => None
  | EvGenerateContent _ prompt :: _ => Some prompt
  | _ :: rest => lastPrompt rest
  end.

(** The files written, most recent first. *)
Definition writes (t : Trace) : list (string * string) :=
  flat_map (fun ev => match ev with EvWriteFile path data => [(path, data)] | _ => [] end) t.

(** [decodeURIComponent(s)] on ASCII text; [None] is the URIError of a
    malformed escape. *)
Fixpoint decodeURIComponent (s : string) : option string :=
  match s with
  | EmptyString => Some EmptyString
  | String c r =>
      if Ascii.eqb c "%" then
        match r with
        | String a (String b r') =>
            match digitValue 16 a, digitValue 16 b with
            | Some x, Some y =>
                option_map (String (ascii_of_nat (16 * x + y))) (decodeURIComponent r')
            | _, _ => None
            end
        | _ => None
        end
      else option_map (String c) (decodeURIComponent r)
  end.

(** The pages fetched, most recent first. *)
Definition fetched (t : Trace) : list string :=
  flat_map (fun ev => match ev with EvAxiosGet url => [url] | _ => [] end) t.

Module ShellScenario.

(** A shell around [Scenario.envWith]: no [.env] file yet, every chat is
    called "Family". *)
Definition shellWith (cfg : Config) : ShellEnv :=
  {| core := Scenario.envWith cfg (Scenario.answering "Hello!");
     fs_readFile := fun _ _ => Throw {| message := "ENOENT: no such file or directory" |};
     client_getChatById := fun _ _ => Ok (Some "Family") |}.

(** The same with an [.env] file in place. *)
Definition shellWithFile (cfg : Config) (content : string) : ShellEnv :=
  {| core := Scenario.envWith cfg (Scenario.answering "Hello!");
     fs_readFile := fun _ _ => Ok content;
     client_getChatById := fun _ _ => Ok (Some "Family") |}.

Definition ownCommand (text : string) : Message :=
  {| from := "4915100000@c.us"; body := text; fromMe := true |}.

(** A transport on which every [reply] fails. *)
Definition envMute (cfg : Config) : Env :=
  {| config := cfg;
     dirname := "/app";
     generateContent := fun _ _ _ => Ok "ok";
     axios_get := fun _ _ => Ok "<html></html>";
     cheerio_g := fun _ => [];
     fs_mkdir := fun _ _ => Ok tt;
     fs_writeFile := fun _ _ _ => Ok tt;
     JSON_stringify := fun _ _ => Some "{}";
     Date_now := fun t => Z.of_nat (List.length t);
     message_getChat := fun _ _ => Throw {| message := "Evaluation failed" |};
     message_reply := fun _ _ _ => Throw {| message := "Session closed" |};
     PhoneIntegration := PhoneIntegrationStub.impl |}.

(** A read-only disk, and a result page with five hits, one of them
    without a link. *)
Definition envReadOnlyDisk : Env :=
  {| config := Scenario.personaConfig;
     dirname := "/app";
     generateContent := fun _ _ _ => Ok "ok";
     axios_get := fun _ _ => Ok "<html>five hits</html>";
     cheerio_g := fun _ =>
       map (fun i => {| h3_length := 1; h3_text := "Hit " ++ ofNat i;
                        a_length := if i =? 2 then 0 else 1;
                        a_href := Some ("https://example.org/" ++ ofNat i);
                        snippet_text := "snippet " ++ ofNat i |})
           (seq 1 5);
     fs_mkdir := fun _ _ => Throw {| message := "EROFS: read-only file system" |};
     fs_writeFile := fun _ _ _ => Throw {| message := "EROFS: read-only file system" |};
     JSON_stringify := fun _ _ => Some "{}";
     Date_now := fun t => Z.of_nat (List.length t);
     message_getChat := fun _ _ => Ok Scenario.groupChat;
     message_reply := fun _ _ _ => Ok tt;
     PhoneIntegration := PhoneIntegrationStub.impl |}.

(** Under restriction, a listed group on a transport that resolves chats
    but cannot send. *)
Definition envDeaf : Env :=
  {| config := Scenario.restrictedConfig;
     dirname := "/app";
     generateContent := fun _ _ _ => Ok "Hello!";
     axios_get := fun _ _ => Ok "<html></html>";
     cheerio_g := fun _ => [];
     fs_mkdir := fun _ _ => Ok tt;
     fs_writeFile := fun _ _ _ => Ok tt;
     JSON_stringify := fun _ _ => Some "{}";
     Date_now := fun t => Z.of_nat (List.length t);
     message_getChat := fun _ _ => Ok Scenario.groupChat;
     message_reply := fun _ _ _ => Throw {| message := "Session closed" |};
     PhoneIntegration := PhoneIntegrationStub.impl |}.

Definition listedWorld : World :=
  {| userPersona := {| messageHistory := []; styleSamples := [] |};
     ALLOWED_GROUP_IDS := ["1203630@g.us"];
     trace := [] |}.

(** A private chat whose id found its way onto the allow-list. *)
Definition privateChat : Chat := {| id_serialized := "4915100000@c.us"; isGroup := false |}.

Definition envPrivate : Env :=
  {| config := Scenario.restrictedConfig;
     dirname := "/app";
     generateContent := fun _ _ _ => Ok "ok";
     axios_get := fun _ _ => Ok "<html></html>";
     cheerio_g := fun _ => [];
     fs_mkdir := fun _ _ => Ok tt;
     fs_writeFile := fun _ _ _ => Ok tt;
     JSON_stringify := fun _ _ => Some "{}";
     Date_now := fun t => Z.of_nat (List.length t);
     message_getChat := fun _ _ => Ok privateChat;
     message_reply := fun _ _ _ => Ok tt;
     PhoneIntegration := PhoneIntegrationStub.impl |}.

Definition privateAllowedWorld : World :=
  {| userPersona := {| messageHistory := []; styleSamples := [] |};
     ALLOWED_GROUP_IDS := ["4915100000@c.us"];
     trace := [] |}.

(** As [Scenario.personaWorld], with three more samples learnt since. *)
Definition eightSamplesWorld : World :=
  {| userPersona := {| messageHistory := messageHistory (userPersona Scenario.personaWorld);
                       styleSamples := Scenario.sampleTexts 8 |};
     ALLOWED_GROUP_IDS := [];
     trace := trace Scenario.personaWorld |}.

Definition envOf (vars : list (string * string)) : string -> option string :=
  fun name =>
    match find (fun kv => String.eqb (fst kv) name) vars with
    | Some kv => Some (snd kv)
    | None => None
    end.

(** A process configured by MAX_SEARCH_RESULTS=2, facing a page of five
    hits. *)
Definition envFromEnvironment : Env :=
  {| config := loadConfig (envOf [ ("MAX_SEARCH_RESULTS", "2") ]);
     dirname := "/app";
     generateContent := fun _ _ _ => Ok "ok";
     axios_get := fun _ _ => Ok "<html>five hits</html>";
     cheerio_g := cheerio_g envReadOnlyDisk;
     fs_mkdir := fun _ _ => Ok tt;
     fs_writeFile := fun _ _ _ => Ok tt;
     JSON_stringify := fun _ _ => Some "{}";
     Date_now := fun t => Z.of_nat (List.length t);
     message_getChat := fun _ _ => Ok Scenario.groupChat;
     message_reply := fun _ _ _ => Ok tt;
     PhoneIntegration := PhoneIntegrationStub.impl |}.

End ShellScenario.

(* ================================================================== *)
(** ** Facts about the string primitives *)

Section StringFacts.

Lemma append_empty_r (s : string) : s ++ "" = s.
Proof. induction s as [|c s IH]; simpl; [reflexivity | now rewrite IH]. Qed.

Lemma append_assoc (a b c : string) : (a ++ b) ++ c = a ++ (b ++ c).
Proof. induction a as [|x a IH]; simpl; [reflexivity | now rewrite IH]. Qed.

Lemma allWhiteSpace_app (a b : string) :
  allWhiteSpace a = true -> allWhiteSpace b = true -> allWhiteSpace (a ++ b) = true.
Proof.
  induction a as [|c a IH]; simpl; intros Ha Hb; [exact Hb|].
  apply andb_true_iff in Ha as [Hc Ha]. rewrite Hc. simpl. auto.
Qed.

Lemma trimStart_spec (s : string) :
  (exists l, allWhiteSpace l = true /\ s = l ++ trimStart s) /\
  (forall c, first (trimStart s) = Some c -> isWhiteSpace c = false).
Proof.
  induction s as [|c s [[l [Hl Hs]] Hf]]; simpl.
  - split; [exists ""; auto | discriminate].
  - destruct (isWhiteSpace c) eqn:Hc.
    + split; [|exact Hf].
      exists (String c l). simpl. rewrite Hc, Hl. split; [reflexivity | now rewrite <- Hs].
    + split; [exists ""; auto|].
      simpl. intros c' [= <-]. exact Hc.
Qed.

Lemma trimEnd_spec (s : string) :
  (exists r, allWhiteSpace r = true /\ s = trimEnd s ++ r) /\
  (forall c, last (trimEnd s) = Some c -> isWhiteSpace c = false) /\
  (forall c, first (trimEnd s) = Some c -> first s = Some c).
Proof.
  induction s as [|c s [[r [Hr Hs]] [Hl Hf]]]; simpl.
  - repeat split; try discriminate. exists ""; auto.
  - destruct (trimEnd s) as [|a b] eqn:Ht.
    + simpl in Hs. subst r.
      destruct (isWhiteSpace c) eqn:Hc.
      * repeat split; try discriminate.
        exists (String c s). simpl. now rewrite Hc, Hr.
      * repeat split.
        -- exists s. auto.
        -- simpl. intros c' [= <-]. exact Hc.
        -- simpl. auto.
    + repeat split.
      * exists r. split; [exact Hr|]. simpl. simpl in Hs. now rewrite <- Hs.
      * intros c' H. apply Hl. exact H.
      * simpl. auto.
Qed.

(** [trim] removes exactly the white space around its argument. *)
Lemma trim_Trimmed (s : string) : Trimmed s (trim s).
Proof.
  unfold Trimmed, trim.
  destruct (trimStart_spec s) as [[l [Hl Hs]] Hf].
  destruct (trimEnd_spec (trimStart s)) as [[r [Hr Ht]] [Hlast Hfirst]].
  repeat split.
  - exists l, r. repeat split; auto. rewrite <- Ht. exact Hs.
  - intros c H. apply Hf, Hfirst, H.
  - exact Hlast.
Qed.

(** The first element of a split is the text before the first separator,
    and joining the others back gives the text after it. *)
Lemma split_not_nil (sep : ascii) (s : string) : split sep s <> [].
Proof.
  induction s as [|c s IH]; simpl; [discriminate|].
  destruct (Ascii.eqb c sep); [discriminate|].
  destruct (split sep s); [contradiction | discriminate].
Qed.

Lemma split_head (sep : ascii) (s : string) :
  hd_error (split sep s) = Some (beforeFirst sep s).
Proof.
  induction s as [|c s IH]; simpl; [reflexivity|].
  destruct (Ascii.eqb c sep); [reflexivity|].
  destruct (split sep s) as [|h t]; simpl in *; [discriminate|].
  now injection IH as ->.
Qed.

Lemma split_tail_join (sep : ascii) (s : string) :
  join (String sep "") (tl (split sep s)) = afterFirst sep s.
Proof.
  assert (J : forall s, join (String sep "") (split sep s) = s).
  { clear s. induction s as [|c s IH]; simpl; [reflexivity|].
    pose proof (split_not_nil sep s) as Hne.
    destruct (Ascii.eqb c sep) eqn:Hc.
    - apply Ascii.eqb_eq in Hc. subst c. unfold join in *. simpl.
      destruct (split sep s) as [|h t]; [contradiction|].
      now rewrite IH.
    - unfold join in *. destruct (split sep s) as [|h t]; [contradiction|].
      simpl in *. destruct t; simpl in *; now rewrite <- IH. }
  induction s as [|c s IH]; simpl; [reflexivity|].
  destruct (Ascii.eqb c sep) eqn:Hc; simpl; [apply J|].
  pose proof (split_not_nil sep s) as Hne.
  destruct (split sep s) as [|h t]; [contradiction|]. exact IH.
Qed.

Lemma firstSeparator (sep : ascii) (s : string) :
  contains sep (beforeFirst sep s) = false /\
  (if contains sep s
   then s = beforeFirst sep s ++ String sep (afterFirst sep s)
   else beforeFirst sep s = s /\ afterFirst sep s = "").
Proof.
  induction s as [|c s [IH1 IH2]]; simpl; [auto|].
  destruct (Ascii.eqb c sep) eqn:Hc; simpl.
  - apply Ascii.eqb_eq in Hc. subst c. auto.
  - rewrite Hc. simpl. split; [exact IH1|].
    destruct (contains sep s).
    + now rewrite <- IH2.
    + destruct IH2 as [-> ->]. auto.
Qed.

(** A case-insensitive prefix test that succeeds cuts the text in two:
    the prefix as written, and what [substring] keeps. *)
Lemma startsWith_upper (p s : string) :
  startsWith (toUpperCase s) p = true ->
  exists pre, s = pre ++ substring (String.length p) s /\ toUpperCase pre = p.
Proof.
  unfold startsWith. revert s.
  induction p as [|a p IH]; intros s H; simpl.
  - exists "". auto.
  - destruct s as [|c s]; simpl in H; [discriminate|].
    destruct (ascii_dec a (toUpperChar c)) as [->|]; [|discriminate].
    destruct (IH s H) as [pre [Hs Hp]].
    exists (String c pre). simpl. split; [now rewrite <- Hs | now rewrite Hp].
Qed.

Lemma startsWith_first (a : ascii) (p s : string) :
  startsWith s (String a p) = true -> first s = Some a.
Proof.
  unfold startsWith. destruct s as [|c s]; simpl; [discriminate|].
  destruct (ascii_dec a c) as [->|]; [reflexivity | discriminate].
Qed.

Lemma phone_not_search (s : string) :
  startsWith s "PHONE:" = true -> startsWith s "SEARCH:" = false.
Proof.
  intros H. apply startsWith_first in H.
  destruct (startsWith s "SEARCH:") eqn:E; [|reflexivity].
  apply startsWith_first in E. rewrite H in E. discriminate.
Qed.

End StringFacts.

(* ================================================================== *)
(** ** ActionClassifier: [analyzeWithAI] *)

Lemma analyzeWithAI_search (env : Env) (text : string) (w : World) (response : string) :
  oracleAnswer env text w = Ok response ->
  startsWith (toUpperCase response) "SEARCH:" = true ->
  analyzeWithAI env text w = (Ok (Search (trim (substring 7 response))), asked env text w).
Proof.
  unfold oracleAnswer. intros Hgen Hs.
  unfold analyzeWithAI, try_catch, bind, model_generateContent, external.
  rewrite Hgen, Hs. reflexivity.
Qed.

Lemma analyzeWithAI_phone (env : Env) (text : string) (w : World) (response : string) :
  oracleAnswer env text w = Ok response ->
  startsWith (toUpperCase response) "PHONE:" = true ->
  analyzeWithAI env text w =
    (Ok (DeviceQuery
           (toLowerCase (beforeFirst ":" (trim (substring 6 response))))
           (trim (afterFirst ":" (trim (substring 6 response))))),
     asked env text w).
Proof.
  unfold oracleAnswer. intros Hgen Hp.
  unfold analyzeWithAI, try_catch, bind, model_generateContent, external.
  rewrite Hgen, (phone_not_search _ Hp), Hp.
  change (String.length "PHONE:") with 6.
  rewrite split_head, split_tail_join. reflexivity.
Qed.

Lemma analyzeWithAI_direct (env : Env) (text : string) (w : World) (response : string) :
  oracleAnswer env text w = Ok response ->
  startsWith (toUpperCase response) "SEARCH:" = false ->
  startsWith (toUpperCase response) "PHONE:" = false ->
  analyzeWithAI env text w = (Ok (Direct response), asked env text w).
Proof.
  unfold oracleAnswer. intros Hgen Hs Hp.
  unfold analyzeWithAI, try_catch, bind, model_generateContent, external.
  rewrite Hgen, Hs, Hp. reflexivity.
Qed.

Lemma analyzeWithAI_failure (env : Env) (text : string) (w : World) (e : JsError) :
  oracleAnswer env text w = Throw e ->
  analyzeWithAI env text w =
    (Ok (Direct analysisFallback),
     set_trace (EvConsoleError "Error analyzing with Gemini AI:" e :: trace (asked env text w))
               (asked env text w)).
Proof.
  unfold oracleAnswer. intros Hgen.
  unfold analyzeWithAI, try_catch, bind, model_generateContent, external.
  rewrite Hgen. reflexivity.
Qed.

(** The classifier returns an [Analysis] whatever the model does; the
    module-level variables are left as they were. *)
Lemma analyzeWithAI_total (env : Env) (text : string) (w : World) :
  exists a w', analyzeWithAI env text w = (Ok a, w') /\
               userPersona w' = userPersona w /\
               ALLOWED_GROUP_IDS w' = ALLOWED_GROUP_IDS w.
Proof.
  destruct (oracleAnswer env text w) as [response|e] eqn:Hgen.
  - destruct (startsWith (toUpperCase response) "SEARCH:") eqn:Hs.
    + rewrite (analyzeWithAI_search _ _ _ _ Hgen Hs). eauto.
    + destruct (startsWith (toUpperCase response) "PHONE:") eqn:Hp.
      * rewrite (analyzeWithAI_phone _ _ _ _ Hgen Hp). eauto.
      * rewrite (analyzeWithAI_direct _ _ _ _ Hgen Hs Hp). eauto.
  - rewrite (analyzeWithAI_failure _ _ _ _ Hgen). eauto.
Qed.

(** Case mapping, character by character. *)
Lemma toLowerChar_counterpart (c : ascii) : lowerCounterpart c (toLowerChar c).
Proof.
  unfold lowerCounterpart, toLowerChar.
  destruct ((65 <=? nat_of_ascii c) && (nat_of_ascii c <=? 90)) eqn:Hc.
  - apply andb_true_iff in Hc as [H1 H2]. apply Nat.leb_le in H1, H2.
    left. split; [lia|]. apply nat_ascii_embedding. lia.
  - right. split; [|reflexivity]. intros [H1 H2].
    apply Nat.leb_le in H1, H2. rewrite H1, H2 in Hc. discriminate.
Qed.

Lemma lowerCounterpart_unique (c d : ascii) : lowerCounterpart c d -> d = toLowerChar c.
Proof.
  unfold lowerCounterpart, toLowerChar. intros [[[H1 H2] Hd]|[Hn ->]].
  - apply Nat.leb_le in H1, H2. rewrite H1, H2. simpl.
    rewrite <- Hd. symmetry. apply ascii_nat_embedding.
  - destruct ((65 <=? nat_of_ascii c) && (nat_of_ascii c <=? 90)) eqn:Hc; [|reflexivity].
    apply andb_true_iff in Hc as [H1 H2]. apply Nat.leb_le in H1, H2. exfalso. auto.
Qed.

Lemma toLowerCase_LowerCaseOf (s : string) : LowerCaseOf s (toLowerCase s).
Proof.
  induction s as [|c s IH]; simpl; constructor; [apply toLowerChar_counterpart | exact IH].
Qed.

Lemma LowerCaseOf_toLowerCase (s t : string) : LowerCaseOf s t -> t = toLowerCase s.
Proof.
  induction 1 as [|c d s t Hc _ IH]; simpl; [reflexivity|].
  now rewrite (lowerCounterpart_unique c d Hc), IH.
Qed.

Lemma toUpperChar_toLowerChar (c : ascii) :
  toUpperChar (toLowerChar c) = toUpperChar c /\ toLowerChar (toUpperChar c) = toLowerChar c.
Proof. destruct c as [[] [] [] [] [] [] [] []]; split; reflexivity. Qed.

Lemma toUpperCase_toLowerCase (s : string) :
  toUpperCase (toLowerCase s) = toUpperCase s /\ toLowerCase (toUpperCase s) = toLowerCase s.
Proof.
  induction s as [|c s [IH1 IH2]]; simpl; [auto|].
  destruct (toUpperChar_toLowerChar c) as [H1 H2]. now rewrite H1, H2, IH1, IH2.
Qed.

Lemma toUpperCase_app (a b : string) :
  toUpperCase (a ++ b) = toUpperCase a ++ toUpperCase b.
Proof. induction a as [|c a IH]; simpl; [reflexivity | now rewrite IH]. Qed.

(** The prefix test of the classifier accepts exactly the answers that
    open with the keyword written in any mix of letter cases. *)
Lemma startsWith_any_case (keyword response : string) :
  startsWith (toUpperCase response) (toUpperCase keyword) = true <->
  exists pre rest, response = pre ++ rest /\ LowerCaseOf pre (toLowerCase keyword).
Proof.
  split.
  - intros H. destruct (startsWith_upper _ _ H) as [pre [Hcut Hpre]].
    exists pre, (substring (String.length (toUpperCase keyword)) response).
    split; [exact Hcut|].
    rewrite <- (proj2 (toUpperCase_toLowerCase keyword)), <- Hpre,
      (proj2 (toUpperCase_toLowerCase pre)).
    apply toLowerCase_LowerCaseOf.
  - intros [pre [rest [-> Hpre]]]. apply LowerCaseOf_toLowerCase in Hpre.
    rewrite toUpperCase_app, <- (proj1 (toUpperCase_toLowerCase pre)), <- Hpre,
      (proj1 (toUpperCase_toLowerCase keyword)).
    unfold startsWith. generalize (toUpperCase keyword). intros k.
    induction k as [|c k IH]; simpl; [destruct (toUpperCase rest); reflexivity|].
    destruct (ascii_dec c c) as [_|Hne]; [exact IH | contradiction].
Qed.

(** C3 — The classifier treats an answer as a device request exactly when
    it opens with "PHONE:" written in any mix of letter cases.  It then
    cuts the trimmed remainder at its first colon only: the part before
    it, lower-cased (A to Z become a to z, nothing else changes), is the
    resource kind; everything after it, further colons included, is the
    query text (trimmed).  The remainder is the answer without its
    six-character prefix. *)
Theorem C3_classify_phone (env : Env) (text : string) (w : World) (response : string) :
  oracleAnswer env text w = Ok response ->
  (startsWith (toUpperCase response) "PHONE:" = true <->
   exists pre rest, response = pre ++ rest /\ LowerCaseOf pre "phone:") /\
  (startsWith (toUpperCase response) "PHONE:" = true ->
   let phoneCommand := trim (substring 6 response) in
   let queryText := trim (afterFirst ":" phoneCommand) in
   analyzeWithAI env text w =
     (Ok (DeviceQuery (toLowerCase (beforeFirst ":" phoneCommand)) queryText),
      asked env text w) /\
   LowerCaseOf (beforeFirst ":" phoneCommand) (toLowerCase (beforeFirst ":" phoneCommand)) /\
   (exists pre, response = pre ++ substring 6 response /\ toUpperCase pre = "PHONE:" /\
                LowerCaseOf pre "phone:") /\
   Trimmed (substring 6 response) phoneCommand /\
   contains ":" (beforeFirst ":" phoneCommand) = false /\
   (if contains ":" phoneCommand
    then phoneCommand = beforeFirst ":" phoneCommand ++ ":" ++ afterFirst ":" phoneCommand
    else beforeFirst ":" phoneCommand = phoneCommand /\ afterFirst ":" phoneCommand = "") /\
   Trimmed (afterFirst ":" phoneCommand) queryText).
Proof.
  intros Hgen. split; [exact (startsWith_any_case "PHONE:" response)|].
  intros Hp phoneCommand queryText.
  destruct (firstSeparator ":" phoneCommand) as [Hb Hsplit].
  split; [apply analyzeWithAI_phone; assumption|].
  split; [apply toLowerCase_LowerCaseOf|].
  split.
  { destruct (startsWith_upper _ _ Hp) as [pre [Hcut Hpre]].
    exists pre. split; [exact Hcut|]. split; [exact Hpre|].
    change "phone:" with (toLowerCase "PHONE:").
    rewrite <- Hpre, (proj2 (toUpperCase_toLowerCase pre)).
    apply toLowerCase_LowerCaseOf. }
  split; [apply trim_Trimmed|].
  split; [exact Hb|].
  split; [exact Hsplit | apply trim_Trimmed].
Qed.

(** The two sample answers of the specification, and an answer whose
    keyword is in lower case and whose kind is in upper case. *)
Lemma C3_classify_phone_witness :
  analyzeWithAI
    (Scenario.envWith Scenario.defaultConfig (Scenario.answering "PHONE: files: invoice 2023"))
    "where is my 2023 invoice?" Scenario.world0
  = (Ok (DeviceQuery "files" "invoice 2023"),
     asked (Scenario.envWith Scenario.defaultConfig (Scenario.answering "PHONE: files: invoice 2023"))
           "where is my 2023 invoice?" Scenario.world0)
  /\
  analyzeWithAI
    (Scenario.envWith Scenario.defaultConfig (Scenario.answering "PHONE: location:"))
    "where am I?" Scenario.world0
  = (Ok (DeviceQuery "location" ""),
     asked (Scenario.envWith Scenario.defaultConfig (Scenario.answering "PHONE: location:"))
           "where am I?" Scenario.world0)
  /\
  analyzeWithAI
    (Scenario.envWith Scenario.defaultConfig (Scenario.answering "phone: FILES: a:b"))
    "find a:b" Scenario.world0
  = (Ok (DeviceQuery "files" "a:b"),
     asked (Scenario.envWith Scenario.defaultConfig (Scenario.answering "phone: FILES: a:b"))
           "find a:b" Scenario.world0)
  /\
  startsWith (toUpperCase "pHoNe: Calendar: friday") "PHONE:" = true.
Proof.
  split; [|split; [|split]].
  - exact (proj1 (proj2 (C3_classify_phone
                    (Scenario.envWith Scenario.defaultConfig
                       (Scenario.answering "PHONE: files: invoice 2023"))
                    "where is my 2023 invoice?" Scenario.world0
                    "PHONE: files: invoice 2023" eq_refl) eq_refl)).
  - exact (proj1 (proj2 (C3_classify_phone
                    (Scenario.envWith Scenario.defaultConfig
                       (Scenario.answering "PHONE: location:"))
                    "where am I?" Scenario.world0
                    "PHONE: location:" eq_refl) eq_refl)).
  - exact (proj1 (proj2 (C3_classify_phone
                    (Scenario.envWith Scenario.defaultConfig
                       (Scenario.answering "phone: FILES: a:b"))
                    "find a:b" Scenario.world0
                    "phone: FILES: a:b" eq_refl) eq_refl)).
  - apply (proj2 (proj1 (C3_classify_phone
                    (Scenario.envWith Scenario.defaultConfig
                       (Scenario.answering "pHoNe: Calendar: friday"))
                    "what is on friday?" Scenario.world0
                    "pHoNe: Calendar: friday" eq_refl))).
    exists "pHoNe:", " Calendar: friday". split; [reflexivity|].
    repeat (apply LowerCaseOf_char;
            [ first [ right; split; [vm_compute; lia | reflexivity]
                    | left; split; vm_compute; lia ] | ]).
    apply LowerCaseOf_empty.
Defined.

(** C4 — When the model's answer starts with "SEARCH:" in any letter case,
    the classifier returns a search whose query is the rest of the answer
    without the white space around it; when the answer starts with neither
    "SEARCH:" nor "PHONE:", it returns the whole answer as a direct
    response, and nothing is thrown. *)
Theorem C4_classify_search_direct (env : Env) (text : string) (w : World) (response : string) :
  oracleAnswer env text w = Ok response ->
  (startsWith (toUpperCase response) "SEARCH:" = true ->
     analyzeWithAI env text w =
       (Ok (Search (trim (substring 7 response))), asked env text w) /\
     (exists pre, response = pre ++ substring 7 response /\ toUpperCase pre = "SEARCH:") /\
     Trimmed (substring 7 response) (trim (substring 7 response)))
  /\
  (startsWith (toUpperCase response) "SEARCH:" = false ->
   startsWith (toUpperCase response) "PHONE:" = false ->
     analyzeWithAI env text w = (Ok (Direct response), asked env text w)).
Proof.
  intros Hgen. split.
  - intros Hs.
    split; [apply analyzeWithAI_search; assumption|].
    split; [exact (startsWith_upper _ _ Hs) | apply trim_Trimmed].
  - intros Hs Hp. apply analyzeWithAI_direct; assumption.
Qed.

(** The sample answer of the specification, in two letter cases, and a
    free-form answer. *)
Lemma C4_classify_search_direct_witness :
  analyzeWithAI
    (Scenario.envWith Scenario.defaultConfig (Scenario.answering "SEARCH: weather in Lagos"))
    "will it rain in Lagos?" Scenario.world0
  = (Ok (Search "weather in Lagos"),
     asked (Scenario.envWith Scenario.defaultConfig (Scenario.answering "SEARCH: weather in Lagos"))
           "will it rain in Lagos?" Scenario.world0)
  /\
  analyzeWithAI
    (Scenario.envWith Scenario.defaultConfig (Scenario.answering "Search:   weather in Lagos  "))
    "will it rain in Lagos?" Scenario.world0
  = (Ok (Search "weather in Lagos"),
     asked (Scenario.envWith Scenario.defaultConfig (Scenario.answering "Search:   weather in Lagos  "))
           "will it rain in Lagos?" Scenario.world0)
  /\
  analyzeWithAI
    (Scenario.envWith Scenario.defaultConfig (Scenario.answering "Hello! How can I help?"))
    "hi" Scenario.world0
  = (Ok (Direct "Hello! How can I help?"),
     asked (Scenario.envWith Scenario.defaultConfig (Scenario.answering "Hello! How can I help?"))
           "hi" Scenario.world0).
Proof.
  split; [|split].
  - exact (proj1 (proj1 (C4_classify_search_direct
                           (Scenario.envWith Scenario.defaultConfig
                              (Scenario.answering "SEARCH: weather in Lagos"))
                           "will it rain in Lagos?" Scenario.world0
                           "SEARCH: weather in Lagos" eq_refl) eq_refl)).
  - exact (proj1 (proj1 (C4_classify_search_direct
                           (Scenario.envWith Scenario.defaultConfig
                              (Scenario.answering "Search:   weather in Lagos  "))
                           "will it rain in Lagos?" Scenario.world0
                           "Search:   weather in Lagos  " eq_refl) eq_refl)).
  - exact (proj2 (C4_classify_search_direct
                    (Scenario.envWith Scenario.defaultConfig
                       (Scenario.answering "Hello! How can I help?"))
                    "hi" Scenario.world0
                    "Hello! How can I help?" eq_refl) eq_refl eq_refl).
Defined.

(** C7 — When the call to the language model fails, the classifier does
    not throw: it logs the error and returns the direct action that
    carries the fixed apology.  Whatever the model does, the caller gets
    an [Analysis]. *)
Theorem C7_classify_oracle_failure (env : Env) (text : string) (w : World) (e : JsError) :
  oracleAnswer env text w = Throw e ->
  analyzeWithAI env text w =
    (Ok (Direct "I'm having trouble understanding your message right now. Could you please try again?"),
     set_trace (EvConsoleError "Error analyzing with Gemini AI:" e :: trace (asked env text w))
               (asked env text w))
  /\
  (forall env' text' w', exists a w'', analyzeWithAI env' text' w' = (Ok a, w'')).
Proof.
  intros Hgen. split.
  - exact (analyzeWithAI_failure _ _ _ _ Hgen).
  - intros env' text' w'.
    destruct (analyzeWithAI_total env' text' w') as [a [w'' [H _]]]. eauto.
Qed.

Lemma C7_classify_oracle_failure_witness :
  fst (analyzeWithAI (Scenario.envWith Scenario.defaultConfig Scenario.unreachable)
                     "what time is it?" Scenario.world0)
  = Ok (Direct "I'm having trouble understanding your message right now. Could you please try again?").
Proof.
  rewrite (proj1 (C7_classify_oracle_failure
                    (Scenario.envWith Scenario.defaultConfig Scenario.unreachable)
                    "what time is it?" Scenario.world0
                    {| message := "fetch failed" |} eq_refl)).
  reflexivity.
Defined.

(* ================================================================== *)
(** ** PersonaStore: [learnFromUserMessage] *)

Section BoundedLogs.

Context {A : Type}.

Lemma lastn_length (n : nat) (l : list A) :
  List.length (lastn n l) = Nat.min n (List.length l).
Proof. unfold lastn. rewrite length_skipn. lia. Qed.

Lemma lastn_all (n : nat) (l : list A) : List.length l <= n -> lastn n l = l.
Proof.
  intros H. unfold lastn. replace (List.length l - n) with 0 by lia. reflexivity.
Qed.

Lemma evict_lastn (n : nat) (l : list A) (x : A) :
  List.length l <= n -> evict n (l ++ [x])%list = lastn n (l ++ [x])%list.
Proof.
  intros H. unfold evict, lastn. rewrite length_app. simpl.
  destruct (n <? List.length l + 1) eqn:E.
  - apply Nat.ltb_lt in E.
    replace (List.length l + 1 - n) with 1 by lia. reflexivity.
  - apply Nat.ltb_ge in E.
    replace (List.length l + 1 - n) with 0 by lia. reflexivity.
Qed.

Lemma lastn_app_lastn (n : nat) (a b : list A) :
  lastn n (lastn n a ++ b)%list = lastn n (a ++ b)%list.
Proof.
  unfold lastn. rewrite !skipn_app, skipn_skipn, !length_app, length_skipn.
  f_equal; f_equal; lia.
Qed.

Lemma lastn_app_r (n : nat) (a b : list A) :
  n <= List.length b -> lastn n (a ++ b)%list = lastn n b.
Proof.
  intros H. unfold lastn. rewrite length_app, skipn_app.
  rewrite skipn_all2 by lia. simpl. f_equal. lia.
Qed.

End BoundedLogs.

Lemma evict_map {A B} (f : A -> B) (n : nat) (l : list A) :
  map f (evict n l) = evict n (map f l).
Proof.
  unfold evict. rewrite length_map. destruct (n <? List.length l); [|reflexivity].
  destruct l; reflexivity.
Qed.

(** Saving never throws and leaves the module-level variables alone. *)
Lemma saveUserPersona_spec (env : Env) (w : World) :
  exists t, saveUserPersona env w = (Ok tt, set_trace t w).
Proof.
  unfold saveUserPersona, try_catch, bind, mkdir, writeFile, console_error,
    external, get_userPersona, throw, set_trace.
  destruct (fs_mkdir env (trace w) (PERSONA_DIR env)) as [[]|e]; simpl.
  - destruct (JSON_stringify env (personaToJs (userPersona w)) 2) as [data|]; simpl.
    + match goal with |- context [fs_writeFile env ?t ?p ?d] =>
        destruct (fs_writeFile env t p d) as [[]|e] end; simpl;
        eexists; reflexivity.
    + eexists; reflexivity.
  - eexists; reflexivity.
Qed.

(** One call of [learnFromUserMessage] is one [observe] of the
    specification, stamped with the clock's reading. *)
Lemma learnFromUserMessage_observe (env : Env) (text : string) (w : World) :
  exists t,
    learnFromUserMessage env text w =
      (Ok tt,
       set_trace t (set_userPersona (observe text (Date_now env (trace w)) (userPersona w)) w)).
Proof.
  unfold learnFromUserMessage, observe, qualifies.
  destruct (String.length text <? 10) eqn:Hshort.
  - exists (trace w). destruct w as [[h s] a t]. reflexivity.
  - unfold bind at 1.
    destruct (30 <? String.length text) eqn:Hq.
    + unfold bind, modify_userPersona, get_userPersona, now, set_userPersona, evict. simpl.
      destruct (50 <? List.length (styleSamples (userPersona w) ++ [text])%list) eqn:H50; simpl;
        match goal with |- context [if ?c then _ else _] =>
          destruct c eqn:H100 end; simpl;
        match goal with |- context [saveUserPersona env ?w1] =>
          destruct (saveUserPersona_spec env w1) as [t ->] end;
        exists t; reflexivity.
    + unfold bind, ret, modify_userPersona, get_userPersona, now, set_userPersona, evict. simpl.
      match goal with |- context [if ?c then _ else _] =>
        destruct c eqn:H100 end; simpl;
        match goal with |- context [saveUserPersona env ?w1] =>
          destruct (saveUserPersona_spec env w1) as [t ->] end;
        exists t; reflexivity.
Qed.

Lemma observe_styleSamples (text : string) (time : Z) (p : Persona) :
  List.length (styleSamples p) <= 50 ->
  styleSamples (observe text time p) =
    lastn 50 (styleSamples p ++ filter qualifies [text])%list.
Proof.
  intros H. unfold observe, qualifies. simpl.
  destruct (String.length text <? 10) eqn:Hshort.
  - apply Nat.ltb_lt in Hshort.
    replace (30 <? String.length text) with false
      by (symmetry; apply Nat.ltb_ge; lia).
    rewrite app_nil_r, lastn_all; auto.
  - simpl. destruct (30 <? String.length text).
    + apply evict_lastn, H.
    + rewrite app_nil_r, lastn_all; auto.
Qed.

Lemma observe_messageHistory (text : string) (time : Z) (p : Persona) :
  List.length (messageHistory p) <= 100 ->
  map content (messageHistory (observe text time p)) =
    lastn 100 (map content (messageHistory p) ++ filter recorded [text])%list.
Proof.
  intros H. unfold observe, recorded. simpl.
  destruct (String.length text <? 10) eqn:Hshort; simpl.
  - rewrite app_nil_r, lastn_all; [reflexivity | now rewrite length_map].
  - rewrite evict_map, map_app. simpl.
    apply evict_lastn. now rewrite length_map.
Qed.

Lemma observeAll_spec (env : Env) (texts : list string) :
  forall w,
    List.length (styleSamples (userPersona w)) <= 50 ->
    List.length (messageHistory (userPersona w)) <= 100 ->
    exists w',
      observeAll env texts w = (Ok tt, w') /\
      styleSamples (userPersona w') =
        lastn 50 (styleSamples (userPersona w) ++ filter qualifies texts)%list /\
      map content (messageHistory (userPersona w')) =
        lastn 100 (map content (messageHistory (userPersona w)) ++ filter recorded texts)%list.
Proof.
  induction texts as [|text rest IH]; intros w HS HH.
  - exists w. simpl. rewrite !app_nil_r, !lastn_all; auto.
    now rewrite length_map.
  - destruct (learnFromUserMessage_observe env text w) as [t Hstep].
    set (p1 := observe text (Date_now env (trace w)) (userPersona w)) in *.
    set (w1 := set_trace t (set_userPersona p1 w)) in *.
    assert (HS1 : styleSamples (userPersona w1) =
                  lastn 50 (styleSamples (userPersona w) ++ filter qualifies [text])%list)
      by (apply observe_styleSamples; exact HS).
    assert (HH1 : map content (messageHistory (userPersona w1)) =
                  lastn 100 (map content (messageHistory (userPersona w))
                             ++ filter recorded [text])%list)
      by (apply observe_messageHistory; exact HH).
    destruct (IH w1) as [w' [Hrun [HS' HH']]].
    + rewrite HS1, lastn_length. lia.
    + rewrite <- (length_map content), HH1, lastn_length. lia.
    + exists w'. split; [|split].
      * change (observeAll env (text :: rest))
          with (learnFromUserMessage env text ;; observeAll env rest).
        unfold bind. rewrite Hstep. exact Hrun.
      * rewrite HS', HS1, lastn_app_lastn, <- app_assoc.
        change (text :: rest) with ([text] ++ rest)%list.
        now rewrite filter_app.
      * rewrite HH', HH1, lastn_app_lastn, <- app_assoc.
        change (text :: rest) with ([text] ++ rest)%list.
        now rewrite filter_app.
Qed.

(** C5 — From a persona within its caps (the empty one of a fresh process
    is), any run of observations succeeds and leaves at most 50 style
    samples and at most 100 history records: the samples are the last 50
    of the old samples followed by the qualifying texts, the history holds
    the last 100 of the old contents followed by the recorded texts, both
    in insertion order, so the oldest entries are the ones dropped.  After
    more than 50 qualifying texts the samples are exactly the 50 most
    recent of them. *)
Theorem C5_observe_bounded_fifo (env : Env) (texts : list string) (w : World) :
  List.length (styleSamples (userPersona w)) <= 50 ->
  List.length (messageHistory (userPersona w)) <= 100 ->
  exists w',
    observeAll env texts w = (Ok tt, w') /\
    List.length (styleSamples (userPersona w')) <= 50 /\
    List.length (messageHistory (userPersona w')) <= 100 /\
    styleSamples (userPersona w') =
      lastn 50 (styleSamples (userPersona w) ++ filter qualifies texts)%list /\
    map content (messageHistory (userPersona w')) =
      lastn 100 (map content (messageHistory (userPersona w)) ++ filter recorded texts)%list /\
    (50 < List.length (filter qualifies texts) ->
       List.length (styleSamples (userPersona w')) = 50 /\
       styleSamples (userPersona w') = lastn 50 (filter qualifies texts)).
Proof.
  intros HS HH.
  destruct (observeAll_spec env texts w HS HH) as [w' [Hrun [HS' HH']]].
  exists w'. split; [exact Hrun|].
  split; [rewrite HS', lastn_length; lia|].
  split; [rewrite <- (length_map content), HH', lastn_length; lia|].
  split; [exact HS'|]. split; [exact HH'|].
  intros Hmany. rewrite HS'. split.
  - rewrite lastn_length, length_app. lia.
  - apply lastn_app_r. lia.
Qed.

(** Fifty-one samples sent to a fresh process: the first one is gone, the
    other fifty remain in order. *)
Lemma C5_observe_bounded_fifo_witness :
  exists w',
    observeAll (Scenario.envWith Scenario.personaConfig (Scenario.answering "ok"))
               (Scenario.sampleTexts 51) Scenario.world0 = (Ok tt, w') /\
    List.length (styleSamples (userPersona w')) = 50 /\
    styleSamples (userPersona w') = tl (Scenario.sampleTexts 51).
Proof.
  destruct (C5_observe_bounded_fifo
              (Scenario.envWith Scenario.personaConfig (Scenario.answering "ok"))
              (Scenario.sampleTexts 51) Scenario.world0
              (Nat.le_0_l 50) (Nat.le_0_l 100))
    as [w' [Hrun [_ [_ [_ [_ Hmany]]]]]].
  exists w'. split; [exact Hrun|].
  assert (Hcount : 50 < List.length (filter qualifies (Scenario.sampleTexts 51)))
    by (vm_compute; lia).
  destruct (Hmany Hcount) as [Hlen Hlast].
  split; [exact Hlen|]. rewrite Hlast. vm_compute. reflexivity.
Defined.

(** C6 — A text shorter than 10 characters changes nothing: the samples,
    the history and the trace of external calls (so no file is written)
    are as before, and nothing is thrown. *)
Theorem C6_observe_short_text (env : Env) (text : string) (w : World) :
  String.length text < 10 ->
  learnFromUserMessage env text w = (Ok tt, w).
Proof.
  intros H. unfold learnFromUserMessage.
  apply Nat.ltb_lt in H. rewrite H. reflexivity.
Qed.

Lemma C6_observe_short_text_witness :
  learnFromUserMessage (Scenario.envWith Scenario.personaConfig (Scenario.answering "ok"))
                       "on my way" Scenario.world0
  = (Ok tt, Scenario.world0).
Proof.
  apply C6_observe_short_text. vm_compute. lia.
Defined.

(* ================================================================== *)
(** ** ActionExecutor: [getPhoneData] *)

(** What [getPhoneData] makes of a capability's outcome. *)
Lemma getPhoneData_guard (type : option string) (capability : M JsValue) (w : World) :
  exists v w',
    try_catch capability
      (fun error =>
         console_error ("Error accessing phone data (" ++ ofUndefined type ++ "):") error ;;
         ret (errorMarker ("Failed to access " ++ ofUndefined type ++ " data: " ++ message error)))
      w = (Ok v, w') /\
    forall e w1, capability w = (Throw e, w1) ->
      v = errorMarker ("Failed to access " ++ ofUndefined type ++ " data: " ++ message e) /\
      w' = set_trace (EvConsoleError ("Error accessing phone data (" ++ ofUndefined type ++ "):") e
                        :: trace w1) w1.
Proof.
  unfold try_catch. destruct (capability w) as [[v|e] w1].
  - exists v, w1. split; [reflexivity | discriminate].
  - eexists _, _. split; [reflexivity|]. intros e' w1' [= <- <-]. auto.
Qed.

(** C8 — A device query never throws.  A resource kind that is none of
    contacts, files, calendar and location gives the error marker
    "Unknown phone data type: <kind>" and calls nothing; an error thrown by
    a capability is caught, logged and turned into an error marker that
    carries the kind and the error's message. *)
Theorem C8_execute_never_raises (env : Env) (type query : option string) (w : World) :
  (exists v w', getPhoneData env type query w = (Ok v, w')) /\
  (strictEq type "contacts" = false -> strictEq type "files" = false ->
   strictEq type "calendar" = false -> strictEq type "location" = false ->
   getPhoneData env type query w =
     (Ok (errorMarker ("Unknown phone data type: " ++ ofUndefined type)), w)) /\
  (forall capability,
     (type = Some "contacts" /\ capability = getContacts (PhoneIntegration env)) \/
     (type = Some "files" /\ capability = searchFiles (PhoneIntegration env) query) \/
     (type = Some "calendar" /\ capability = getCalendarEvents (PhoneIntegration env)) \/
     (type = Some "location" /\ capability = getLocation (PhoneIntegration env)) ->
     forall e w1, capability w = (Throw e, w1) ->
       getPhoneData env type query w =
         (Ok (errorMarker ("Failed to access " ++ ofUndefined type ++ " data: " ++ message e)),
          set_trace (EvConsoleError ("Error accessing phone data (" ++ ofUndefined type ++ "):") e
                       :: trace w1) w1)).
Proof.
  split; [|split].
  - unfold getPhoneData.
    repeat match goal with |- context [if ?c then _ else _] => destruct c end;
      match goal with |- context [try_catch ?c _ w] =>
        destruct (getPhoneData_guard type c w) as [v [w' [H _]]] end;
      exists v, w'; exact H.
  - intros H1 H2 H3 H4. unfold getPhoneData. rewrite H1, H2, H3, H4. reflexivity.
  - intros capability Hcap e w1 Hthrow.
    assert (Hrun : getPhoneData env type query w =
                   try_catch capability
                     (fun error =>
                        console_error ("Error accessing phone data (" ++ ofUndefined type ++ "):") error ;;
                        ret (errorMarker ("Failed to access " ++ ofUndefined type ++ " data: "
                                            ++ message error))) w)
      by (destruct Hcap as [[-> ->]|[[-> ->]|[[-> ->]|[-> ->]]]]; reflexivity).
    rewrite Hrun.
    destruct (getPhoneData_guard type capability w) as [v [w' [H Hcatch]]].
    rewrite H. destruct (Hcatch e w1 Hthrow) as [-> ->]. reflexivity.
Qed.

(** The unknown kind of the specification, and a location service that
    throws. *)
Lemma C8_execute_never_raises_witness :
  getPhoneData (Scenario.envWithPhone PhoneIntegrationStub.impl)
               (Some "unknown") (Some "anything") Scenario.world0
  = (Ok (JsObject [ ("error", JsStr "Unknown phone data type: unknown") ]), Scenario.world0)
  /\
  fst (getPhoneData (Scenario.envWithPhone Scenario.brokenPhone)
                    (Some "location") (Some "") Scenario.world0)
  = Ok (JsObject [ ("error", JsStr "Failed to access location data: location service is off") ]).
Proof.
  split.
  - exact (proj1 (proj2 (C8_execute_never_raises
                           (Scenario.envWithPhone PhoneIntegrationStub.impl)
                           (Some "unknown") (Some "anything") Scenario.world0))
                 eq_refl eq_refl eq_refl eq_refl).
  - rewrite (proj2 (proj2 (C8_execute_never_raises
                             (Scenario.envWithPhone Scenario.brokenPhone)
                             (Some "location") (Some "") Scenario.world0))
                   _ (or_intror (or_intror (or_intror (conj eq_refl eq_refl))))
                   {| message := "location service is off" |} Scenario.world0 eq_refl).
    reflexivity.
Defined.

(** C10 — For contacts, calendar and location the outcome of a device
    query (the value, and the world after it) is the same whatever the
    query text: the capability is called without it. *)
Theorem C10_execute_ignores_query (env : Env) (kind : string) (q1 q2 : option string) (w : World) :
  In kind ["contacts"; "calendar"; "location"] ->
  getPhoneData env (Some kind) q1 w = getPhoneData env (Some kind) q2 w.
Proof.
  intros [<-|[<-|[<-|[]]]]; reflexivity.
Qed.

Lemma C10_execute_ignores_query_witness :
  getPhoneData (Scenario.envWithPhone PhoneIntegrationStub.impl)
               (Some "calendar") (Some "meetings tomorrow") Scenario.world0
  = getPhoneData (Scenario.envWithPhone PhoneIntegrationStub.impl)
                 (Some "calendar") (Some "lunch on friday") Scenario.world0.
Proof.
  apply C10_execute_ignores_query. simpl. auto.
Defined.

(** The file search is the one capability that is handed the query. *)
Example getPhoneData_files_uses_query :
  fst (getPhoneData (Scenario.envWithPhone Scenario.brokenPhone)
                    (Some "files") (Some "invoice 2023") Scenario.world0)
  <> fst (getPhoneData (Scenario.envWithPhone Scenario.brokenPhone)
                       (Some "files") (Some "holiday photos") Scenario.world0).
Proof. vm_compute. discriminate. Qed.

(* ================================================================== *)
(** ** ResponseComposer: the composers return text and never throw *)

Lemma analysisPrompt_not_persona (text : string) :
  startsWith (analysisPrompt text) personaPromptHead = false.
Proof. reflexivity. Qed.

Lemma analyzeWithAI_calls (env : Env) (text : string) (w : World) :
  exists a w', analyzeWithAI env text w = (Ok a, w') /\
               userPersona w' = userPersona w /\
               personaCalls (trace w') = personaCalls (trace w) /\
               searchCalls (trace w') = searchCalls (trace w).
Proof.
  destruct (oracleAnswer env text w) as [response|e] eqn:Hgen.
  - destruct (startsWith (toUpperCase response) "SEARCH:") eqn:Hs.
    + rewrite (analyzeWithAI_search _ _ _ _ Hgen Hs). eexists _, _. repeat split.
    + destruct (startsWith (toUpperCase response) "PHONE:") eqn:Hp.
      * rewrite (analyzeWithAI_phone _ _ _ _ Hgen Hp). eexists _, _. repeat split.
      * rewrite (analyzeWithAI_direct _ _ _ _ Hgen Hs Hp). eexists _, _. repeat split.
  - rewrite (analyzeWithAI_failure _ _ _ _ Hgen). eexists _, _. repeat split.
Qed.

Lemma googleSearch_calls (env : Env) (query : option string) (w : World) :
  exists results w', googleSearch env query w = (Ok results, w') /\
                     userPersona w' = userPersona w /\
                     personaCalls (trace w') = personaCalls (trace w) /\
                     searchCalls (trace w') = S (searchCalls (trace w)).
Proof.
  unfold googleSearch, try_catch, bind, external.
  match goal with |- context [axios_get env ?t ?u] =>
    destruct (axios_get env t u) as [data|e] end;
    eexists _, _; repeat split.
Qed.

Lemma generateResponseWithContext_calls (env : Env) (originalMessage : string)
    (searchResults : list SearchResult) (w : World) :
  exists text w', generateResponseWithContext env originalMessage searchResults w = (Ok text, w') /\
                  userPersona w' = userPersona w /\
                  personaCalls (trace w') = personaCalls (trace w) /\
                  searchCalls (trace w') = searchCalls (trace w).
Proof.
  unfold generateResponseWithContext, try_catch, model_generateContent, external.
  match goal with |- context [generateContent env ?t ?m ?p] =>
    destruct (generateContent env t m p) as [text|e] end;
    eexists _, _; repeat split.
Qed.

Lemma generatePersonaResponse_calls (env : Env) (messageText : string) (w : World) :
  exists text w', generatePersonaResponse env messageText w = (Ok text, w') /\
                  userPersona w' = userPersona w /\
                  personaCalls (trace w') = S (personaCalls (trace w)) /\
                  searchCalls (trace w') = searchCalls (trace w).
Proof.
  unfold generatePersonaResponse, try_catch, bind, get_userPersona,
    model_generateContent, external.
  match goal with |- context [generateContent env ?t ?m ?p] =>
    destruct (generateContent env t m p) as [text|e] end;
    eexists _, _; repeat split.
Qed.

Lemma generateResponseWithPhoneData_total (env : Env) (originalMessage : string)
    (phoneData : JsValue) (w : World) :
  exists text w', generateResponseWithPhoneData env originalMessage phoneData w = (Ok text, w').
Proof.
  unfold generateResponseWithPhoneData, try_catch, bind, liftOutcome,
    model_generateContent, external.
  destruct (getProp phoneData "error") as [v|e]; [|eexists _, _; reflexivity].
  match goal with |- context [generateContent env ?t ?m ?p] =>
    destruct (generateContent env t m p) as [text|e] end;
    eexists _, _; reflexivity.
Qed.

(* ================================================================== *)
(** ** MessageRouter: [processMessage] and the message handler *)

(** The router runs the classifier, then the one path the precedence of
    the specification selects. *)
Lemma processMessage_runPath (env : Env) (messageText : string) (w : World)
    (a : Analysis) (w1 : World) :
  analyzeWithAI env messageText w = (Ok a, w1) ->
  processMessage env messageText w =
    runPath env
      (spec_path (needsSearch a && SEARCH_ENABLED (config env))
                 (needsPhoneAccess a && PHONE_INTEGRATION_ENABLED (config env))
                 (USER_PERSONA_ENABLED (config env)
                  && (5 <=? List.length (styleSamples (userPersona w1)))))
      messageText a w1.
Proof.
  intros Ha. unfold processMessage, spec_path.
  unfold bind at 1. rewrite Ha.
  destruct (needsSearch a && SEARCH_ENABLED (config env)); [reflexivity|].
  destruct (needsPhoneAccess a && PHONE_INTEGRATION_ENABLED (config env)); [reflexivity|].
  unfold bind at 1, get_userPersona.
  destruct (USER_PERSONA_ENABLED (config env)
            && (5 <=? List.length (styleSamples (userPersona w1)))); reflexivity.
Qed.

(** C2 — For every message the router classifies it and then runs exactly
    one path, chosen in the order search, device, persona, direct.  When
    the action is a search and search is enabled, whatever the persona
    state (so also with persona mode enabled and five samples or more),
    the router returns the text of the search composer: one page is
    fetched and no persona prompt reaches the model. *)
Theorem C2_router_precedence (env : Env) (messageText : string) (w : World) :
  exists a w1,
    analyzeWithAI env messageText w = (Ok a, w1) /\
    processMessage env messageText w =
      runPath env
        (spec_path (needsSearch a && SEARCH_ENABLED (config env))
                   (needsPhoneAccess a && PHONE_INTEGRATION_ENABLED (config env))
                   (USER_PERSONA_ENABLED (config env)
                    && (5 <=? List.length (styleSamples (userPersona w1)))))
        messageText a w1 /\
    (needsSearch a = true -> SEARCH_ENABLED (config env) = true ->
     exists text w2,
       processMessage env messageText w = (Ok (Some text), w2) /\
       searchCalls (trace w2) = S (searchCalls (trace w)) /\
       personaCalls (trace w2) = personaCalls (trace w)).
Proof.
  destruct (analyzeWithAI_calls env messageText w) as [a [w1 [Ha [_ [Hp1 Hs1]]]]].
  exists a, w1. split; [exact Ha|].
  split; [exact (processMessage_runPath _ _ _ _ _ Ha)|].
  intros Hsearch Henabled.
  rewrite (processMessage_runPath _ _ _ _ _ Ha), Hsearch, Henabled. simpl.
  destruct (googleSearch_calls env (searchQuery a) w1) as [rs [w2 [Hg [_ [Hp2 Hs2]]]]].
  destruct (generateResponseWithContext_calls env messageText rs w2)
    as [text [w3 [Hc [_ [Hp3 Hs3]]]]].
  exists text, w3. unfold bind, ret. rewrite Hg, Hc.
  split; [reflexivity|]. split; congruence.
Qed.

(** Persona mode on with five samples, search on, and a message the model
    classifies as a search: the reply is the search composer's. *)
Lemma C2_router_precedence_witness :
  USER_PERSONA_ENABLED (config Scenario.lagosEnv) = true /\
  5 <= List.length (styleSamples (userPersona Scenario.personaWorld)) /\
  exists w2,
    processMessage Scenario.lagosEnv "will it rain in Lagos?" Scenario.personaWorld
    = (Ok (Some "It is sunny in Lagos."), w2) /\
    searchCalls (trace w2) = S (searchCalls (trace Scenario.personaWorld)) /\
    personaCalls (trace w2) = personaCalls (trace Scenario.personaWorld).
Proof.
  split; [reflexivity|]. split; [vm_compute; lia|].
  destruct (C2_router_precedence Scenario.lagosEnv "will it rain in Lagos?"
              Scenario.personaWorld)
    as [a [w1 [Ha [_ Hsearch]]]].
  rewrite (analyzeWithAI_search Scenario.lagosEnv "will it rain in Lagos?"
             Scenario.personaWorld "SEARCH: weather in Lagos" eq_refl eq_refl) in Ha.
  injection Ha as <- <-.
  destruct (Hsearch eq_refl eq_refl) as [text [w2 [Hrun Hcalls]]].
  exists w2. split; [|exact Hcalls].
  rewrite Hrun. f_equal. f_equal. f_equal.
  assert (Hval : fst (processMessage Scenario.lagosEnv "will it rain in Lagos?"
                        Scenario.personaWorld)
                 = Ok (Some "It is sunny in Lagos.")) by (vm_compute; reflexivity).
  rewrite Hrun in Hval. simpl in Hval. now injection Hval.
Defined.

(** With no search or device dispatch and no persona, the reply is the
    [response] field of the classifier's result. *)
Lemma processMessage_fallthrough (env : Env) (messageText : string) (w : World)
    (a : Analysis) (w1 : World) :
  analyzeWithAI env messageText w = (Ok a, w1) ->
  needsSearch a && SEARCH_ENABLED (config env) = false ->
  needsPhoneAccess a && PHONE_INTEGRATION_ENABLED (config env) = false ->
  USER_PERSONA_ENABLED (config env)
    && (5 <=? List.length (styleSamples (userPersona w1))) = false ->
  processMessage env messageText w = (Ok (response a), w1).
Proof.
  intros Ha Hs Hp Hpersona.
  rewrite (processMessage_runPath _ _ _ _ _ Ha), Hs, Hp, Hpersona. reflexivity.
Qed.

(** A free-form answer of the model is the reply, as is the fixed apology
    when the model fails. *)
Lemma processMessage_direct (env : Env) (messageText : string) (w : World) (answer : string) :
  oracleAnswer env messageText w = Ok answer ->
  startsWith (toUpperCase answer) "SEARCH:" = false ->
  startsWith (toUpperCase answer) "PHONE:" = false ->
  USER_PERSONA_ENABLED (config env)
    && (5 <=? List.length (styleSamples (userPersona w))) = false ->
  processMessage env messageText w = (Ok (Some answer), asked env messageText w).
Proof.
  intros Hgen Hs Hp Hpersona.
  exact (processMessage_fallthrough _ _ _ _ _
           (analyzeWithAI_direct _ _ _ _ Hgen Hs Hp) eq_refl eq_refl Hpersona).
Qed.

(** A search or device action whose feature is switched off falls through
    to the same [return]: the reply is [null]. *)
Lemma processMessage_null_search (env : Env) (messageText : string) (w : World) (answer : string) :
  oracleAnswer env messageText w = Ok answer ->
  startsWith (toUpperCase answer) "SEARCH:" = true ->
  SEARCH_ENABLED (config env) = false ->
  USER_PERSONA_ENABLED (config env)
    && (5 <=? List.length (styleSamples (userPersona w))) = false ->
  processMessage env messageText w = (Ok None, asked env messageText w).
Proof.
  intros Hgen Hs Hoff Hpersona.
  refine (processMessage_fallthrough _ _ _ _ _
            (analyzeWithAI_search _ _ _ _ Hgen Hs) _ eq_refl Hpersona).
  simpl. exact Hoff.
Qed.

Lemma processMessage_null_phone (env : Env) (messageText : string) (w : World) (answer : string) :
  oracleAnswer env messageText w = Ok answer ->
  startsWith (toUpperCase answer) "PHONE:" = true ->
  PHONE_INTEGRATION_ENABLED (config env) = false ->
  USER_PERSONA_ENABLED (config env)
    && (5 <=? List.length (styleSamples (userPersona w))) = false ->
  processMessage env messageText w = (Ok None, asked env messageText w).
Proof.
  intros Hgen Hp Hoff Hpersona.
  refine (processMessage_fallthrough _ _ _ _ _
            (analyzeWithAI_phone _ _ _ _ Hgen Hp) eq_refl _ Hpersona).
  simpl. exact Hoff.
Qed.

(** C1 — The claim is that a message sent to neither the search nor the
    device path, with persona mode not eligible, is answered with the
    classifier's response text, also when the action was a search or a
    device query whose feature is switched off.  The script returns [null]
    there: in a process started with no flag set (device integration off),
    a message the model classifies "PHONE: contacts: mom" gets the reply
    [null], and so does a "SEARCH:" classification with search off; a
    free-form answer is returned as it is. *)
Theorem C1_reply_is_null_when_feature_off :
  fst (processMessage
         (Scenario.envWith Scenario.defaultConfig (Scenario.scripted "PHONE: contacts: mom"))
         "call mom" Scenario.world0) = Ok None
  /\
  fst (processMessage
         (Scenario.envWith Scenario.searchOffConfig (Scenario.scripted "SEARCH: weather in Lagos"))
         "will it rain in Lagos?" Scenario.world0) = Ok None
  /\
  fst (processMessage
         (Scenario.envWith Scenario.defaultConfig (Scenario.scripted "Hello! How can I help?"))
         "hi" Scenario.world0) = Ok (Some "Hello! How can I help?").
Proof.
  split; [|split].
  - rewrite (processMessage_null_phone
               (Scenario.envWith Scenario.defaultConfig (Scenario.scripted "PHONE: contacts: mom"))
               "call mom" Scenario.world0 "PHONE: contacts: mom"
               eq_refl eq_refl eq_refl eq_refl).
    reflexivity.
  - rewrite (processMessage_null_search
               (Scenario.envWith Scenario.searchOffConfig
                  (Scenario.scripted "SEARCH: weather in Lagos"))
               "will it rain in Lagos?" Scenario.world0 "SEARCH: weather in Lagos"
               eq_refl eq_refl eq_refl eq_refl).
    reflexivity.
  - rewrite (processMessage_direct
               (Scenario.envWith Scenario.defaultConfig
                  (Scenario.scripted "Hello! How can I help?"))
               "hi" Scenario.world0 "Hello! How can I help?"
               eq_refl eq_refl eq_refl eq_refl).
    reflexivity.
Qed.

(** The handler passes the [null] on to [message.reply]. *)
Example onMessage_replies_null :
  replies (trace (snd (onMessage
     (Scenario.envWith Scenario.defaultConfig (Scenario.scripted "PHONE: contacts: mom"))
     (Scenario.inbound "call mom") Scenario.world0)))
  = [None].
Proof. vm_compute. reflexivity. Qed.

(** C9 — With group restriction enabled, a message that is not the
    account's own and whose chat is not on the allow-list (or cannot be
    resolved at all) is never answered: the handler returns normally, no
    reply is sent (neither an answer nor the apology), and the persona and
    the allow-list are untouched. *)
Theorem C9_gated_chat_is_silent (env : Env) (msg : Message) (w : World) :
  GROUP_RESTRICTION_ENABLED (config env) = true ->
  fromMe msg = false ->
  (forall chat, message_getChat env (trace w) msg = Ok chat ->
                includes (ALLOWED_GROUP_IDS w) (id_serialized chat) = false) ->
  exists w',
    onMessage env msg w = (Ok tt, w') /\
    replies (trace w') = replies (trace w) /\
    userPersona w' = userPersona w /\
    ALLOWED_GROUP_IDS w' = ALLOWED_GROUP_IDS w.
Proof.
  intros Hrestricted Hother Hgate.
  unfold onMessage, try_catch.
  unfold bind at 1. unfold getChat, external.
  destruct (message_getChat env (trace w) msg) as [chat|e] eqn:Hchat.
  - specialize (Hgate chat eq_refl).
    rewrite Hother, Hrestricted.
    unfold bind, get_ALLOWED_GROUP_IDS, console_log, external, ret.
    destruct (DEBUG_MODE (config env)); simpl; rewrite Hgate, orb_true_r;
      eexists; repeat split.
  - rewrite Hrestricted. unfold bind, console_error, external, ret. simpl.
    eexists; repeat split.
Qed.

(** A group that is not on the allow-list, and a chat that cannot be
    resolved, both under restriction: no reply. *)
Lemma C9_gated_chat_is_silent_witness :
  (exists w',
     onMessage (Scenario.envWith Scenario.restrictedConfig (Scenario.answering "Hello!"))
               (Scenario.inbound "hello there") Scenario.restrictedWorld = (Ok tt, w') /\
     replies (trace w') = []) /\
  (exists w',
     onMessage (Scenario.envNoChat Scenario.restrictedConfig)
               (Scenario.inbound "hello there") Scenario.restrictedWorld = (Ok tt, w') /\
     replies (trace w') = []).
Proof.
  split.
  - destruct (C9_gated_chat_is_silent
                (Scenario.envWith Scenario.restrictedConfig (Scenario.answering "Hello!"))
                (Scenario.inbound "hello there") Scenario.restrictedWorld eq_refl eq_refl)
      as [w' [Hrun [Hreplies _]]].
    + intros chat [= <-]. reflexivity.
    + exists w'. split; [exact Hrun | exact Hreplies].
  - destruct (C9_gated_chat_is_silent
                (Scenario.envNoChat Scenario.restrictedConfig)
                (Scenario.inbound "hello there") Scenario.restrictedWorld eq_refl eq_refl)
      as [w' [Hrun [Hreplies _]]].
    + intros chat. discriminate.
    + exists w'. split; [exact Hrun | exact Hreplies].
Defined.

(** Without restriction the same failure is answered with the apology. *)
Example onMessage_apology_unrestricted :
  replies (trace (snd (onMessage (Scenario.envNoChat Scenario.defaultConfig)
                                 (Scenario.inbound "hello there") Scenario.world0)))
  = [Some "Sorry, I encountered an error while processing your message."].
Proof. vm_compute. reflexivity. Qed.

(* ================================================================== *)
(** ** What the computations of the script leave alone *)

Section CalmFacts.

Context {A B : Type}.

Lemma sameState_refl (w : World) : sameState w w.
Proof. repeat split. Qed.

Lemma sameState_trans (w1 w2 w3 : World) :
  sameState w1 w2 -> sameState w2 w3 -> sameState w1 w3.
Proof.
  intros [H1 [H2 H3]] [H4 [H5 H6]]. repeat split; congruence.
Qed.

Lemma Calm_ret (a : A) : Calm (ret a).
Proof. intros w. apply sameState_refl. Qed.

Lemma Calm_throw (e : JsError) : Calm (@throw A e).
Proof. intros w. apply sameState_refl. Qed.

Lemma Calm_liftOutcome (o : Outcome A) : Calm (liftOutcome o).
Proof. intros w. apply sameState_refl. Qed.

Lemma Calm_bind (c : M A) (k : A -> M B) :
  Calm c -> (forall a, Calm (k a)) -> Calm (bind c k).
Proof.
  intros Hc Hk w. unfold bind. specialize (Hc w).
  destruct (c w) as [[a|e] w1]; simpl in *; [|exact Hc].
  exact (sameState_trans _ _ _ Hc (Hk a w1)).
Qed.

Lemma Calm_try_catch (body : M A) (handler : JsError -> M A) :
  Calm body -> (forall e, Calm (handler e)) -> Calm (try_catch body handler).
Proof.
  intros Hb Hh w. unfold try_catch. specialize (Hb w).
  destruct (body w) as [[a|e] w1]; simpl in *; [exact Hb|].
  exact (sameState_trans _ _ _ Hb (Hh e w1)).
Qed.

Lemma Calm_external (answer : Trace -> Outcome A) (ev : Event) :
  replies [ev] = [] -> Calm (external answer ev).
Proof.
  intros Hev w. unfold external, sameState, replies in *. simpl in *.
  rewrite app_nil_r in Hev. rewrite Hev. repeat split.
Qed.

Lemma NoThrow_ret (a : A) : NoThrow (ret a).
Proof. intros w. exists a. reflexivity. Qed.

Lemma NoThrow_bind (c : M A) (k : A -> M B) :
  NoThrow c -> (forall a, NoThrow (k a)) -> NoThrow (bind c k).
Proof.
  intros Hc Hk w. unfold bind. destruct (Hc w) as [a Ha].
  destruct (c w) as [o w1]. simpl in Ha. subst o. apply Hk.
Qed.

Lemma NoThrow_try_catch (body : M A) (handler : JsError -> M A) :
  (forall e, NoThrow (handler e)) -> NoThrow (try_catch body handler).
Proof.
  intros Hh w. unfold try_catch.
  destruct (body w) as [[a|e] w1]; [exists a; reflexivity | apply Hh].
Qed.

End CalmFacts.

Lemma Calm_console_log (line : string) : Calm (console_log line).
Proof. apply Calm_external. reflexivity. Qed.

Lemma Calm_console_error (label : string) (e : JsError) : Calm (console_error label e).
Proof. apply Calm_external. reflexivity. Qed.

Lemma NoThrow_console_log (line : string) : NoThrow (console_log line).
Proof. intros w. exists tt. reflexivity. Qed.

Lemma NoThrow_console_error (label : string) (e : JsError) : NoThrow (console_error label e).
Proof. intros w. exists tt. reflexivity. Qed.

Lemma Calm_get_userPersona : Calm get_userPersona.
Proof. intros w. apply sameState_refl. Qed.

Lemma NoThrow_get_userPersona : NoThrow get_userPersona.
Proof. intros w. eexists. reflexivity. Qed.

Lemma Calm_model_generateContent (env : Env) (prompt : string) :
  Calm (model_generateContent env prompt).
Proof. apply Calm_external. reflexivity. Qed.

Create HintDb calm.

#[local] Hint Resolve Calm_ret Calm_throw Calm_liftOutcome Calm_console_log
  Calm_console_error Calm_get_userPersona Calm_model_generateContent
  NoThrow_ret NoThrow_console_log NoThrow_console_error NoThrow_get_userPersona : calm.

(** Breaks a goal about a computation of the script into its statements. *)
Ltac calm :=
  repeat first
    [ progress auto with calm
    | apply Calm_try_catch | apply NoThrow_try_catch
    | apply Calm_bind | apply NoThrow_bind
    | apply Calm_external; reflexivity
    | progress cbv zeta
    | match goal with
      | |- forall _, _ => intro
      | |- Calm (if ?c then _ else _) => destruct c
      | |- NoThrow (if ?c then _ else _) => destruct c
      | |- Calm (match ?c with _ => _ end) => destruct c
      | |- NoThrow (match ?c with _ => _ end) => destruct c
      end ].

Lemma analyzeWithAI_Quiet (env : Env) (text : string) : Quiet (analyzeWithAI env text).
Proof. split; unfold analyzeWithAI; calm. Qed.

Lemma googleSearch_Quiet (env : Env) (query : option string) : Quiet (googleSearch env query).
Proof. split; unfold googleSearch; calm. Qed.

Lemma generateResponseWithContext_Quiet (env : Env) (originalMessage : string)
    (searchResults : list SearchResult) :
  Quiet (generateResponseWithContext env originalMessage searchResults).
Proof. split; unfold generateResponseWithContext; calm. Qed.

Lemma generateResponseWithPhoneData_Quiet (env : Env) (originalMessage : string)
    (phoneData : JsValue) :
  Quiet (generateResponseWithPhoneData env originalMessage phoneData).
Proof. split; unfold generateResponseWithPhoneData; calm. Qed.

Lemma generatePersonaResponse_Quiet (env : Env) (messageText : string) :
  Quiet (generatePersonaResponse env messageText).
Proof. split; unfold generatePersonaResponse; calm. Qed.

Lemma getPhoneData_NoThrow (env : Env) (type query : option string) :
  NoThrow (getPhoneData env type query).
Proof. unfold getPhoneData; calm. Qed.

Lemma getPhoneData_Calm (env : Env) (type query : option string) :
  CalmPhone (PhoneIntegration env) -> Calm (getPhoneData env type query).
Proof.
  intros [Hc [Hf [Hcal Hl]]]. unfold getPhoneData.
  apply Calm_try_catch; [|calm].
  repeat match goal with |- Calm (if ?c then _ else _) => destruct c end; auto with calm.
Qed.

Lemma processMessage_NoThrow (env : Env) (messageText : string) :
  NoThrow (processMessage env messageText).
Proof.
  unfold processMessage.
  apply NoThrow_bind; [apply analyzeWithAI_Quiet|]. intros a.
  destruct (needsSearch a && SEARCH_ENABLED (config env)).
  { apply NoThrow_bind; [apply googleSearch_Quiet|]. intros rs.
    apply NoThrow_bind; [apply generateResponseWithContext_Quiet | calm]. }
  destruct (needsPhoneAccess a && PHONE_INTEGRATION_ENABLED (config env)).
  { apply NoThrow_bind; [apply getPhoneData_NoThrow|]. intros v.
    apply NoThrow_bind; [apply generateResponseWithPhoneData_Quiet | calm]. }
  apply NoThrow_bind; [calm|]. intros p.
  destruct (USER_PERSONA_ENABLED (config env) && (5 <=? List.length (styleSamples p))).
  - apply NoThrow_bind; [apply generatePersonaResponse_Quiet | calm].
  - calm.
Qed.

Lemma processMessage_Calm (env : Env) (messageText : string) :
  CalmPhone (PhoneIntegration env) -> Calm (processMessage env messageText).
Proof.
  intros Hphone. unfold processMessage.
  apply Calm_bind; [apply analyzeWithAI_Quiet|]. intros a.
  destruct (needsSearch a && SEARCH_ENABLED (config env)).
  { apply Calm_bind; [apply googleSearch_Quiet|]. intros rs.
    apply Calm_bind; [apply generateResponseWithContext_Quiet | calm]. }
  destruct (needsPhoneAccess a && PHONE_INTEGRATION_ENABLED (config env)).
  { apply Calm_bind; [apply getPhoneData_Calm; exact Hphone|]. intros v.
    apply Calm_bind; [apply generateResponseWithPhoneData_Quiet | calm]. }
  apply Calm_bind; [calm|]. intros p.
  destruct (USER_PERSONA_ENABLED (config env) && (5 <=? List.length (styleSamples p))).
  - apply Calm_bind; [apply generatePersonaResponse_Quiet | calm].
  - calm.
Qed.

Lemma PhoneIntegrationStub_calm : CalmPhone PhoneIntegrationStub.impl.
Proof.
  repeat split; simpl; intros;
    unfold PhoneIntegrationStub.getContacts, PhoneIntegrationStub.searchFiles,
      PhoneIntegrationStub.getCalendarEvents, PhoneIntegrationStub.getLocation; calm.
Qed.

(* ================================================================== *)
(** ** PersonaStore: further properties of [learnFromUserMessage] *)

(** From 10 characters on, a call is the in-memory update followed by
    [saveUserPersona]. *)
Lemma learnFromUserMessage_then_save (env : Env) (text : string) (w : World) :
  10 <= String.length text ->
  learnFromUserMessage env text w =
    saveUserPersona env
      (set_userPersona (observe text (Date_now env (trace w)) (userPersona w)) w).
Proof.
  intros Hlen. apply Nat.ltb_ge in Hlen.
  unfold learnFromUserMessage, observe, qualifies. rewrite Hlen.
  unfold bind at 1.
  destruct (30 <? String.length text) eqn:Hq.
  - unfold bind, modify_userPersona, get_userPersona, now, set_userPersona, evict. simpl.
    destruct (50 <? List.length (styleSamples (userPersona w) ++ [text])%list); simpl;
      match goal with |- context [if ?c then _ else _] => destruct c end; reflexivity.
  - unfold bind, ret, modify_userPersona, get_userPersona, now, set_userPersona, evict. simpl.
    match goal with |- context [if ?c then _ else _] => destruct c end; reflexivity.
Qed.

(** X1 — A text of 10 to 30 characters is recorded in the history and
    nowhere else: the style samples are untouched, the history gains the
    record at its end and loses its oldest one if that makes 101. *)
Theorem learn_medium_text_history_only (env : Env) (text : string) (w : World) :
  10 <= String.length text <= 30 ->
  exists w',
    learnFromUserMessage env text w = (Ok tt, w') /\
    styleSamples (userPersona w') = styleSamples (userPersona w) /\
    messageHistory (userPersona w') =
      evict 100 (messageHistory (userPersona w) ++
                 [ {| role := "user"; content := text;
                      timestamp := Date_now env (trace w) |} ])%list /\
    ALLOWED_GROUP_IDS w' = ALLOWED_GROUP_IDS w.
Proof.
  intros [Hlo Hhi].
  destruct (learnFromUserMessage_observe env text w) as [t Hrun].
  eexists. split; [exact Hrun|].
  unfold observe, qualifies. simpl.
  replace (String.length text <? 10) with false by (symmetry; apply Nat.ltb_ge; lia).
  replace (30 <? String.length text) with false by (symmetry; apply Nat.ltb_ge; lia).
  repeat split.
Qed.

Lemma learn_medium_text_history_only_witness :
  exists w',
    learnFromUserMessage (Scenario.envWith Scenario.personaConfig (Scenario.answering "ok"))
                         "see you at noon" Scenario.world0 = (Ok tt, w') /\
    styleSamples (userPersona w') = [] /\
    map content (messageHistory (userPersona w')) = ["see you at noon"].
Proof.
  destruct (learn_medium_text_history_only
              (Scenario.envWith Scenario.personaConfig (Scenario.answering "ok"))
              "see you at noon" Scenario.world0)
    as [w' [Hrun [Hs [Hh _]]]].
  - vm_compute. split; lia.
  - exists w'. split; [exact Hrun|]. split; [exact Hs|]. rewrite Hh. reflexivity.
Defined.

(** X2 — Learning never throws, and what it leaves in memory does not
    depend on the file system: two environments whose clocks agree leave
    the same persona, whether their disks work or not. *)
Theorem learn_ignores_persistence_failure (env1 env2 : Env) (text : string) (w : World) :
  Date_now env1 (trace w) = Date_now env2 (trace w) ->
  fst (learnFromUserMessage env1 text w) = Ok tt /\
  fst (learnFromUserMessage env2 text w) = Ok tt /\
  userPersona (snd (learnFromUserMessage env1 text w)) =
    userPersona (snd (learnFromUserMessage env2 text w)) /\
  ALLOWED_GROUP_IDS (snd (learnFromUserMessage env1 text w)) = ALLOWED_GROUP_IDS w.
Proof.
  intros Hclock.
  destruct (learnFromUserMessage_observe env1 text w) as [t1 H1].
  destruct (learnFromUserMessage_observe env2 text w) as [t2 H2].
  rewrite H1, H2. simpl. rewrite Hclock. repeat split.
Qed.

Lemma learn_ignores_persistence_failure_witness :
  userPersona (snd (learnFromUserMessage
                      (Scenario.envWith Scenario.personaConfig (Scenario.answering "ok"))
                      "the disk is healthy and this sentence is long enough" Scenario.world0))
  = userPersona (snd (learnFromUserMessage ShellScenario.envReadOnlyDisk
                      "the disk is healthy and this sentence is long enough" Scenario.world0)).
Proof.
  exact (proj1 (proj2 (proj2 (learn_ignores_persistence_failure
           (Scenario.envWith Scenario.personaConfig (Scenario.answering "ok"))
           ShellScenario.envReadOnlyDisk
           "the disk is healthy and this sentence is long enough" Scenario.world0 eq_refl)))).
Defined.

(** X3 — What is written is the persona after the update: when the data
    directory can be made and the persona serialises, a recorded text ends
    with one write of the serialised new persona to the persona file; when
    the directory cannot be made, nothing is written. *)
Theorem learn_writes_updated_persona (env : Env) (text : string) (w : World) :
  10 <= String.length text ->
  (forall data,
     fs_mkdir env (trace w) (PERSONA_DIR env) = Ok tt ->
     JSON_stringify env
       (personaToJs (observe text (Date_now env (trace w)) (userPersona w))) 2 = Some data ->
     writes (trace (snd (learnFromUserMessage env text w))) =
       (PERSONA_FILE env, data) :: writes (trace w)) /\
  (forall e,
     fs_mkdir env (trace w) (PERSONA_DIR env) = Throw e ->
     writes (trace (snd (learnFromUserMessage env text w))) = writes (trace w)).
Proof.
  intros Hlen. rewrite (learnFromUserMessage_then_save env text w Hlen).
  unfold saveUserPersona, try_catch, bind, mkdir, writeFile, console_error,
    external, get_userPersona, throw.
  split.
  - intros data Hmk Hjson. simpl. rewrite Hmk. simpl. rewrite Hjson. simpl.
    match goal with |- context [fs_writeFile env ?t ?p ?d] =>
      destruct (fs_writeFile env t p d) as [[]|e] end; reflexivity.
  - intros e Hmk. simpl. rewrite Hmk. reflexivity.
Qed.

Lemma learn_writes_updated_persona_witness :
  writes (trace (snd (learnFromUserMessage
                        (Scenario.envWith Scenario.personaConfig (Scenario.answering "ok"))
                        "see you at noon" Scenario.world0)))
  = [ ("/app/data/user_persona.json", "{}") ]
  /\
  writes (trace (snd (learnFromUserMessage ShellScenario.envReadOnlyDisk
                        "see you at noon" Scenario.world0))) = [].
Proof.
  split.
  - exact (proj1 (learn_writes_updated_persona
                    (Scenario.envWith Scenario.personaConfig (Scenario.answering "ok"))
                    "see you at noon" Scenario.world0
                    (proj1 (Nat.leb_le 10 15) eq_refl)) "{}" eq_refl eq_refl).
  - exact (proj2 (learn_writes_updated_persona ShellScenario.envReadOnlyDisk
                    "see you at noon" Scenario.world0
                    (proj1 (Nat.leb_le 10 15) eq_refl))
                 {| message := "EROFS: read-only file system" |} eq_refl).
Defined.

Lemma lastn_incl {A} (n : nat) (l : list A) (x : A) : In x (lastn n l) -> In x l.
Proof.
  unfold lastn. intros H.
  rewrite <- (firstn_skipn (List.length l - n) l). apply in_or_app. now right.
Qed.

(** X4 — Learning never takes persona mode away: once five style samples
    are held (within the cap), any run of observations leaves five or more. *)
Theorem persona_eligibility_is_kept (env : Env) (texts : list string) (w : World) :
  List.length (styleSamples (userPersona w)) <= 50 ->
  List.length (messageHistory (userPersona w)) <= 100 ->
  5 <= List.length (styleSamples (userPersona w)) ->
  5 <= List.length (styleSamples (userPersona (snd (observeAll env texts w)))).
Proof.
  intros HS HH H5.
  destruct (observeAll_spec env texts w HS HH) as [w' [Hrun [HS' _]]].
  rewrite Hrun. simpl. rewrite HS', lastn_length, length_app. lia.
Qed.

Lemma persona_eligibility_is_kept_witness :
  5 <= List.length (styleSamples (userPersona (snd (observeAll
         (Scenario.envWith Scenario.personaConfig (Scenario.answering "ok"))
         ["ok"; "fine, see you"; "a much longer message that qualifies as a sample"]
         Scenario.personaWorld)))).
Proof.
  apply persona_eligibility_is_kept; vm_compute; lia.
Defined.

Lemma evict_Forall {A} (P : A -> Prop) (n : nat) (l : list A) :
  Forall P l -> Forall P (evict n l).
Proof.
  intros H. unfold evict. destruct (n <? List.length l); [|exact H].
  destruct H; simpl; auto.
Qed.

Lemma observe_qualify (text : string) (time : Z) (p : Persona) :
  Forall (fun s => 30 < String.length s) (styleSamples p) ->
  Forall (fun h => 10 <= String.length (content h)) (messageHistory p) ->
  Forall (fun s => 30 < String.length s) (styleSamples (observe text time p)) /\
  Forall (fun h => 10 <= String.length (content h)) (messageHistory (observe text time p)).
Proof.
  intros Hs Hh. unfold observe, qualifies.
  destruct (String.length text <? 10) eqn:Hshort; [auto|]. simpl.
  apply Nat.ltb_ge in Hshort. split.
  - destruct (30 <? String.length text) eqn:Hq; [|exact Hs].
    apply Nat.ltb_lt in Hq. apply evict_Forall, Forall_app. auto.
  - apply evict_Forall, Forall_app. auto.
Qed.

(** X5 — The stored logs hold only what qualifies: if every style sample
    is longer than 30 characters and every history record has at least 10,
    the same is true after any run of observations, from any persona. *)
Theorem stored_texts_qualify (env : Env) (texts : list string) (w : World) :
  Forall (fun s => 30 < String.length s) (styleSamples (userPersona w)) ->
  Forall (fun h => 10 <= String.length (content h)) (messageHistory (userPersona w)) ->
  Forall (fun s => 30 < String.length s)
         (styleSamples (userPersona (snd (observeAll env texts w)))) /\
  Forall (fun h => 10 <= String.length (content h))
         (messageHistory (userPersona (snd (observeAll env texts w)))).
Proof.
  revert w. induction texts as [|text rest IH]; intros w Hsamples Hhistory.
  - simpl. auto.
  - change (observeAll env (text :: rest))
      with (learnFromUserMessage env text ;; observeAll env rest).
    destruct (learnFromUserMessage_observe env text w) as [t Hstep].
    unfold bind. rewrite Hstep.
    destruct (observe_qualify text (Date_now env (trace w)) (userPersona w)
                Hsamples Hhistory) as [H1 H2].
    apply IH; assumption.
Qed.

Lemma stored_texts_qualify_witness :
  Forall (fun s => 30 < String.length s)
         (styleSamples (userPersona (snd (observeAll
            (Scenario.envWith Scenario.personaConfig (Scenario.answering "ok"))
            ["ok"; "fine, see you"; "a much longer message that qualifies as a sample"]
            Scenario.world0)))).
Proof.
  apply (stored_texts_qualify
           (Scenario.envWith Scenario.personaConfig (Scenario.answering "ok"))
           ["ok"; "fine, see you"; "a much longer message that qualifies as a sample"]
           Scenario.world0); simpl; auto.
Defined.

(* ================================================================== *)
(** ** ResponseComposer: further properties *)

Lemma firstn_min_length {A} (n : nat) (l : list A) :
  firstn (Nat.min (List.length l) n) l = firstn n l.
Proof.
  destruct (Nat.le_ge_cases (List.length l) n) as [H|H].
  - rewrite Nat.min_l by exact H. now rewrite firstn_all, firstn_all2.
  - now rewrite Nat.min_r.
Qed.

(** The numbered lines of a [for] loop over the first entries of a list. *)
Lemma forEachIndexed_numbered {A} (line : nat -> A -> string) (l : list A) (k : nat) :
  forEachIndexed (fun x i => line (i + 1) x) l k =
    String.concat "" (map (fun p => line (fst p) (snd p))
                          (combine (seq (k + 1) (List.length l)) l)).
Proof.
  revert k. induction l as [|x l IH]; intros k; [reflexivity|].
  cbn [forEachIndexed List.length seq combine map]. rewrite IH.
  replace (S k + 1) with (S (k + 1)) by lia.
  destruct l as [|y l]; simpl; [apply append_empty_r | reflexivity].
Qed.

Lemma combine_seq_firstn {A} (n a : nat) (l : list A) :
  combine (seq a (List.length (firstn n l))) (firstn n l) = combine (seq a n) l.
Proof.
  revert a l. induction n as [|n IH]; intros a l; [reflexivity|].
  destruct l as [|x l]; [reflexivity|]. simpl. now rewrite IH.
Qed.

(** X6 — The persona composer shows the model the five oldest style
    samples and no other.  The prompt it sends is the instruction, then
    "Example 1" to "Example 5" quoting the first five samples in order
    (fewer when fewer are held), then the message and the closing
    instruction; its result is the model's answer to that prompt, or the
    fixed text when the model fails.  So two worlds with the same history
    of calls and the same first five samples get the same answer and the
    same trace. *)
Theorem persona_reads_first_five (env : Env) (messageText : string) (w1 w2 : World) :
  trace w1 = trace w2 ->
  firstn 5 (styleSamples (userPersona w1)) = firstn 5 (styleSamples (userPersona w2)) ->
  let prompt :=
    "You need to respond to this message in a way that mimics the user's writing style."
    ++ nl ++ pad17 ++ "Here are examples of how the user writes:"
    ++ nl ++ pad17
    ++ nl ++ pad17
    ++ String.concat ""
         (map (fun p => "Example " ++ ofNat (fst p) ++ ": " ++ dq ++ snd p ++ dq ++ nl ++ nl)
              (combine (seq 1 5) (styleSamples (userPersona w1))))
    ++ "Message to respond to: " ++ dq ++ messageText ++ dq ++ nl ++ nl
    ++ "Write a response that sounds exactly like it was written by the same person who wrote the example messages."
    ++ nl ++ pad15 ++
    "Match their tone, formality level, sentence structure, vocabulary, and any distinctive patterns." in
  lastPrompt (trace (snd (generatePersonaResponse env messageText w1))) = Some prompt /\
  fst (generatePersonaResponse env messageText w1) =
    match generateContent env (trace w1) (AI_MODEL (config env)) prompt with
    | Ok text => Ok text
    | Throw _ =>
        Ok "I'm having trouble responding in your style right now. I'll get back to normal mode."
    end /\
  fst (generatePersonaResponse env messageText w1) =
    fst (generatePersonaResponse env messageText w2) /\
  trace (snd (generatePersonaResponse env messageText w1)) =
    trace (snd (generatePersonaResponse env messageText w2)).
Proof.
  intros Ht Hs prompt.
  assert (Hprompt : forall w,
    generatePersonaResponse env messageText w =
      try_catch
        (model_generateContent env
           ("You need to respond to this message in a way that mimics the user's writing style."
            ++ nl ++ pad17 ++ "Here are examples of how the user writes:"
            ++ nl ++ pad17
            ++ nl ++ pad17
            ++ String.concat ""
                 (map (fun p => "Example " ++ ofNat (fst p) ++ ": " ++ dq ++ snd p ++ dq
                                ++ nl ++ nl)
                      (combine (seq 1 5) (styleSamples (userPersona w))))
            ++ "Message to respond to: " ++ dq ++ messageText ++ dq ++ nl ++ nl
            ++ "Write a response that sounds exactly like it was written by the same person who wrote the example messages."
            ++ nl ++ pad15 ++
            "Match their tone, formality level, sentence structure, vocabulary, and any distinctive patterns."))
        (fun error =>
           console_error "Error generating persona response:" error ;;
           ret personaFallback) w).
  { intros w. unfold generatePersonaResponse, try_catch at 1 2. unfold bind at 1.
    unfold get_userPersona. cbv beta iota zeta.
    rewrite firstn_min_length.
    rewrite (forEachIndexed_numbered
               (fun i sample => "Example " ++ ofNat i ++ ": " ++ dq ++ sample ++ dq ++ nl ++ nl)
               (firstn 5 (styleSamples (userPersona w))) 0).
    change (0 + 1) with 1. rewrite combine_seq_firstn.
    rewrite !append_assoc. reflexivity. }
  assert (Hcombine : forall l1 l2 : list string,
            firstn 5 l1 = firstn 5 l2 -> combine (seq 1 5) l1 = combine (seq 1 5) l2).
  { intros l1 l2 H. rewrite <- (combine_seq_firstn 5 1 l1), <- (combine_seq_firstn 5 1 l2).
    now rewrite H. }
  rewrite !Hprompt. fold prompt. rewrite <- (Hcombine _ _ Hs). fold prompt.
  unfold try_catch, model_generateContent, external, console_error, external, bind, ret.
  rewrite <- Ht.
  destruct (generateContent env (trace w1) (AI_MODEL (config env)) prompt) as [text|e];
    simpl; rewrite Ht; auto.
Qed.

Lemma persona_reads_first_five_witness :
  fst (generatePersonaResponse
         (Scenario.envWith Scenario.personaConfig (fun _ prompt => Ok prompt))
         "are you coming?" ShellScenario.eightSamplesWorld)
  = Ok ("You need to respond to this message in a way that mimics the user's writing style."
        ++ nl ++ pad17 ++ "Here are examples of how the user writes:"
        ++ nl ++ pad17
        ++ nl ++ pad17
        ++ "Example 1: " ++ dq ++ "this is my outgoing message number 1" ++ dq ++ nl ++ nl
        ++ "Example 2: " ++ dq ++ "this is my outgoing message number 2" ++ dq ++ nl ++ nl
        ++ "Example 3: " ++ dq ++ "this is my outgoing message number 3" ++ dq ++ nl ++ nl
        ++ "Example 4: " ++ dq ++ "this is my outgoing message number 4" ++ dq ++ nl ++ nl
        ++ "Example 5: " ++ dq ++ "this is my outgoing message number 5" ++ dq ++ nl ++ nl
        ++ "Message to respond to: " ++ dq ++ "are you coming?" ++ dq ++ nl ++ nl
        ++ "Write a response that sounds exactly like it was written by the same person who wrote the example messages."
        ++ nl ++ pad15 ++
        "Match their tone, formality level, sentence structure, vocabulary, and any distinctive patterns.")
  /\
  fst (generatePersonaResponse
         (Scenario.envWith Scenario.personaConfig (fun _ prompt => Ok prompt))
         "are you coming?" ShellScenario.eightSamplesWorld)
  = fst (generatePersonaResponse
           (Scenario.envWith Scenario.personaConfig (fun _ prompt => Ok prompt))
           "are you coming?" Scenario.personaWorld).
Proof.
  assert (Ht : trace ShellScenario.eightSamplesWorld = trace Scenario.personaWorld)
    by (vm_compute; reflexivity).
  assert (Hs : firstn 5 (styleSamples (userPersona ShellScenario.eightSamplesWorld))
               = firstn 5 (styleSamples (userPersona Scenario.personaWorld)))
    by (vm_compute; reflexivity).
  destruct (persona_reads_first_five
              (Scenario.envWith Scenario.personaConfig (fun _ prompt => Ok prompt))
              "are you coming?" ShellScenario.eightSamplesWorld Scenario.personaWorld Ht Hs)
    as [_ [Hanswer [Hsame _]]].
  split; [|exact Hsame].
  rewrite Hanswer. vm_compute. reflexivity.
Defined.

(** X7 — When the language model is out of reach, every composer returns
    its own fixed text instead of throwing: the search composer, the device
    composer, the persona composer and the style analyzer. *)
Theorem composers_fall_back (env : Env) (w : World) (e : JsError) :
  (forall prompt, generateContent env (trace w) (AI_MODEL (config env)) prompt = Throw e) ->
  (forall originalMessage searchResults,
     fst (generateResponseWithContext env originalMessage searchResults w) =
       Ok "I found some information online, but I'm having trouble processing it. Could you try asking in a different way?") /\
  (forall originalMessage phoneData,
     fst (generateResponseWithPhoneData env originalMessage phoneData w) =
       Ok "I found some information on your phone, but I'm having trouble processing it. Could you try asking in a different way?") /\
  (forall messageText,
     fst (generatePersonaResponse env messageText w) =
       Ok "I'm having trouble responding in your style right now. I'll get back to normal mode.") /\
  (forall samples,
     fst (analyzeWritingStyle env samples w) =
       Ok "Error analyzing writing style. Please check your API key and internet connection.").
Proof.
  intros Hdown. repeat split; intros.
  - unfold generateResponseWithContext, try_catch, model_generateContent, external.
    rewrite Hdown. reflexivity.
  - unfold generateResponseWithPhoneData, try_catch, bind, liftOutcome,
      model_generateContent, external.
    destruct (getProp phoneData "error"); [rewrite Hdown|]; reflexivity.
  - unfold generatePersonaResponse, try_catch, bind, get_userPersona,
      model_generateContent, external.
    rewrite Hdown. reflexivity.
  - unfold analyzeWritingStyle, try_catch, model_generateContent, external.
    rewrite Hdown. reflexivity.
Qed.

Lemma composers_fall_back_witness :
  fst (generatePersonaResponse (Scenario.envWith Scenario.personaConfig Scenario.unreachable)
                               "are you coming?" Scenario.personaWorld)
  = Ok "I'm having trouble responding in your style right now. I'll get back to normal mode.".
Proof.
  exact (proj1 (proj2 (proj2 (composers_fall_back
           (Scenario.envWith Scenario.personaConfig Scenario.unreachable)
           Scenario.personaWorld {| message := "fetch failed" |}
           (fun _ => eq_refl)))) "are you coming?").
Defined.

(** X8 — A device payload that is [null] or [undefined] never reaches the
    model: reading its [error] property throws inside the composer, which
    logs the error and returns its fixed text. *)
Theorem phone_composer_null_payload (env : Env) (originalMessage : string)
    (phoneData : JsValue) (w : World) :
  phoneData = JsNull \/ phoneData = JsUndefined ->
  exists e,
    generateResponseWithPhoneData env originalMessage phoneData w =
      (Ok "I found some information on your phone, but I'm having trouble processing it. Could you try asking in a different way?",
       set_trace (EvConsoleError "Error generating response with phone data:" e :: trace w) w).
Proof.
  intros [->| ->]; eexists; reflexivity.
Qed.

Lemma phone_composer_null_payload_witness :
  lastPrompt (trace (snd (generateResponseWithPhoneData
                            (Scenario.envWith Scenario.personaConfig (Scenario.answering "ok"))
                            "where am I?" JsNull Scenario.world0))) = None.
Proof.
  destruct (phone_composer_null_payload
              (Scenario.envWith Scenario.personaConfig (Scenario.answering "ok"))
              "where am I?" JsNull Scenario.world0 (or_introl eq_refl)) as [e H].
  rewrite H. reflexivity.
Defined.

(** X9 — An unknown resource kind is reported to the model: the executor's
    error marker becomes the line "Error: Unknown phone data type: <kind>"
    of the prompt the device composer sends. *)
Theorem unknown_kind_reaches_prompt (env : Env) (originalMessage kind : string)
    (query : option string) (w : World) :
  ~ In kind ["contacts"; "files"; "calendar"; "location"] ->
  lastPrompt
    (trace (snd ((phoneData <- getPhoneData env (Some kind) query ;;
                  generateResponseWithPhoneData env originalMessage phoneData) w)))
  = Some ("Original message: " ++ dq ++ originalMessage ++ dq ++ nl ++ nl ++
          ("Phone data:" ++ nl ++ "Error: Unknown phone data type: " ++ kind ++ nl)
          ++ nl ++ nl ++ "Provide a helpful response based on this phone data.").
Proof.
  intros Hkind.
  assert (Hne : forall k, In k ["contacts"; "files"; "calendar"; "location"] ->
                          String.eqb kind k = false).
  { intros k Hk. apply String.eqb_neq. intros ->. contradiction. }
  unfold bind at 1. unfold getPhoneData, try_catch, strictEq.
  rewrite !Hne by (simpl; auto 6). cbv beta iota. unfold ret at 1. cbv beta iota.
  unfold generateResponseWithPhoneData, try_catch, bind, liftOutcome,
    model_generateContent, external.
  simpl getProp. cbv beta iota. simpl truthy. cbv beta iota.
  match goal with |- context [generateContent env ?t ?m ?p] =>
    destruct (generateContent env t m p) as [text|e] end; simpl;
    rewrite !append_assoc; reflexivity.
Qed.

Lemma unknown_kind_reaches_prompt_witness :
  lastPrompt
    (trace (snd ((phoneData <- getPhoneData
                     (Scenario.envWith Scenario.personaConfig (Scenario.answering "ok"))
                     (Some "photos") (Some "beach") ;;
                  generateResponseWithPhoneData
                     (Scenario.envWith Scenario.personaConfig (Scenario.answering "ok"))
                     "show my beach photos" phoneData) Scenario.world0)))
  = Some ("Original message: " ++ dq ++ "show my beach photos" ++ dq ++ nl ++ nl ++
          "Phone data:" ++ nl ++ "Error: Unknown phone data type: photos" ++ nl
          ++ nl ++ nl ++ "Provide a helpful response based on this phone data.").
Proof.
  rewrite (unknown_kind_reaches_prompt
             (Scenario.envWith Scenario.personaConfig (Scenario.answering "ok"))
             "show my beach photos" "photos" (Some "beach") Scenario.world0).
  - reflexivity.
  - simpl. intros [H|[H|[H|[H|[]]]]]; discriminate.
Defined.

(* ================================================================== *)
(** ** ActionExecutor: [googleSearch] *)

Lemma firstn_incl {A} (n : nat) (l : list A) (x : A) : In x (firstn n l) -> In x l.
Proof.
  intros H. rewrite <- (firstn_skipn n l). apply in_or_app. now left.
Qed.

(** X10 — With a non-negative [MAX_SEARCH_RESULTS], a search never throws
    and returns at most that many results; each comes from an element of
    the result page that has both a title and a link, and a failed page
    fetch gives no result at all. *)
Theorem googleSearch_results_capped (env : Env) (query : option string) (w : World) :
  (0 <= MAX_SEARCH_RESULTS (config env))%Z ->
  exists results w',
    googleSearch env query w = (Ok results, w') /\
    List.length results <= Z.to_nat (MAX_SEARCH_RESULTS (config env)) /\
    (forall r, In r results ->
       exists data element,
         axios_get env (trace w)
           ("https://www.google.com/search?q=" ++ encodeURIComponent (ofUndefined query))
           = Ok data /\
         In element (cheerio_g env data) /\
         h3_length element <> 0 /\ a_length element <> 0 /\
         title r = h3_text element /\ link r = a_href element /\
         snippet r = snippet_text element) /\
    (forall e,
       axios_get env (trace w)
         ("https://www.google.com/search?q=" ++ encodeURIComponent (ofUndefined query))
         = Throw e ->
       results = []).
Proof.
  intros Hmax. unfold googleSearch, try_catch, bind, external.
  destruct (axios_get env (trace w)
              ("https://www.google.com/search?q=" ++ encodeURIComponent (ofUndefined query)))
    as [data|e]; simpl.
  - eexists _, _. split; [reflexivity|].
    unfold slice0. replace (MAX_SEARCH_RESULTS (config env) <? 0)%Z with false
      by (symmetry; apply Z.ltb_ge; exact Hmax).
    split; [rewrite length_firstn; lia|]. split; [|discriminate].
    intros r Hin. apply firstn_incl, in_flat_map in Hin as [element [Hel Hr]].
    exists data, element. split; [reflexivity|]. split; [exact Hel|].
    destruct (h3_length element =? 0) eqn:Hh; simpl in Hr; [contradiction|].
    destruct (a_length element =? 0) eqn:Ha; simpl in Hr; [contradiction|].
    destruct Hr as [<-|[]]. apply Nat.eqb_neq in Hh, Ha. simpl. auto 8.
  - eexists _, _. split; [reflexivity|]. simpl.
    split; [lia|]. split; [intros r []|reflexivity].
Qed.

Lemma googleSearch_results_capped_witness :
  exists results w',
    googleSearch ShellScenario.envReadOnlyDisk (Some "weather in Lagos") Scenario.world0
      = (Ok results, w') /\
    List.length results <= 3.
Proof.
  destruct (googleSearch_results_capped ShellScenario.envReadOnlyDisk
              (Some "weather in Lagos") Scenario.world0)
    as [results [w' [Hrun [Hlen _]]]].
  - simpl. lia.
  - exists results, w'. split; [exact Hrun | exact Hlen].
Defined.

Lemma hexDigit_safe (c : ascii) :
  isUriSafe (hexDigit (nat_of_ascii c / 16)) = true /\
  isUriSafe (hexDigit (nat_of_ascii c mod 16)) = true.
Proof.
  destruct c as [[] [] [] [] [] [] [] []]; vm_compute; split; reflexivity.
Qed.

Lemma encodeURIComponent_safe (s : string) :
  allChars isUriSafe (encodeURIComponent s) = true.
Proof.
  induction s as [|c s IH]; [reflexivity|].
  cbn [encodeURIComponent]. destruct (isUnreserved c) eqn:Hc; cbn [allChars].
  - unfold isUriSafe at 1. rewrite Hc, IH. reflexivity.
  - destruct (hexDigit_safe c) as [H1 H2]. rewrite H1, H2, IH. reflexivity.
Qed.

Lemma unreserved_not_percent (c : ascii) :
  isUnreserved c = true -> Ascii.eqb c "%" = false.
Proof. destruct c as [[] [] [] [] [] [] [] []]; vm_compute; congruence. Qed.

Lemma escape_decodes (c : ascii) :
  digitValue 16 (hexDigit (nat_of_ascii c / 16)) = Some (nat_of_ascii c / 16) /\
  digitValue 16 (hexDigit (nat_of_ascii c mod 16)) = Some (nat_of_ascii c mod 16) /\
  ascii_of_nat (16 * (nat_of_ascii c / 16) + nat_of_ascii c mod 16) = c.
Proof. destruct c as [[] [] [] [] [] [] [] []]; vm_compute; repeat split. Qed.

(** Decoding undoes encoding. *)
Lemma decode_encode (s : string) :
  decodeURIComponent (encodeURIComponent s) = Some s.
Proof.
  induction s as [|c s IH]; [reflexivity|].
  cbn [encodeURIComponent]. destruct (isUnreserved c) eqn:Hc.
  - cbn [decodeURIComponent]. rewrite (unreserved_not_percent c Hc), IH. reflexivity.
  - destruct (escape_decodes c) as [H1 [H2 H3]].
    cbn [decodeURIComponent]. change (Ascii.eqb "%" "%") with true. cbv iota.
    rewrite H1, H2, IH. cbn [option_map]. f_equal. f_equal. exact H3.
Qed.

(** X11 — A search fetches exactly one page, at
    "https://www.google.com/search?q=" followed by the encoded query.  The
    encoded query decodes back to the query, and it cannot escape its
    place in the address: it holds only letters, digits,
    [- _ . ! ~ * ' ( )] and percent escapes, so no space, [&], [#], [=] or
    [/] of the message gets through. *)
Theorem search_url_is_safe (env : Env) (query : option string) (w : World) :
  fetched (trace (snd (googleSearch env query w))) =
    ("https://www.google.com/search?q=" ++ encodeURIComponent (ofUndefined query))
      :: fetched (trace w) /\
  decodeURIComponent (encodeURIComponent (ofUndefined query)) = Some (ofUndefined query) /\
  allChars isUriSafe (encodeURIComponent (ofUndefined query)) = true.
Proof.
  split; [|split; [apply decode_encode | apply encodeURIComponent_safe]].
  unfold googleSearch, try_catch, bind, external.
  match goal with |- context [axios_get env ?t ?u] =>
    destruct (axios_get env t u) as [data|e] end; reflexivity.
Qed.

Lemma search_url_is_safe_witness :
  fetched (trace (snd (googleSearch
                         (Scenario.envWith Scenario.defaultConfig (Scenario.answering "ok"))
                         (Some "rain in Lagos? &tbm=isch#x") Scenario.world0)))
  = [ "https://www.google.com/search?q=rain%20in%20Lagos%3F%20%26tbm%3Disch%23x" ].
Proof.
  rewrite (proj1 (search_url_is_safe
                    (Scenario.envWith Scenario.defaultConfig (Scenario.answering "ok"))
                    (Some "rain in Lagos? &tbm=isch#x") Scenario.world0)).
  reflexivity.
Defined.

(* ================================================================== *)
(** ** MessageRouter: further properties *)

(** Running a computation that neither throws nor disturbs the state. *)
Lemma Quiet_run {A} (c : M A) (w : World) :
  Calm c -> NoThrow c -> exists a w', c w = (Ok a, w') /\ sameState w w'.
Proof.
  intros Hc Hn. destruct (Hn w) as [a Ha]. specialize (Hc w).
  destruct (c w) as [o w']. simpl in *. subst o. eauto.
Qed.

(** X12 — Computing a reply changes nothing but the trace: whatever the
    model, the search and (well-behaved) device capabilities do,
    [processMessage] returns normally, sends no reply of its own and leaves
    the persona and the allow-list as they were. *)
Theorem processMessage_leaves_state (env : Env) (messageText : string) (w : World) :
  CalmPhone (PhoneIntegration env) ->
  exists r w',
    processMessage env messageText w = (Ok r, w') /\
    replies (trace w') = replies (trace w) /\
    userPersona w' = userPersona w /\
    ALLOWED_GROUP_IDS w' = ALLOWED_GROUP_IDS w.
Proof.
  intros Hphone.
  destruct (Quiet_run (processMessage env messageText) w
              (processMessage_Calm env messageText Hphone)
              (processMessage_NoThrow env messageText))
    as [r [w' [Hrun Hsame]]].
  exists r, w'. split; [exact Hrun | exact Hsame].
Qed.

Lemma processMessage_leaves_state_witness :
  exists r w',
    processMessage Scenario.lagosEnv "will it rain in Lagos?" Scenario.personaWorld = (Ok r, w') /\
    replies (trace w') = replies (trace Scenario.personaWorld) /\
    userPersona w' = userPersona Scenario.personaWorld /\
    ALLOWED_GROUP_IDS w' = ALLOWED_GROUP_IDS Scenario.personaWorld.
Proof.
  exact (processMessage_leaves_state Scenario.lagosEnv "will it rain in Lagos?"
           Scenario.personaWorld PhoneIntegrationStub_calm).
Defined.

(** The classifier's result has a response text unless it asks for a
    search or for device data. *)
Lemma analyzeWithAI_shape (env : Env) (text : string) (w : World) :
  exists a w1,
    analyzeWithAI env text w = (Ok a, w1) /\
    userPersona w1 = userPersona w /\
    (response a = None -> needsSearch a = true \/ needsPhoneAccess a = true).
Proof.
  destruct (oracleAnswer env text w) as [answer|e] eqn:Hgen.
  - destruct (startsWith (toUpperCase answer) "SEARCH:") eqn:Hs.
    + rewrite (analyzeWithAI_search _ _ _ _ Hgen Hs). eexists _, _. simpl. auto.
    + destruct (startsWith (toUpperCase answer) "PHONE:") eqn:Hp.
      * rewrite (analyzeWithAI_phone _ _ _ _ Hgen Hp). eexists _, _. simpl. auto.
      * rewrite (analyzeWithAI_direct _ _ _ _ Hgen Hs Hp). eexists _, _. simpl.
        repeat split. discriminate.
  - rewrite (analyzeWithAI_failure _ _ _ _ Hgen). eexists _, _. simpl.
    repeat split. discriminate.
Qed.

(** X13 — The reply is a text, never [null], as soon as search and device
    integration are both enabled, or persona mode is enabled with five
    samples or more: every branch taken then ends in a composer or in a
    direct answer. *)
Theorem processMessage_replies_text (env : Env) (messageText : string) (w : World) :
  (SEARCH_ENABLED (config env) = true /\ PHONE_INTEGRATION_ENABLED (config env) = true) \/
  (USER_PERSONA_ENABLED (config env) = true /\
   5 <= List.length (styleSamples (userPersona w))) ->
  exists text w', processMessage env messageText w = (Ok (Some text), w').
Proof.
  intros Hcfg.
  destruct (analyzeWithAI_shape env messageText w) as [a [w1 [Ha [Hp Hshape]]]].
  rewrite (processMessage_runPath _ _ _ _ _ Ha). unfold spec_path.
  destruct (needsSearch a && SEARCH_ENABLED (config env)) eqn:Hs.
  { simpl. unfold bind, ret.
    destruct (proj2 (googleSearch_Quiet env (searchQuery a)) w1) as [rs Hg].
    destruct (googleSearch env (searchQuery a) w1) as [o w2]. simpl in Hg. subst o.
    destruct (proj2 (generateResponseWithContext_Quiet env messageText rs) w2) as [t Hc].
    destruct (generateResponseWithContext env messageText rs w2) as [o w3].
    simpl in Hc. subst o. eauto. }
  destruct (needsPhoneAccess a && PHONE_INTEGRATION_ENABLED (config env)) eqn:Hd.
  { simpl. unfold bind, ret.
    destruct (getPhoneData_NoThrow env (phoneAccessType a) (phoneAccessQuery a) w1) as [v Hg].
    destruct (getPhoneData env (phoneAccessType a) (phoneAccessQuery a) w1) as [o w2].
    simpl in Hg. subst o.
    destruct (proj2 (generateResponseWithPhoneData_Quiet env messageText v) w2) as [t Hc].
    destruct (generateResponseWithPhoneData env messageText v w2) as [o w3].
    simpl in Hc. subst o. eauto. }
  destruct (USER_PERSONA_ENABLED (config env)
            && (5 <=? List.length (styleSamples (userPersona w1)))) eqn:Hpersona.
  { simpl. unfold bind, ret.
    destruct (proj2 (generatePersonaResponse_Quiet env messageText) w1) as [t Hc].
    destruct (generatePersonaResponse env messageText w1) as [o w3].
    simpl in Hc. subst o. eauto. }
  simpl. unfold ret.
  destruct (response a) as [text|] eqn:Hr; [eauto|].
  exfalso. destruct Hcfg as [[Hse Hpe]|[Hue H5]].
  - rewrite Hse, andb_true_r in Hs. rewrite Hpe, andb_true_r in Hd.
    destruct (Hshape eq_refl); congruence.
  - rewrite Hp, Hue, andb_true_l in Hpersona.
    apply Nat.leb_gt in Hpersona. lia.
Qed.

Lemma processMessage_replies_text_witness :
  exists text w',
    processMessage
      (Scenario.envWith Scenario.personaConfig (Scenario.scripted "PHONE: contacts: mom"))
      "call mom" Scenario.world0 = (Ok (Some text), w').
Proof.
  apply processMessage_replies_text. left. split; reflexivity.
Defined.

Lemma bind_Quiet_run {A B} (c : M A) (k : A -> M B) (w : World) :
  Calm c -> NoThrow c -> exists a w1, sameState w w1 /\ bind c k w = k a w1.
Proof.
  intros Hc Hn. destruct (Quiet_run c w Hc Hn) as [a [w1 [Hrun Hsame]]].
  exists a, w1. split; [exact Hsame|]. unfold bind. now rewrite Hrun.
Qed.

Lemma debugLog_Quiet (env : Env) (msg : Message) (chat : Chat) :
  Quiet (if DEBUG_MODE (config env) then
        console_log "Message received:" ;;
        console_log ("- From: " ++ from msg) ;;
        console_log ("- Chat ID: " ++ id_serialized chat) ;;
        console_log ("- Is Group: " ++ (if isGroup chat then "true" else "false")) ;;
        console_log ("- Content: " ++ body msg)
      else ret tt).
Proof. split; calm. Qed.

Lemma onMessage_answers (env : Env) (msg : Message) (w : World) (chat : Chat) :
  message_getChat env (trace w) msg = Ok chat ->
  fromMe msg = false ->
  GROUP_RESTRICTION_ENABLED (config env) = false \/
  (isGroup chat = true /\ includes (ALLOWED_GROUP_IDS w) (id_serialized chat) = true) ->
  CalmPhone (PhoneIntegration env) ->
  (forall t text, message_reply env t msg text = Ok tt) ->
  exists r w1 w2 w',
    processMessage env (body msg) w1 = (Ok r, w2) /\
    userPersona w1 = userPersona w /\
    onMessage env msg w = (Ok tt, w') /\
    replies (trace w') = r :: replies (trace w) /\
    userPersona w' = userPersona w /\
    ALLOWED_GROUP_IDS w' = ALLOWED_GROUP_IDS w.
Proof.
  intros Hchat Hother Helig Hphone Hreply.
  unfold onMessage, try_catch. unfold bind at 1. unfold getChat, external.
  rewrite Hchat. cbv beta iota zeta.
  match goal with |- context [bind ?c ?k ?w0] =>
    destruct (bind_Quiet_run c k w0 (proj1 (debugLog_Quiet env msg chat))
                (proj2 (debugLog_Quiet env msg chat))) as [[] [wd [Hd ->]]] end.
  rewrite Hother.
  destruct Hd as [Hd1 [Hd2 Hd3]]. simpl in Hd1, Hd2, Hd3.
  match goal with |- context [let (o, w0) := ?gate wd in _] =>
    assert (Hgate : gate wd =
                    (console_log ("Processing message: " ++ body msg) ;;
                     response <- processMessage env (body msg) ;;
                     reply env msg response) wd) end.
  { destruct Helig as [Hoff|[Hgroup Hin]].
    - rewrite Hoff. reflexivity.
    - destruct (GROUP_RESTRICTION_ENABLED (config env)); [|reflexivity].
      unfold bind at 1, get_ALLOWED_GROUP_IDS. rewrite Hd3, Hgroup, Hin. reflexivity. }
  rewrite Hgate. clear Hgate.
  unfold bind at 1. unfold console_log at 1, external at 1. cbv beta iota.
  set (w1 := set_trace (EvConsoleLog ("Processing message: " ++ body msg) :: trace wd) wd).
  destruct (Quiet_run (processMessage env (body msg)) w1
              (processMessage_Calm env (body msg) Hphone)
              (processMessage_NoThrow env (body msg)))
    as [r [w2 [Hrun [Hs1 [Hs2 Hs3]]]]].
  exists r, w1, w2. eexists.
  split; [exact Hrun|]. split; [exact Hd2|].
  unfold bind. rewrite Hrun. unfold reply, external. rewrite Hreply.
  split; [reflexivity|]. simpl.
  subst w1. simpl in Hs1, Hs2, Hs3.
  repeat split; congruence.
Qed.

(** X14 — A message from someone else that passes the gate (restriction
    off, or a group on the allow-list) is answered exactly once when the
    transport accepts the reply: the one reply sent is the result of
    [processMessage] on the message body, and neither the persona nor the
    allow-list changes. *)
Theorem eligible_message_gets_one_reply (env : Env) (msg : Message) (w : World) (chat : Chat) :
  message_getChat env (trace w) msg = Ok chat ->
  fromMe msg = false ->
  GROUP_RESTRICTION_ENABLED (config env) = false \/
  (isGroup chat = true /\ includes (ALLOWED_GROUP_IDS w) (id_serialized chat) = true) ->
  CalmPhone (PhoneIntegration env) ->
  (forall t text, message_reply env t msg text = Ok tt) ->
  exists r w1 w2 w',
    processMessage env (body msg) w1 = (Ok r, w2) /\
    userPersona w1 = userPersona w /\
    onMessage env msg w = (Ok tt, w') /\
    replies (trace w') = r :: replies (trace w) /\
    userPersona w' = userPersona w /\
    ALLOWED_GROUP_IDS w' = ALLOWED_GROUP_IDS w.
Proof. exact (onMessage_answers env msg w chat). Qed.

Lemma eligible_message_gets_one_reply_witness :
  exists w',
    onMessage (Scenario.envWith Scenario.defaultConfig (Scenario.scripted "Hello! How can I help?"))
              (Scenario.inbound "hi") Scenario.world0 = (Ok tt, w') /\
    replies (trace w') = [Some "Hello! How can I help?"].
Proof.
  destruct (eligible_message_gets_one_reply
              (Scenario.envWith Scenario.defaultConfig (Scenario.scripted "Hello! How can I help?"))
              (Scenario.inbound "hi") Scenario.world0 Scenario.groupChat
              eq_refl eq_refl (or_introl eq_refl) PhoneIntegrationStub_calm
              (fun _ _ => eq_refl))
    as [r [w1 [w2 [w' [_ [_ [Hrun [Hreplies _]]]]]]]].
  exists w'. split; [exact Hrun|].
  assert (Hval : replies (trace (snd (onMessage
            (Scenario.envWith Scenario.defaultConfig (Scenario.scripted "Hello! How can I help?"))
            (Scenario.inbound "hi") Scenario.world0))) = [Some "Hello! How can I help?"])
    by (vm_compute; reflexivity).
  rewrite Hrun in Hval. exact Hval.
Defined.

Lemma saveUserPersona_Calm (env : Env) : Calm (saveUserPersona env).
Proof. unfold saveUserPersona, mkdir, writeFile. calm. Qed.

Lemma learnFromUserMessage_replies (env : Env) (text : string) (w : World) :
  replies (trace (snd (learnFromUserMessage env text w))) = replies (trace w).
Proof.
  destruct (Nat.lt_ge_cases (String.length text) 10) as [Hshort|Hlong].
  - unfold learnFromUserMessage. apply Nat.ltb_lt in Hshort. rewrite Hshort. reflexivity.
  - rewrite (learnFromUserMessage_then_save env text w Hlong).
    exact (proj1 (saveUserPersona_Calm env _)).
Qed.

(** X15 — The owner's own messages are never answered.  When the chat
    resolves, the handler returns without a reply and without touching the
    allow-list; the persona is the observation of the message body when
    learning mode is on, and unchanged when it is off. *)
Theorem own_message_is_never_answered (env : Env) (msg : Message) (w : World) (chat : Chat) :
  message_getChat env (trace w) msg = Ok chat ->
  fromMe msg = true ->
  exists w' time,
    onMessage env msg w = (Ok tt, w') /\
    replies (trace w') = replies (trace w) /\
    ALLOWED_GROUP_IDS w' = ALLOWED_GROUP_IDS w /\
    userPersona w' =
      (if USER_PERSONA_LEARNING_MODE (config env)
       then observe (body msg) time (userPersona w)
       else userPersona w).
Proof.
  intros Hchat Hme.
  unfold onMessage, try_catch. unfold bind at 1. unfold getChat, external.
  rewrite Hchat. cbv beta iota zeta.
  match goal with |- context [bind ?c ?k ?w0] =>
    destruct (bind_Quiet_run c k w0 (proj1 (debugLog_Quiet env msg chat))
                (proj2 (debugLog_Quiet env msg chat))) as [[] [wd [Hd ->]]] end.
  rewrite Hme. destruct Hd as [Hd1 [Hd2 Hd3]]. simpl in Hd1, Hd2, Hd3.
  destruct (USER_PERSONA_LEARNING_MODE (config env)).
  - pose proof (learnFromUserMessage_replies env (body msg) wd) as Hr.
    destruct (learnFromUserMessage_observe env (body msg) wd) as [t Hrun].
    rewrite Hrun in Hr |- *. simpl in Hr.
    eexists _, (Date_now env (trace wd)). split; [reflexivity|]. simpl.
    repeat split; congruence.
  - exists wd, 0%Z. unfold ret. repeat split; congruence.
Qed.

Lemma own_message_is_never_answered_witness :
  exists w',
    onMessage (Scenario.envWith Scenario.personaConfig (Scenario.answering "ok"))
              (ShellScenario.ownCommand "see you at noon") Scenario.world0 = (Ok tt, w') /\
    replies (trace w') = [] /\
    map content (messageHistory (userPersona w')) = ["see you at noon"].
Proof.
  destruct (own_message_is_never_answered
              (Scenario.envWith Scenario.personaConfig (Scenario.answering "ok"))
              (ShellScenario.ownCommand "see you at noon") Scenario.world0
              Scenario.groupChat eq_refl eq_refl)
    as [w' [time [Hrun [Hreplies [_ Hpersona]]]]].
  exists w'. split; [exact Hrun|]. split; [exact Hreplies|].
  rewrite Hpersona. reflexivity.
Defined.

(** X16 — Under group restriction the handler never throws, whatever
    fails in it, and its [catch] logs and sends nothing.  When the chat
    cannot be resolved the only calls made are [getChat] and
    [console.error].  When a message from a listed group has been
    processed, the answer is the one reply attempted: if the transport
    refuses it, the error is logged and no apology follows. *)
Theorem restricted_handler_never_throws (env : Env) (msg : Message) (w : World) :
  GROUP_RESTRICTION_ENABLED (config env) = true ->
  (exists w', onMessage env msg w = (Ok tt, w')) /\
  (forall e,
     message_getChat env (trace w) msg = Throw e ->
     onMessage env msg w =
       (Ok tt,
        set_trace (EvConsoleError "Error processing message:" e :: EvGetChat msg :: trace w) w)) /\
  (forall chat,
     message_getChat env (trace w) msg = Ok chat ->
     fromMe msg = false ->
     isGroup chat = true ->
     includes (ALLOWED_GROUP_IDS w) (id_serialized chat) = true ->
     exists w1 r w2,
       processMessage env (body msg) w1 = (Ok r, w2) /\
       (message_reply env (trace w2) msg r = Ok tt ->
        onMessage env msg w = (Ok tt, set_trace (EvReply msg r :: trace w2) w2)) /\
       (forall e,
          message_reply env (trace w2) msg r = Throw e ->
          onMessage env msg w =
            (Ok tt,
             set_trace (EvConsoleError "Error processing message:" e
                          :: EvReply msg r :: trace w2) w2))).
Proof.
  intros Hrestricted. split; [|split].
  - unfold onMessage, try_catch.
    match goal with |- context [let (o, w0) := ?body w in _] =>
      destruct (body w) as [[[]|e] w1] end.
    + eauto.
    + rewrite Hrestricted. eexists. reflexivity.
  - intros e Hchat. unfold onMessage, try_catch. unfold bind at 1.
    unfold getChat, external. rewrite Hchat, Hrestricted. reflexivity.
  - intros chat Hchat Hother Hgroup Hin.
    remember (onMessage env msg w) as result eqn:Hres.
    unfold onMessage, try_catch in Hres. unfold bind at 1 in Hres.
    unfold getChat, external in Hres.
    rewrite Hchat in Hres. cbv beta iota zeta in Hres.
    match type of Hres with context [bind ?c ?k ?w0] =>
      destruct (bind_Quiet_run c k w0 (proj1 (debugLog_Quiet env msg chat))
                  (proj2 (debugLog_Quiet env msg chat))) as [[] [wd [Hd Hbind]]];
      rewrite Hbind in Hres; clear Hbind end.
    rewrite Hother, Hrestricted in Hres.
    destruct Hd as [_ [_ Hd3]]. simpl in Hd3.
    unfold bind at 1, get_ALLOWED_GROUP_IDS in Hres.
    rewrite Hd3, Hgroup, Hin in Hres. cbn [negb orb] in Hres.
    unfold bind at 1 in Hres. unfold console_log at 1, external at 1 in Hres.
    cbv beta iota in Hres.
    set (w1 := set_trace (EvConsoleLog ("Processing message: " ++ body msg) :: trace wd) wd)
      in Hres.
    destruct (processMessage_NoThrow env (body msg) w1) as [r Hr].
    destruct (processMessage env (body msg) w1) as [o w2] eqn:Hrun. simpl in Hr. subst o.
    exists w1, r, w2. split; [exact Hrun|].
    unfold bind in Hres. rewrite Hrun in Hres. unfold reply, external in Hres.
    split.
    + intros H. rewrite H in Hres. exact Hres.
    + intros e H. rewrite H in Hres. exact Hres.
Qed.

Lemma restricted_handler_never_throws_witness :
  (exists w',
     onMessage (ShellScenario.envMute Scenario.restrictedConfig)
               (Scenario.inbound "hello there") Scenario.world0 = (Ok tt, w') /\
     replies (trace w') = []) /\
  (exists w',
     onMessage ShellScenario.envDeaf (Scenario.inbound "hello there")
               ShellScenario.listedWorld = (Ok tt, w') /\
     replies (trace w') = [Some "Hello!"]).
Proof.
  split.
  - eexists. split.
    + exact (proj1 (proj2 (restricted_handler_never_throws
                             (ShellScenario.envMute Scenario.restrictedConfig)
                             (Scenario.inbound "hello there") Scenario.world0 eq_refl))
                   {| message := "Evaluation failed" |} eq_refl).
    + reflexivity.
  - destruct (proj2 (proj2 (restricted_handler_never_throws ShellScenario.envDeaf
                              (Scenario.inbound "hello there") ShellScenario.listedWorld
                              eq_refl))
                    Scenario.groupChat eq_refl eq_refl eq_refl eq_refl)
      as [w1 [r [w2 [Hrun [_ Hfail]]]]].
    eexists. split.
    + exact (Hfail {| message := "Session closed" |} eq_refl).
    + assert (Hval : replies (trace (snd (onMessage ShellScenario.envDeaf
                                            (Scenario.inbound "hello there")
                                            ShellScenario.listedWorld)))
                     = [Some "Hello!"]) by (vm_compute; reflexivity).
      rewrite (Hfail {| message := "Session closed" |} eq_refl) in Hval. exact Hval.
Defined.

(** X17 — Without restriction, a message whose chat cannot be resolved is
    answered with the apology, the owner's own messages included; the
    handler ends as that one [reply] ends, so it throws when the apology
    cannot be sent either. *)
Theorem unresolved_chat_gets_apology (env : Env) (msg : Message) (w : World) (e : JsError) :
  GROUP_RESTRICTION_ENABLED (config env) = false ->
  message_getChat env (trace w) msg = Throw e ->
  let t1 := EvConsoleError "Error processing message:" e :: EvGetChat msg :: trace w in
  fst (onMessage env msg w) =
    message_reply env t1 msg (Some "Sorry, I encountered an error while processing your message.") /\
  replies (trace (snd (onMessage env msg w))) =
    Some "Sorry, I encountered an error while processing your message." :: replies (trace w).
Proof.
  intros Hoff Hchat t1.
  split; unfold onMessage, try_catch; unfold bind at 1; unfold getChat, external;
    rewrite Hchat, Hoff; reflexivity.
Qed.

Lemma unresolved_chat_gets_apology_witness :
  fst (onMessage (ShellScenario.envMute Scenario.defaultConfig)
                 (ShellScenario.ownCommand "note to self") Scenario.world0)
  = Throw {| message := "Session closed" |}.
Proof.
  rewrite (proj1 (unresolved_chat_gets_apology
                    (ShellScenario.envMute Scenario.defaultConfig)
                    (ShellScenario.ownCommand "note to self") Scenario.world0
                    {| message := "Evaluation failed" |} eq_refl eq_refl)).
  reflexivity.
Defined.

(** X18 — Under group restriction a chat that is not a group is never
    answered, even when its id is on the allow-list. *)
Theorem restricted_private_chat_is_ignored (env : Env) (msg : Message) (w : World) (chat : Chat) :
  GROUP_RESTRICTION_ENABLED (config env) = true ->
  fromMe msg = false ->
  message_getChat env (trace w) msg = Ok chat ->
  isGroup chat = false ->
  exists w',
    onMessage env msg w = (Ok tt, w') /\
    replies (trace w') = replies (trace w) /\
    userPersona w' = userPersona w /\
    ALLOWED_GROUP_IDS w' = ALLOWED_GROUP_IDS w.
Proof.
  intros Hrestricted Hother Hchat Hprivate.
  unfold onMessage, try_catch. unfold bind at 1. unfold getChat, external.
  rewrite Hchat. cbv beta iota zeta.
  match goal with |- context [bind ?c ?k ?w0] =>
    destruct (bind_Quiet_run c k w0 (proj1 (debugLog_Quiet env msg chat))
                (proj2 (debugLog_Quiet env msg chat))) as [[] [wd [Hd ->]]] end.
  rewrite Hother, Hrestricted, Hprivate.
  destruct Hd as [Hd1 [Hd2 Hd3]]. simpl in Hd1, Hd2, Hd3.
  unfold bind, get_ALLOWED_GROUP_IDS, console_log, external, ret. simpl.
  destruct (DEBUG_MODE (config env)); eexists; (split; [reflexivity|]); simpl;
    repeat split; congruence.
Qed.

Lemma restricted_private_chat_is_ignored_witness :
  exists w',
    onMessage ShellScenario.envPrivate (Scenario.inbound "hello there")
              ShellScenario.privateAllowedWorld = (Ok tt, w') /\
    replies (trace w') = [].
Proof.
  destruct (restricted_private_chat_is_ignored ShellScenario.envPrivate
              (Scenario.inbound "hello there") ShellScenario.privateAllowedWorld
              ShellScenario.privateChat eq_refl eq_refl eq_refl eq_refl)
    as [w' [Hrun [Hreplies _]]].
  exists w'. split; [exact Hrun | exact Hreplies].
Defined.

(* ================================================================== *)
(** ** The owner's commands: [message_create] *)

Section KeepsFacts.

Context {A B : Type}.

Lemma Keeps_ret (a : A) : Keeps (ret a).
Proof. intros w. split; reflexivity. Qed.

Lemma Keeps_external (answer : Trace -> Outcome A) (ev : Event) : Keeps (external answer ev).
Proof. intros w. split; reflexivity. Qed.

Lemma Keeps_bind (c : M A) (k : A -> M B) :
  Keeps c -> (forall a, Keeps (k a)) -> Keeps (bind c k).
Proof.
  intros Hc Hk w. unfold bind. specialize (Hc w).
  destruct (c w) as [[a|e] w1]; simpl in *; [|exact Hc].
  destruct (Hk a w1) as [H1 H2]. destruct Hc as [H3 H4]. split; congruence.
Qed.

Lemma Keeps_try_catch (body : M A) (handler : JsError -> M A) :
  Keeps body -> (forall e, Keeps (handler e)) -> Keeps (try_catch body handler).
Proof.
  intros Hb Hh w. unfold try_catch. specialize (Hb w).
  destruct (body w) as [[a|e] w1]; simpl in *; [exact Hb|].
  destruct (Hh e w1) as [H1 H2]. destruct Hb as [H3 H4]. split; congruence.
Qed.

(** A handler that keeps the variables hands on those of the body. *)
Lemma try_catch_keeps (body : M A) (handler : JsError -> M A) (w : World) :
  (forall e, Keeps (handler e)) ->
  userPersona (snd (try_catch body handler w)) = userPersona (snd (body w)) /\
  ALLOWED_GROUP_IDS (snd (try_catch body handler w)) = ALLOWED_GROUP_IDS (snd (body w)).
Proof.
  intros Hh. unfold try_catch.
  destruct (body w) as [[a|e] w1]; simpl; [auto|]. apply Hh.
Qed.

End KeepsFacts.

Lemma Keeps_reply (env : Env) (msg : Message) (text : option string) : Keeps (reply env msg text).
Proof. apply Keeps_external. Qed.

Lemma Keeps_console_log (line : string) : Keeps (console_log line).
Proof. apply Keeps_external. Qed.

Lemma Keeps_console_error (label : string) (e : JsError) : Keeps (console_error label e).
Proof. apply Keeps_external. Qed.

Lemma Keeps_writeFile (env : Env) (path data : string) : Keeps (writeFile env path data).
Proof. apply Keeps_external. Qed.

Lemma Keeps_readFileUtf8 (shell : ShellEnv) (path : string) : Keeps (readFileUtf8 shell path).
Proof. intros w. split; reflexivity. Qed.

Lemma Keeps_get_ALLOWED_GROUP_IDS : Keeps get_ALLOWED_GROUP_IDS.
Proof. intros w. split; reflexivity. Qed.

Create HintDb keeps.

#[local] Hint Resolve Keeps_ret Keeps_reply Keeps_console_log Keeps_console_error
  Keeps_writeFile Keeps_readFileUtf8 Keeps_get_ALLOWED_GROUP_IDS : keeps.

Ltac keeps :=
  repeat first
    [ progress auto with keeps
    | apply Keeps_try_catch
    | apply Keeps_bind
    | progress cbv zeta
    | match goal with
      | |- forall _, _ => intro
      | |- Keeps (if ?c then _ else _) => destruct c
      | |- Keeps (match ?c with _ => _ end) => destruct c
      end ].

(** The listing loop reads the names at the current history and changes
    nothing. *)
Lemma listGroups_run (shell : ShellEnv) (ids acc : list string) (w : World) :
  listGroups shell ids acc w = (Ok (acc ++ map (groupLine shell (trace w)) ids)%list, w).
Proof.
  revert acc. induction ids as [|id rest IH]; intros acc; simpl.
  - unfold ret. now rewrite app_nil_r.
  - unfold bind at 1, try_catch, bind, getChatById, groupLine, ret.
    destruct (client_getChatById shell (trace w) id) as [name|e];
      rewrite IH, <- app_assoc; reflexivity.
Qed.

(** How the allow-list comes out of a [message_create] event. *)
Lemma onMessageCreate_allowed (shell : ShellEnv) (msg : Message) (w : World) :
  userPersona (snd (onMessageCreate shell msg w)) = userPersona w /\
  ALLOWED_GROUP_IDS (snd (onMessageCreate shell msg w)) = allowListAfter shell msg w.
Proof.
  unfold onMessageCreate, allowListAfter.
  destruct (fromMe msg) eqn:Hme; cbn [negb andb]; [|split; reflexivity].
  cbv zeta. change ("!agent" ++ " allow") with "!agent allow".
  destruct (startsWith (body msg) "!agent allow") eqn:Hcmd.
  - match goal with |- context [try_catch ?b ?h w] =>
      destruct (try_catch_keeps b h w) as [Hp Ha]; [keeps|];
      rewrite Hp, Ha; clear Hp Ha;
      remember (snd (b w)) as wb eqn:Hwb end.
    unfold bind at 1 in Hwb. unfold getChat, external in Hwb.
    destruct (message_getChat (core shell) (trace w) msg) as [chat|e] eqn:Hchat;
      [|subst wb; split; reflexivity].
    destruct (isGroup chat) eqn:Hgroup; cbn [negb andb] in Hwb |- *;
      [|subst wb; split; reflexivity].
    unfold bind at 1 in Hwb. unfold get_ALLOWED_GROUP_IDS at 1 in Hwb.
    cbn [ALLOWED_GROUP_IDS set_trace] in Hwb.
    destruct (includes (ALLOWED_GROUP_IDS w) (id_serialized chat)) eqn:Hin;
      cbn [negb] in Hwb |- *; [subst wb; split; reflexivity|].
    unfold bind at 1 in Hwb. unfold modify_ALLOWED_GROUP_IDS in Hwb.
    match type of Hwb with context [try_catch ?b ?h ?w2] =>
      assert (Hk : Keeps (try_catch b h)) by keeps;
      destruct (Hk w2) as [Hp Ha] end.
    rewrite <- Hwb in Hp, Ha. rewrite Hp, Ha. split; reflexivity.
  - destruct (String.eqb (body msg) ("!agent" ++ " groups")).
    + match goal with |- context [snd (?c w)] =>
        assert (Hk : Keeps c)
          by (apply Keeps_bind; [keeps|]; intros ids;
              apply Keeps_bind;
                [intros w0; rewrite listGroups_run; split; reflexivity | keeps]);
        destruct (Hk w) as [Hp Ha] end.
      rewrite Hp, Ha. split; reflexivity.
    + split; reflexivity.
Qed.

Lemma includes_In (l : list string) (x : string) : includes l x = true <-> In x l.
Proof.
  unfold includes. rewrite existsb_exists. split.
  - intros [y [Hin Heq]]. apply String.eqb_eq in Heq. now subst.
  - intros Hin. exists x. split; [exact Hin | apply String.eqb_refl].
Qed.

(** X19 — Only the owner can change the allow-list, and only by a text
    that starts with "!agent allow" sent in a group: a [message_create]
    event from anyone else changes nothing at all, and in every case the
    persona is untouched and the allow-list is the old one, with the chat
    id appended exactly when the command comes from the owner in a group
    that was not yet listed. *)
Theorem allow_list_changes_only_by_owner_command (shell : ShellEnv) (msg : Message) (w : World) :
  (fromMe msg = false -> onMessageCreate shell msg w = (Ok tt, w)) /\
  userPersona (snd (onMessageCreate shell msg w)) = userPersona w /\
  ALLOWED_GROUP_IDS (snd (onMessageCreate shell msg w)) = allowListAfter shell msg w.
Proof.
  split; [|apply onMessageCreate_allowed].
  intros Hother. unfold onMessageCreate. rewrite Hother. reflexivity.
Qed.

Lemma allow_list_changes_only_by_owner_command_witness :
  onMessageCreate (ShellScenario.shellWith Scenario.restrictedConfig)
                  (Scenario.inbound "!agent allow") Scenario.restrictedWorld
  = (Ok tt, Scenario.restrictedWorld)
  /\
  ALLOWED_GROUP_IDS (snd (onMessageCreate (ShellScenario.shellWith Scenario.restrictedConfig)
                            (ShellScenario.ownCommand "!agent allow")
                            Scenario.restrictedWorld))
  = ["9990001@g.us"; "1203630@g.us"].
Proof.
  split.
  - exact (proj1 (allow_list_changes_only_by_owner_command
                    (ShellScenario.shellWith Scenario.restrictedConfig)
                    (Scenario.inbound "!agent allow") Scenario.restrictedWorld) eq_refl).
  - rewrite (proj2 (proj2 (allow_list_changes_only_by_owner_command
                             (ShellScenario.shellWith Scenario.restrictedConfig)
                             (ShellScenario.ownCommand "!agent allow")
                             Scenario.restrictedWorld))).
    reflexivity.
Defined.

(** X20 — The allow command opens the gate for the session whether or not
    the [.env] file can be updated or the confirmation sent: once the
    owner has sent it in a group, a later message from someone else in
    that group passes the restriction and is answered once. *)
Theorem allow_command_opens_the_gate (shell : ShellEnv) (command msg : Message)
    (w : World) (chat : Chat) :
  fromMe command = true ->
  startsWith (body command) "!agent allow" = true ->
  message_getChat (core shell) (trace w) command = Ok chat ->
  isGroup chat = true ->
  fromMe msg = false ->
  message_getChat (core shell) (trace (snd (onMessageCreate shell command w))) msg = Ok chat ->
  CalmPhone (PhoneIntegration (core shell)) ->
  (forall t text, message_reply (core shell) t msg text = Ok tt) ->
  includes (ALLOWED_GROUP_IDS (snd (onMessageCreate shell command w))) (id_serialized chat) = true /\
  exists r w',
    onMessage (core shell) msg (snd (onMessageCreate shell command w)) = (Ok tt, w') /\
    replies (trace w') = r :: replies (trace (snd (onMessageCreate shell command w))).
Proof.
  intros Hme Hcmd Hchat Hgroup Hother Hchat2 Hphone Hreply.
  assert (Hin : includes (ALLOWED_GROUP_IDS (snd (onMessageCreate shell command w)))
                         (id_serialized chat) = true).
  { rewrite (proj2 (onMessageCreate_allowed shell command w)).
    unfold allowListAfter. rewrite Hme, Hcmd, Hchat, Hgroup. simpl.
    destruct (includes (ALLOWED_GROUP_IDS w) (id_serialized chat)) eqn:Hold; simpl.
    - exact Hold.
    - apply includes_In, in_or_app. right. simpl. auto. }
  split; [exact Hin|].
  destruct (onMessage_answers (core shell) msg (snd (onMessageCreate shell command w)) chat
              Hchat2 Hother (or_intror (conj Hgroup Hin)) Hphone Hreply)
    as [r [w1 [w2 [w' [_ [_ [Hrun [Hreplies _]]]]]]]].
  exists r, w'. split; [exact Hrun | exact Hreplies].
Qed.

Lemma allow_command_opens_the_gate_witness :
  exists r w',
    onMessage (core (ShellScenario.shellWith Scenario.restrictedConfig))
              (Scenario.inbound "hello there")
              (snd (onMessageCreate (ShellScenario.shellWith Scenario.restrictedConfig)
                      (ShellScenario.ownCommand "!agent allow") Scenario.restrictedWorld))
    = (Ok tt, w') /\
    replies (trace w') =
      r :: replies (trace (snd (onMessageCreate (ShellScenario.shellWith Scenario.restrictedConfig)
                                  (ShellScenario.ownCommand "!agent allow")
                                  Scenario.restrictedWorld))).
Proof.
  exact (proj2 (allow_command_opens_the_gate
                  (ShellScenario.shellWith Scenario.restrictedConfig)
                  (ShellScenario.ownCommand "!agent allow") (Scenario.inbound "hello there")
                  Scenario.restrictedWorld Scenario.groupChat
                  eq_refl eq_refl eq_refl eq_refl eq_refl eq_refl
                  PhoneIntegrationStub_calm (fun _ _ => eq_refl))).
Defined.

(** X21 — The allow command never lists a chat twice: an allow-list
    without duplicates has none after any [message_create] event. *)
Theorem allow_list_has_no_duplicates (shell : ShellEnv) (msg : Message) (w : World) :
  NoDup (ALLOWED_GROUP_IDS w) ->
  NoDup (ALLOWED_GROUP_IDS (snd (onMessageCreate shell msg w))).
Proof.
  intros Hnodup. rewrite (proj2 (onMessageCreate_allowed shell msg w)).
  unfold allowListAfter.
  destruct (fromMe msg && startsWith (body msg) "!agent allow"); [|exact Hnodup].
  destruct (message_getChat (core shell) (trace w) msg) as [chat|e]; [|exact Hnodup].
  destruct (isGroup chat); simpl; [|exact Hnodup].
  destruct (includes (ALLOWED_GROUP_IDS w) (id_serialized chat)) eqn:Hin; simpl;
    [exact Hnodup|].
  rewrite <- (rev_involutive (ALLOWED_GROUP_IDS w ++ [id_serialized chat])%list).
  apply NoDup_rev. rewrite rev_app_distr. simpl. constructor.
  - rewrite <- in_rev. intros Habs. apply includes_In in Habs. congruence.
  - apply NoDup_rev, Hnodup.
Qed.

Lemma allow_list_has_no_duplicates_witness :
  NoDup (ALLOWED_GROUP_IDS
           (snd (onMessageCreate (ShellScenario.shellWith Scenario.restrictedConfig)
                   (ShellScenario.ownCommand "!agent allow")
                   (snd (onMessageCreate (ShellScenario.shellWith Scenario.restrictedConfig)
                           (ShellScenario.ownCommand "!agent allow")
                           Scenario.restrictedWorld))))).
Proof.
  apply allow_list_has_no_duplicates, allow_list_has_no_duplicates.
  simpl. constructor; [intros [] | constructor].
Defined.

(** X22 — The groups command changes nothing and sends one reply: "No
    groups are currently allowed." for an empty allow-list, and otherwise
    one line per allowed id, in the order of the list, with the chat's name
    or "Unknown group" when the chat cannot be looked up. *)
Theorem groups_command_lists_allow_list (shell : ShellEnv) (msg : Message) (w : World) :
  fromMe msg = true ->
  body msg = "!agent groups" ->
  let text :=
    match ALLOWED_GROUP_IDS w with
    | [] => "No groups are currently allowed."
    | ids => "Currently allowed groups:" ++ nl ++
             join nl (map (groupLine shell (trace w)) ids)
    end in
  onMessageCreate shell msg w =
    (message_reply (core shell) (trace w) msg (Some text),
     set_trace (EvReply msg (Some text) :: trace w) w).
Proof.
  intros Hme Hbody text. unfold onMessageCreate. rewrite Hme, Hbody.
  cbn [negb]. cbv zeta.
  change (startsWith "!agent groups" ("!agent" ++ " allow")) with false.
  change (String.eqb "!agent groups" ("!agent" ++ " groups")) with true.
  cbv iota.
  unfold bind at 1, get_ALLOWED_GROUP_IDS. unfold bind at 1. rewrite listGroups_run.
  subst text. simpl app.
  destruct (ALLOWED_GROUP_IDS w) as [|id rest]; reflexivity.
Qed.

Lemma groups_command_lists_allow_list_witness :
  replies (trace (snd (onMessageCreate (ShellScenario.shellWith Scenario.restrictedConfig)
                         (ShellScenario.ownCommand "!agent groups")
                         Scenario.restrictedWorld)))
  = [ Some ("Currently allowed groups:" ++ nl ++ "- Family (9990001@g.us)") ].
Proof.
  rewrite (groups_command_lists_allow_list
             (ShellScenario.shellWith Scenario.restrictedConfig)
             (ShellScenario.ownCommand "!agent groups") Scenario.restrictedWorld
             eq_refl eq_refl).
  reflexivity.
Defined.

(* ================================================================== *)
(** ** Start-up: the flags and the allow-list read from the environment *)

Lemma contains_app (sep : ascii) (a b : string) :
  contains sep (a ++ b) = contains sep a || contains sep b.
Proof.
  induction a as [|c a IH]; simpl; [reflexivity|]. now rewrite IH, orb_assoc.
Qed.

Lemma split_parts_clean (sep : ascii) (s x : string) :
  In x (split sep s) -> contains sep x = false.
Proof.
  revert x. induction s as [|c s IH]; intros x; simpl.
  - intros [<-|[]]. reflexivity.
  - destruct (Ascii.eqb c sep) eqn:Hc.
    + intros [<-|Hin]; [reflexivity | auto].
    + pose proof (split_not_nil sep s) as Hne.
      destruct (split sep s) as [|h t]; [contradiction|].
      intros [<-|Hin].
      * simpl. rewrite Hc. apply IH. now left.
      * apply IH. now right.
Qed.

Lemma trim_contains (sep : ascii) (s : string) :
  contains sep s = false -> contains sep (trim s) = false.
Proof.
  intros H. destruct (trim_Trimmed s) as [[l [r [_ [_ Hs]]]] _].
  rewrite Hs, !contains_app in H.
  apply orb_false_iff in H as [_ H]. apply orb_false_iff in H as [H _]. exact H.
Qed.

(** X23 — The allow-list read at start-up is clean: it is empty unless
    GROUP_RESTRICTION_ENABLED is exactly "true", and each of its ids is a
    piece of ALLOWED_GROUP_IDS between commas with the white space around
    it removed, so no id contains a comma or starts or ends with white
    space. *)
Theorem startup_allow_list_is_clean (process_env : string -> option string) :
  (process_env "GROUP_RESTRICTION_ENABLED" <> Some "true" ->
   ALLOWED_GROUP_IDS (startWorld process_env) = []) /\
  (forall id, In id (ALLOWED_GROUP_IDS (startWorld process_env)) ->
     contains "," id = false /\
     (forall c, first id = Some c -> isWhiteSpace c = false) /\
     (forall c, last id = Some c -> isWhiteSpace c = false) /\
     exists value piece,
       process_env "ALLOWED_GROUP_IDS" = Some value /\
       In piece (split "," value) /\ Trimmed piece id).
Proof.
  unfold startWorld, loadConfig. cbn [GROUP_RESTRICTION_ENABLED].
  split.
  - intros Hoff.
    assert (Hf : strictEq (process_env "GROUP_RESTRICTION_ENABLED") "true" = false).
    { unfold strictEq. destruct (process_env "GROUP_RESTRICTION_ENABLED") as [v|]; [|reflexivity].
      apply String.eqb_neq. intros ->. now apply Hoff. }
    rewrite Hf. destruct (process_env "ALLOWED_GROUP_IDS") as [[|c r]|]; reflexivity.
  - intros id.
    destruct (process_env "ALLOWED_GROUP_IDS") as [[|c r]|]; try (intros []).
    destruct (strictEq (process_env "GROUP_RESTRICTION_ENABLED") "true"); [|intros []].
    cbn [ALLOWED_GROUP_IDS]. intros Hin.
    apply in_map_iff in Hin as [piece [<- Hpiece]].
    pose proof (trim_Trimmed piece) as Ht.
    split; [apply trim_contains, (split_parts_clean _ _ _ Hpiece)|].
    split; [apply Ht|]. split; [apply Ht|].
    exists (String c r), piece. auto.
Qed.

Lemma startup_allow_list_is_clean_witness :
  ALLOWED_GROUP_IDS
    (startWorld (ShellScenario.envOf [ ("GROUP_RESTRICTION_ENABLED", "true");
                                       ("ALLOWED_GROUP_IDS", " 1203630@g.us , 9990001@g.us") ]))
  = ["1203630@g.us"; "9990001@g.us"]
  /\
  ALLOWED_GROUP_IDS
    (startWorld (ShellScenario.envOf [ ("GROUP_RESTRICTION_ENABLED", "yes");
                                       ("ALLOWED_GROUP_IDS", "1203630@g.us") ]))
  = [].
Proof.
  split; [reflexivity|].
  apply (proj1 (startup_allow_list_is_clean
                  (ShellScenario.envOf [ ("GROUP_RESTRICTION_ENABLED", "yes");
                                         ("ALLOWED_GROUP_IDS", "1203630@g.us") ]))).
  discriminate.
Defined.

Lemma digitsValue_uint (d : Decimal.uint) :
  forall (acc : nat) (seen : bool),
    d <> Decimal.Nil \/ seen = true ->
    digitsValue 10 (NilEmpty.string_of_uint d) (Z.of_nat acc) seen =
      Some (Z.of_nat (Nat.of_uint_acc d acc)).
Proof.
  induction d as [|d IH|d IH|d IH|d IH|d IH|d IH|d IH|d IH|d IH|d IH];
    intros acc seen Hok;
    [ destruct Hok as [Hne| ->]; [contradiction | reflexivity] | .. ];
    cbn [NilEmpty.string_of_uint Nat.of_uint_acc];
    match goal with |- digitsValue 10 (String ?c ?s) ?a ?b = Some (Z.of_nat (Nat.of_uint_acc _ ?n)) =>
      change (digitsValue 10 (String c s) a b)
        with (digitsValue 10 s (a * Z.of_nat 10
                                + Z.of_nat (nat_of_ascii c - 48))%Z true);
      let v := eval vm_compute in (nat_of_ascii c - 48) in
      change (nat_of_ascii c - 48) with v;
      replace (a * Z.of_nat 10 + Z.of_nat v)%Z with (Z.of_nat n)
        by (rewrite Nat.tail_mul_spec; lia)
    end;
    apply IH; now right.
Qed.

(** [parseInt] reads back the decimal form of a natural number. *)
Lemma parseInt_ofNat (n : nat) : parseInt (ofNat n) = Some (Z.of_nat n).
Proof.
  unfold ofNat.
  assert (Hne : Nat.to_uint n <> Decimal.Nil).
  { intros Habs. pose proof (DecimalNat.Unsigned.of_to n) as Hn. rewrite Habs in Hn.
    simpl in Hn. subst n. discriminate. }
  rewrite <- (DecimalNat.Unsigned.of_to n) at 2.
  pose proof (digitsValue_uint (Nat.to_uint n) 0 false (or_introl Hne)) as Hd.
  unfold Nat.of_uint.
  destruct (Nat.to_uint n) as [|d|d|d|d|d|d|d|d|d|d]; try contradiction;
    try (change (parseInt (NilEmpty.string_of_uint ?x))
           with (option_map (Z.mul 1) (digitsValue 10 (NilEmpty.string_of_uint x) 0%Z false));
         change 0%Z with (Z.of_nat 0); rewrite Hd; simpl option_map; f_equal;
         apply Z.mul_1_l).
  destruct d as [|d|d|d|d|d|d|d|d|d|d];
    change (parseInt (NilEmpty.string_of_uint ?x))
      with (option_map (Z.mul 1) (digitsValue 10 (NilEmpty.string_of_uint x) 0%Z false));
    change 0%Z with (Z.of_nat 0); rewrite Hd; simpl option_map; f_equal;
    apply Z.mul_1_l.
Qed.

Lemma googleSearch_length (env : Env) (query : option string) (w : World) :
  (0 <= MAX_SEARCH_RESULTS (config env))%Z ->
  exists results w',
    googleSearch env query w = (Ok results, w') /\
    List.length results <= Z.to_nat (MAX_SEARCH_RESULTS (config env)).
Proof.
  intros Hmax. unfold googleSearch, try_catch, bind, external.
  match goal with |- context [axios_get env ?t ?u] =>
    destruct (axios_get env t u) as [data|e] end; simpl; eexists _, _;
    (split; [reflexivity|]).
  - unfold slice0. replace (MAX_SEARCH_RESULTS (config env) <? 0)%Z with false
      by (symmetry; apply Z.ltb_ge; exact Hmax).
    rewrite length_firstn. lia.
  - simpl. lia.
Qed.

(** X24 — The result cap follows the environment: with
    MAX_SEARCH_RESULTS set to the decimal form of [n] a search returns at
    most [n] results, with the variable unset or empty at most 3, and with
    a value that does not start with a number ([parseInt] gives [NaN])
    none at all. *)
Theorem result_cap_follows_environment (process_env : string -> option string)
    (env : Env) (query : option string) (w : World) :
  config env = loadConfig process_env ->
  exists results w',
    googleSearch env query w = (Ok results, w') /\
    (forall n, process_env "MAX_SEARCH_RESULTS" = Some (ofNat n) ->
               List.length results <= n) /\
    (process_env "MAX_SEARCH_RESULTS" = None \/ process_env "MAX_SEARCH_RESULTS" = Some "" ->
     List.length results <= 3) /\
    (forall value, process_env "MAX_SEARCH_RESULTS" = Some value ->
                   value <> "" -> parseInt value = None ->
                   results = []).
Proof.
  intros Hcfg.
  assert (Hmax : forall z,
            parseInt (orElse (process_env "MAX_SEARCH_RESULTS") "3") = Some z ->
            (0 <= z)%Z ->
            exists results w',
              googleSearch env query w = (Ok results, w') /\
              List.length results <= Z.to_nat z).
  { intros z Hz Hpos.
    assert (Hm : MAX_SEARCH_RESULTS (config env) = z)
      by (rewrite Hcfg; cbn [loadConfig MAX_SEARCH_RESULTS]; now rewrite Hz).
    rewrite <- Hm. apply googleSearch_length. rewrite Hm. exact Hpos. }
  destruct (proj2 (googleSearch_Quiet env query) w) as [results Hrun].
  destruct (googleSearch env query w) as [o w'] eqn:Hg. simpl in Hrun. subst o.
  exists results, w'. split; [reflexivity|]. split; [|split].
  - intros n Hn.
    destruct (Hmax (Z.of_nat n)) as [rs [w2 [Hrun Hlen]]]; [| lia |].
    + rewrite Hn. destruct (ofNat n) eqn:Hs; [|cbn [orElse]; rewrite <- Hs; apply parseInt_ofNat].
      pose proof (parseInt_ofNat n) as Habs. rewrite Hs in Habs. discriminate.
    + injection Hrun as <- <-. rewrite Nat2Z.id in Hlen. exact Hlen.
  - intros Hunset.
    destruct (Hmax 3%Z) as [rs [w2 [Hrun Hlen]]]; [| lia |].
    + destruct Hunset as [-> | ->]; reflexivity.
    + injection Hrun as <- <-. exact Hlen.
  - intros value Hvalue Hne Hnan.
    assert (Hm : MAX_SEARCH_RESULTS (config env) = 0%Z).
    { rewrite Hcfg. cbn [loadConfig MAX_SEARCH_RESULTS]. rewrite Hvalue.
      destruct value; [contradiction|]. cbn [orElse]. now rewrite Hnan. }
    destruct (googleSearch_length env query w) as [rs [w2 [Hrun Hlen]]]; [rewrite Hm; lia|].
    rewrite Hg in Hrun. injection Hrun as <- <-. rewrite Hm in Hlen. simpl in Hlen.
    destruct results; [reflexivity | simpl in Hlen; lia].
Qed.

Lemma result_cap_follows_environment_witness :
  exists results w',
    googleSearch ShellScenario.envFromEnvironment (Some "weather in Lagos") Scenario.world0
      = (Ok results, w') /\
    List.length results <= 2.
Proof.
  destruct (result_cap_follows_environment
              (ShellScenario.envOf [ ("MAX_SEARCH_RESULTS", "2") ])
              ShellScenario.envFromEnvironment (Some "weather in Lagos") Scenario.world0
              eq_refl)
    as [results [w' [Hrun [Hcap _]]]].
  exists results, w'. split; [exact Hrun|]. exact (Hcap 2 eq_refl).
Defined.

(* ================================================================== *)
(** ** The style analyzer: [analyzeWritingStyle] *)

(** X25 — The style analysis shows the model the first ten samples and
    no other, and never throws.  The prompt it sends is the instruction,
    the first ten samples separated by blank lines, and the six points to
    analyse; its result is the model's answer to that prompt, or the fixed
    text when the model fails.  So sample lists that agree on their first
    ten entries get the same outcome and trace. *)
Theorem style_analysis_reads_first_ten (env : Env) (samples1 samples2 : list string) (w : World) :
  firstn 10 samples1 = firstn 10 samples2 ->
  let prompt :=
    "Analyze the following writing samples from the same person and describe their writing style in detail:"
    ++ nl ++ nl ++ join (nl ++ nl) (firstn 10 samples1) ++ nl ++ nl ++
    "Provide a detailed analysis of:" ++ nl ++
    "1. Formality level" ++ nl ++
    "2. Typical sentence length and structure" ++ nl ++
    "3. Common phrases or expressions" ++ nl ++
    "4. Punctuation patterns" ++ nl ++
    "5. Vocabulary choices" ++ nl ++
    "6. Any other distinctive elements" in
  lastPrompt (trace (snd (analyzeWritingStyle env samples1 w))) = Some prompt /\
  fst (analyzeWritingStyle env samples1 w) =
    match generateContent env (trace w) (AI_MODEL (config env)) prompt with
    | Ok text => Ok text
    | Throw _ =>
        Ok "Error analyzing writing style. Please check your API key and internet connection."
    end /\
  analyzeWritingStyle env samples1 w = analyzeWritingStyle env samples2 w /\
  exists text w', analyzeWritingStyle env samples1 w = (Ok text, w').
Proof.
  intros Hsame prompt. unfold analyzeWritingStyle.
  change (slice0 10 samples1) with (firstn 10 samples1).
  change (slice0 10 samples2) with (firstn 10 samples2). rewrite <- Hsame.
  fold prompt.
  unfold try_catch, model_generateContent, external, console_error, external, bind, ret.
  destruct (generateContent env (trace w) (AI_MODEL (config env)) prompt) as [text|e];
    simpl; repeat split; eauto.
Qed.

Lemma style_analysis_reads_first_ten_witness :
  fst (analyzeWritingStyle (Scenario.envWith Scenario.personaConfig (fun _ prompt => Ok prompt))
                           ["I never use capitals"; "see you at noon, ok?"] Scenario.world0)
  = Ok ("Analyze the following writing samples from the same person and describe their writing style in detail:"
        ++ nl ++ nl ++ "I never use capitals" ++ nl ++ nl ++ "see you at noon, ok?" ++ nl ++ nl ++
        "Provide a detailed analysis of:" ++ nl ++
        "1. Formality level" ++ nl ++
        "2. Typical sentence length and structure" ++ nl ++
        "3. Common phrases or expressions" ++ nl ++
        "4. Punctuation patterns" ++ nl ++
        "5. Vocabulary choices" ++ nl ++
        "6. Any other distinctive elements")
  /\
  analyzeWritingStyle (Scenario.envWith Scenario.personaConfig (fun _ prompt => Ok prompt))
                      (Scenario.sampleTexts 10) Scenario.world0
  = analyzeWritingStyle (Scenario.envWith Scenario.personaConfig (fun _ prompt => Ok prompt))
                        (Scenario.sampleTexts 12) Scenario.world0.
Proof.
  split.
  - rewrite (proj1 (proj2 (style_analysis_reads_first_ten
                             (Scenario.envWith Scenario.personaConfig (fun _ prompt => Ok prompt))
                             ["I never use capitals"; "see you at noon, ok?"]
                             ["I never use capitals"; "see you at noon, ok?"]
                             Scenario.world0 eq_refl))).
    reflexivity.
  - assert (Hs : firstn 10 (Scenario.sampleTexts 10) = firstn 10 (Scenario.sampleTexts 12))
      by (vm_compute; reflexivity).
    exact (proj1 (proj2 (proj2 (style_analysis_reads_first_ten
                                  (Scenario.envWith Scenario.personaConfig
                                     (fun _ prompt => Ok prompt))
                                  (Scenario.sampleTexts 10) (Scenario.sampleTexts 12)
                                  Scenario.world0 Hs)))).
Defined.
